(** * Advanced 2D Physics Simulator: a shallow embedding of [Simulator.py]

    The simulator keeps its state in one [SimulationApp] object that owns a
    pymunk [Space], a [Camera], the list of live entities and the score.
    This development embeds that state as a record over an explicit object
    store (entities, bodies, shapes and joints are Python objects that are
    shared by reference), the event handlers and the tick function as
    functions [App -> option App] ([None] stands for a raised exception),
    and proves the properties of the camera transform, the collision
    handlers, the deferred-removal sweep, the drag joint and the reset.

    Python floats are embedded as exact rationals ([Q]): every statement
    below is about the arithmetic the code denotes, not about rounding.
    The pymunk integrator, its queries, [math.sqrt] and the image loader are
    not part of the repository; they are the fields of [Env]. *)

From Stdlib Require Import QArith Qabs Qround Lqa Lia.
From stdpp Require Import gmap strings list fin_maps option.

(** ** Numbers *)

Definition Vec : Type := (Q * Q)%type.

(** [int(x)] on a float truncates toward zero. *)
Definition py_int (q : Q) : Z :=
  if Qle_bool 0 q then Qfloor q else Qceiling q.

Definition vec_of_Z (p : Z * Z) : Vec := (inject_Z (fst p), inject_Z (snd p)).

(** [min(a, b)] and [max(a, b)] return their first argument on ties. *)
Definition py_min (a b : Q) : Q := if Qlt_le_dec b a then b else a.
Definition py_max (a b : Q) : Q := if Qlt_le_dec a b then b else a.

Definition is_zero (q : Q) : bool := Qeq_bool q 0.


(** ** Constants *)

Definition SCREEN_WIDTH : Q := 1000.
Definition SCREEN_HEIGHT : Q := 600.
Definition FPS : Q := 60.
Definition TIME_STEP : Q := 1 / FPS.

Definition COLLISION_TYPE_PLAYER : Z := 1.
Definition COLLISION_TYPE_COIN : Z := 2.
Definition COLLISION_TYPE_BOUNCER : Z := 3.
Definition COLLISION_TYPE_BOX : Z := 4.
Definition COLLISION_TYPE_BALL : Z := 5.

(** ** Camera *)

Record Camera : Type := mkCamera {
  width : Q;
  height : Q;
  offset_x : Q;
  offset_y : Q;
  zoom : Q;
  zoom_speed : Q;
  min_zoom : Q;
  max_zoom : Q;
  pan_speed : Q
}.

Module Camera.

Definition init (w h : Q) : Camera :=
  {| width := w; height := h; offset_x := 0; offset_y := 0; zoom := 1;
     zoom_speed := 5 # 100; min_zoom := 2 # 10; max_zoom := 3;
     pan_speed := 15 |}.

Definition with_view (c : Camera) (ox oy z : Q) : Camera :=
  {| width := width c; height := height c; offset_x := ox; offset_y := oy;
     zoom := z; zoom_speed := zoom_speed c; min_zoom := min_zoom c;
     max_zoom := max_zoom c; pan_speed := pan_speed c |}.

(** The two screen coordinates before [apply] truncates them. *)
Definition screen_x (c : Camera) (x : Q) : Q :=
  (x * zoom c - offset_x c * zoom c + width c / 2 * (1 - zoom c))%Q.
Definition screen_y (c : Camera) (y : Q) : Q :=
  (y * zoom c - offset_y c * zoom c + height c / 2 * (1 - zoom c))%Q.

(** [Camera.apply]: world coordinates to (integer) screen coordinates. *)
Definition apply (c : Camera) (target_pos : Vec) : Z * Z :=
  (py_int (screen_x c (fst target_pos)), py_int (screen_y c (snd target_pos))).

(** [Camera.screen_to_world]; the division raises [ZeroDivisionError]
    when the zoom is zero. *)
Definition screen_to_world (c : Camera) (screen_pos : Vec) : option Vec :=
  let world_x_no_zoom :=
    (fst screen_pos - width c / 2 * (1 - zoom c) + offset_x c * zoom c)%Q in
  let world_y_no_zoom :=
    (snd screen_pos - height c / 2 * (1 - zoom c) + offset_y c * zoom c)%Q in
  if is_zero (zoom c) then None
  else Some ((world_x_no_zoom / zoom c)%Q, (world_y_no_zoom / zoom c)%Q).

Definition zoom_in (c : Camera) : Camera :=
  with_view c (offset_x c) (offset_y c)
    (py_min (max_zoom c) (zoom c + zoom_speed c)%Q).

Definition zoom_out (c : Camera) : Camera :=
  with_view c (offset_x c) (offset_y c)
    (py_max (min_zoom c) (zoom c - zoom_speed c)%Q).

Definition pan (c : Camera) (dx dy : Q) : option Camera :=
  if is_zero (zoom c) then None
  else Some (with_view c (offset_x c + dx / zoom c)%Q
                         (offset_y c + dy / zoom c)%Q (zoom c)).


End Camera.

(** ** Objects

    Bodies, shapes, joints and entities are Python objects shared by
    reference: an entity is reachable from [entities], from
    [controllable_object], from the sprite group and from its shape's
    [parent_sprite].  They live in stores indexed by object identity. *)

Inductive BodyType : Type := DYNAMIC | KINEMATIC | STATIC.

#[global] Instance BodyType_eq_dec : EqDecision BodyType.
Proof. solve_decision. Defined.

(** A pymunk body.  [mass = None] is [float('inf')].  The integrator is a
    black box, so a call of [apply_force_at_local_point] or
    [apply_impulse_at_local_point] is recorded on the body as the pair
    (vector, local point) it was called with, most recent first. *)
Record Body : Type := mkBody {
  body_type : BodyType;
  mass : option Q;
  position : Vec;
  angle : Q;
  forces : list (Vec * Vec);
  impulses : list (Vec * Vec)
}.

Inductive Geometry : Type :=
  | Circle (radius : Q)
  | Poly (size : Z * Z)
  | Segment (a b : Vec) (radius : Q).

(** A pymunk shape; [parent_sprite] is the attribute the entity constructor
    attaches to it ([None] when the shape has no such attribute). *)
Record Shape : Type := mkShape {
  shape_body : nat;
  geometry : Geometry;
  collision_type : Z;
  parent_sprite : option nat
}.

Record PivotJoint : Type := mkPivotJoint {
  joint_a : nat;
  joint_b : nat;
  anchor_a : Vec;
  anchor_b : Vec;
  max_force : Q;
  error_bias : Q
}.

(** The classes of the hierarchy under [Entity], each with the attributes
    its constructor adds. *)
Inductive EntityClass : Type :=
  | EntityBase
  | ControllableEntity (force_magnitude : Q)
  | BoxEntity
  | BouncerEntity (bounce_force : Q)
  | CoinEntity (value : Z).

Definition is_CoinEntity (c : EntityClass) : bool :=
  match c with CoinEntity _ => true | _ => false end.
Definition is_BouncerEntity (c : EntityClass) : bool :=
  match c with BouncerEntity _ => true | _ => false end.
Definition is_ControllableEntity (c : EntityClass) : bool :=
  match c with ControllableEntity _ => true | _ => false end.

Record Entity : Type := mkEntity {
  cls : EntityClass;
  body : nat;
  shape : nat;
  ent_collision_type : Z;
  marked_for_removal : bool;
  image_size : Z * Z;
  rect_center : Vec;
  image_angle : Q
}.

Definition Entity_mark (e : Entity) : Entity :=
  {| cls := cls e; body := body e; shape := shape e;
     ent_collision_type := ent_collision_type e; marked_for_removal := true;
     image_size := image_size e; rect_center := rect_center e;
     image_angle := image_angle e |}.

Definition Entity_with_shape (e : Entity) (s : nat) : Entity :=
  {| cls := cls e; body := body e; shape := s;
     ent_collision_type := ent_collision_type e;
     marked_for_removal := marked_for_removal e;
     image_size := image_size e; rect_center := rect_center e;
     image_angle := image_angle e |}.

Definition Entity_sync (e : Entity) (pos : Vec) (ang : Q) : Entity :=
  {| cls := cls e; body := body e; shape := shape e;
     ent_collision_type := ent_collision_type e;
     marked_for_removal := marked_for_removal e;
     image_size := image_size e; rect_center := pos; image_angle := ang |}.

Definition Body_add_force (b : Body) (f p : Vec) : Body :=
  {| body_type := body_type b; mass := mass b; position := position b;
     angle := angle b; forces := (f, p) :: forces b; impulses := impulses b |}.

Definition Body_add_impulse (b : Body) (j p : Vec) : Body :=
  {| body_type := body_type b; mass := mass b; position := position b;
     angle := angle b; forces := forces b; impulses := (j, p) :: impulses b |}.

Definition Body_set_position (b : Body) (pos : Vec) : Body :=
  {| body_type := body_type b; mass := mass b; position := pos;
     angle := angle b; forces := forces b; impulses := impulses b |}.

(** What one integration step leaves in a body: a new position and angle,
    and the accumulated forces cleared. *)
Definition Body_moved (b : Body) (m : Vec * Q) : Body :=
  {| body_type := body_type b; mass := mass b; position := fst m;
     angle := snd m; forces := []; impulses := impulses b |}.

(** ** The pymunk Space

    [bodies], [shapes] and [constraints] are the objects currently added.
    [add] of an object that is already there and [remove] of one that is
    not are assertion failures in pymunk. *)
Record Space : Type := mkSpace {
  bodies : gset nat;
  shapes : gset nat;
  constraints : gset nat;
  gravity : Vec;
  static_body : nat
}.

Module Space.

Definition add_body (b : nat) (s : Space) : option Space :=
  if decide (b ∈ bodies s) then None
  else Some {| bodies := {[b]} ∪ bodies s; shapes := shapes s;
               constraints := constraints s; gravity := gravity s;
               static_body := static_body s |}.

Definition add_shape (x : nat) (s : Space) : option Space :=
  if decide (x ∈ shapes s) then None
  else Some {| bodies := bodies s; shapes := {[x]} ∪ shapes s;
               constraints := constraints s; gravity := gravity s;
               static_body := static_body s |}.

Definition add_constraint (j : nat) (s : Space) : option Space :=
  if decide (j ∈ constraints s) then None
  else Some {| bodies := bodies s; shapes := shapes s;
               constraints := {[j]} ∪ constraints s; gravity := gravity s;
               static_body := static_body s |}.

Definition remove_body (b : nat) (s : Space) : option Space :=
  if decide (b ∈ bodies s)
  then Some {| bodies := bodies s ∖ {[b]}; shapes := shapes s;
               constraints := constraints s; gravity := gravity s;
               static_body := static_body s |}
  else None.

Definition remove_shape (x : nat) (s : Space) : option Space :=
  if decide (x ∈ shapes s)
  then Some {| bodies := bodies s; shapes := shapes s ∖ {[x]};
               constraints := constraints s; gravity := gravity s;
               static_body := static_body s |}
  else None.

Definition remove_constraint (j : nat) (s : Space) : option Space :=
  if decide (j ∈ constraints s)
  then Some {| bodies := bodies s; shapes := shapes s;
               constraints := constraints s ∖ {[j]}; gravity := gravity s;
               static_body := static_body s |}
  else None.

Definition set_gravity (g : Vec) (s : Space) : Space :=
  {| bodies := bodies s; shapes := shapes s; constraints := constraints s;
     gravity := g; static_body := static_body s |}.

End Space.

(** ** The application state *)

Record PointQueryInfo : Type := mkPointQueryInfo {
  pq_shape : option nat;
  pq_point : Vec;
  pq_distance : Q
}.

(** Messages passed to [log_event] (the timestamp and the CSV file are the
    logger's business). *)
Inductive LogMsg : Type :=
  | LogStarted
  | LogAddedPlayer (world_pos : Vec)
  | LogAdded (entity_type_str : string) (world_pos : Vec)
  | LogCollected (value : Z)
  | LogResetting
  | LogReset.

(** What a tick does, in the order it does it; the list in [events] has the
    most recent event first. *)
Inductive Event : Type :=
  | EvStep (dt : Q)
  | EvSampleKeys
  | EvApplyForce (e : nat) (f : Vec)
  | EvSync (e : nat)
  | EvClear
  | EvDraw (e : nat)
  | EvDebugDraw
  | EvPresent (objects : nat) (score : Z).

Record App : Type := mkApp {
  next_id : nat;
  ent_store : gmap nat Entity;
  body_store : gmap nat Body;
  shape_store : gmap nat Shape;
  joint_store : gmap nat PivotJoint;
  space : Space;
  camera : Camera;
  all_sprites : gset nat;
  entities : list nat;
  controllable_object : option nat;
  score : Z;
  selected_shape_drag : option nat;
  mouse_joint : option nat;
  mouse_body : nat;
  pressed_keys : gset string;
  running : bool;
  debug_draw_pymunk : bool;
  data_log : list LogMsg;
  events : list Event
}.

Definition set_next_id (v : nat) (a : App) : App :=
  {| next_id := v; ent_store := ent_store a; body_store := body_store a;
     shape_store := shape_store a; joint_store := joint_store a; space :=
     space a; camera := camera a; all_sprites := all_sprites a; entities :=
     entities a; controllable_object := controllable_object a; score :=
     score a; selected_shape_drag := selected_shape_drag a; mouse_joint :=
     mouse_joint a; mouse_body := mouse_body a; pressed_keys := pressed_keys
     a; running := running a; debug_draw_pymunk := debug_draw_pymunk a;
     data_log := data_log a; events := events a |}.

Definition set_ent_store (v : gmap nat Entity) (a : App) : App :=
  {| next_id := next_id a; ent_store := v; body_store := body_store a;
     shape_store := shape_store a; joint_store := joint_store a; space :=
     space a; camera := camera a; all_sprites := all_sprites a; entities :=
     entities a; controllable_object := controllable_object a; score :=
     score a; selected_shape_drag := selected_shape_drag a; mouse_joint :=
     mouse_joint a; mouse_body := mouse_body a; pressed_keys := pressed_keys
     a; running := running a; debug_draw_pymunk := debug_draw_pymunk a;
     data_log := data_log a; events := events a |}.

Definition set_body_store (v : gmap nat Body) (a : App) : App :=
  {| next_id := next_id a; ent_store := ent_store a; body_store := v;
     shape_store := shape_store a; joint_store := joint_store a; space :=
     space a; camera := camera a; all_sprites := all_sprites a; entities :=
     entities a; controllable_object := controllable_object a; score :=
     score a; selected_shape_drag := selected_shape_drag a; mouse_joint :=
     mouse_joint a; mouse_body := mouse_body a; pressed_keys := pressed_keys
     a; running := running a; debug_draw_pymunk := debug_draw_pymunk a;
     data_log := data_log a; events := events a |}.

Definition set_shape_store (v : gmap nat Shape) (a : App) : App :=
  {| next_id := next_id a; ent_store := ent_store a; body_store :=
     body_store a; shape_store := v; joint_store := joint_store a; space :=
     space a; camera := camera a; all_sprites := all_sprites a; entities :=
     entities a; controllable_object := controllable_object a; score :=
     score a; selected_shape_drag := selected_shape_drag a; mouse_joint :=
     mouse_joint a; mouse_body := mouse_body a; pressed_keys := pressed_keys
     a; running := running a; debug_draw_pymunk := debug_draw_pymunk a;
     data_log := data_log a; events := events a |}.

Definition set_joint_store (v : gmap nat PivotJoint) (a : App) : App :=
  {| next_id := next_id a; ent_store := ent_store a; body_store :=
     body_store a; shape_store := shape_store a; joint_store := v; space :=
     space a; camera := camera a; all_sprites := all_sprites a; entities :=
     entities a; controllable_object := controllable_object a; score :=
     score a; selected_shape_drag := selected_shape_drag a; mouse_joint :=
     mouse_joint a; mouse_body := mouse_body a; pressed_keys := pressed_keys
     a; running := running a; debug_draw_pymunk := debug_draw_pymunk a;
     data_log := data_log a; events := events a |}.

Definition set_space (v : Space) (a : App) : App :=
  {| next_id := next_id a; ent_store := ent_store a; body_store :=
     body_store a; shape_store := shape_store a; joint_store := joint_store
     a; space := v; camera := camera a; all_sprites := all_sprites a;
     entities := entities a; controllable_object := controllable_object a;
     score := score a; selected_shape_drag := selected_shape_drag a;
     mouse_joint := mouse_joint a; mouse_body := mouse_body a; pressed_keys
     := pressed_keys a; running := running a; debug_draw_pymunk :=
     debug_draw_pymunk a; data_log := data_log a; events := events a |}.

Definition set_camera (v : Camera) (a : App) : App :=
  {| next_id := next_id a; ent_store := ent_store a; body_store :=
     body_store a; shape_store := shape_store a; joint_store := joint_store
     a; space := space a; camera := v; all_sprites := all_sprites a;
     entities := entities a; controllable_object := controllable_object a;
     score := score a; selected_shape_drag := selected_shape_drag a;
     mouse_joint := mouse_joint a; mouse_body := mouse_body a; pressed_keys
     := pressed_keys a; running := running a; debug_draw_pymunk :=
     debug_draw_pymunk a; data_log := data_log a; events := events a |}.

Definition set_all_sprites (v : gset nat) (a : App) : App :=
  {| next_id := next_id a; ent_store := ent_store a; body_store :=
     body_store a; shape_store := shape_store a; joint_store := joint_store
     a; space := space a; camera := camera a; all_sprites := v; entities :=
     entities a; controllable_object := controllable_object a; score :=
     score a; selected_shape_drag := selected_shape_drag a; mouse_joint :=
     mouse_joint a; mouse_body := mouse_body a; pressed_keys := pressed_keys
     a; running := running a; debug_draw_pymunk := debug_draw_pymunk a;
     data_log := data_log a; events := events a |}.

Definition set_entities (v : list nat) (a : App) : App :=
  {| next_id := next_id a; ent_store := ent_store a; body_store :=
     body_store a; shape_store := shape_store a; joint_store := joint_store
     a; space := space a; camera := camera a; all_sprites := all_sprites a;
     entities := v; controllable_object := controllable_object a; score :=
     score a; selected_shape_drag := selected_shape_drag a; mouse_joint :=
     mouse_joint a; mouse_body := mouse_body a; pressed_keys := pressed_keys
     a; running := running a; debug_draw_pymunk := debug_draw_pymunk a;
     data_log := data_log a; events := events a |}.

Definition set_controllable_object (v : option nat) (a : App) : App :=
  {| next_id := next_id a; ent_store := ent_store a; body_store :=
     body_store a; shape_store := shape_store a; joint_store := joint_store
     a; space := space a; camera := camera a; all_sprites := all_sprites a;
     entities := entities a; controllable_object := v; score := score a;
     selected_shape_drag := selected_shape_drag a; mouse_joint :=
     mouse_joint a; mouse_body := mouse_body a; pressed_keys := pressed_keys
     a; running := running a; debug_draw_pymunk := debug_draw_pymunk a;
     data_log := data_log a; events := events a |}.

Definition set_score (v : Z) (a : App) : App :=
  {| next_id := next_id a; ent_store := ent_store a; body_store :=
     body_store a; shape_store := shape_store a; joint_store := joint_store
     a; space := space a; camera := camera a; all_sprites := all_sprites a;
     entities := entities a; controllable_object := controllable_object a;
     score := v; selected_shape_drag := selected_shape_drag a; mouse_joint
     := mouse_joint a; mouse_body := mouse_body a; pressed_keys :=
     pressed_keys a; running := running a; debug_draw_pymunk :=
     debug_draw_pymunk a; data_log := data_log a; events := events a |}.

Definition set_selected_shape_drag (v : option nat) (a : App) : App :=
  {| next_id := next_id a; ent_store := ent_store a; body_store :=
     body_store a; shape_store := shape_store a; joint_store := joint_store
     a; space := space a; camera := camera a; all_sprites := all_sprites a;
     entities := entities a; controllable_object := controllable_object a;
     score := score a; selected_shape_drag := v; mouse_joint := mouse_joint
     a; mouse_body := mouse_body a; pressed_keys := pressed_keys a; running
     := running a; debug_draw_pymunk := debug_draw_pymunk a; data_log :=
     data_log a; events := events a |}.

Definition set_mouse_joint (v : option nat) (a : App) : App :=
  {| next_id := next_id a; ent_store := ent_store a; body_store :=
     body_store a; shape_store := shape_store a; joint_store := joint_store
     a; space := space a; camera := camera a; all_sprites := all_sprites a;
     entities := entities a; controllable_object := controllable_object a;
     score := score a; selected_shape_drag := selected_shape_drag a;
     mouse_joint := v; mouse_body := mouse_body a; pressed_keys :=
     pressed_keys a; running := running a; debug_draw_pymunk :=
     debug_draw_pymunk a; data_log := data_log a; events := events a |}.

Definition set_pressed_keys (v : gset string) (a : App) : App :=
  {| next_id := next_id a; ent_store := ent_store a; body_store :=
     body_store a; shape_store := shape_store a; joint_store := joint_store
     a; space := space a; camera := camera a; all_sprites := all_sprites a;
     entities := entities a; controllable_object := controllable_object a;
     score := score a; selected_shape_drag := selected_shape_drag a;
     mouse_joint := mouse_joint a; mouse_body := mouse_body a; pressed_keys
     := v; running := running a; debug_draw_pymunk := debug_draw_pymunk a;
     data_log := data_log a; events := events a |}.

Definition set_debug_draw_pymunk (v : bool) (a : App) : App :=
  {| next_id := next_id a; ent_store := ent_store a; body_store :=
     body_store a; shape_store := shape_store a; joint_store := joint_store
     a; space := space a; camera := camera a; all_sprites := all_sprites a;
     entities := entities a; controllable_object := controllable_object a;
     score := score a; selected_shape_drag := selected_shape_drag a;
     mouse_joint := mouse_joint a; mouse_body := mouse_body a; pressed_keys
     := pressed_keys a; running := running a; debug_draw_pymunk := v;
     data_log := data_log a; events := events a |}.

Definition set_data_log (v : list LogMsg) (a : App) : App :=
  {| next_id := next_id a; ent_store := ent_store a; body_store :=
     body_store a; shape_store := shape_store a; joint_store := joint_store
     a; space := space a; camera := camera a; all_sprites := all_sprites a;
     entities := entities a; controllable_object := controllable_object a;
     score := score a; selected_shape_drag := selected_shape_drag a;
     mouse_joint := mouse_joint a; mouse_body := mouse_body a; pressed_keys
     := pressed_keys a; running := running a; debug_draw_pymunk :=
     debug_draw_pymunk a; data_log := v; events := events a |}.

Definition set_events (v : list Event) (a : App) : App :=
  {| next_id := next_id a; ent_store := ent_store a; body_store :=
     body_store a; shape_store := shape_store a; joint_store := joint_store
     a; space := space a; camera := camera a; all_sprites := all_sprites a;
     entities := entities a; controllable_object := controllable_object a;
     score := score a; selected_shape_drag := selected_shape_drag a;
     mouse_joint := mouse_joint a; mouse_body := mouse_body a; pressed_keys
     := pressed_keys a; running := running a; debug_draw_pymunk :=
     debug_draw_pymunk a; data_log := data_log a; events := v |}.

(** ** The environment

    Everything the code calls but does not define.  The laws are the
    guarantees of those libraries that the proofs rely on: [math.sqrt] of a
    number at least one is positive, and pymunk reports contacts and query
    hits only for shapes that are in the Space. *)
Record Env : Type := mkEnv {
  math_sqrt : Q → Q;
  normalized : Vec → Vec;
  world_to_local : Body → Vec → Vec;
  load_image : string → Q → Z * Z;
  point_query_nearest :
    Space → gmap nat Body → gmap nat Shape → Vec → Q → option PointQueryInfo;
  begin_contacts :
    Space → gmap nat Body → gmap nat Shape → Q → list (nat * nat);
  integrate :
    Space → gmap nat Body → gmap nat Shape → gmap nat PivotJoint →
    list (nat * nat * bool) → Q → nat → Body → Vec * Q;
  math_sqrt_pos : ∀ x, (1 <= x)%Q → (0 < math_sqrt x)%Q;
  point_query_in_space : ∀ sp bs ss p r info s,
    point_query_nearest sp bs ss p r = Some info →
    pq_shape info = Some s → s ∈ shapes sp;
  begin_contacts_in_space : ∀ sp bs ss dt s1 s2,
    (s1, s2) ∈ begin_contacts sp bs ss dt → s1 ∈ shapes sp ∧ s2 ∈ shapes sp
}.

(** ** Small helpers *)

(** The local point [(0, 0)]: the body's centre of gravity. *)
Definition vzero : Vec := (0%Q, 0%Q).

Definition vsub (a b : Vec) : Vec := ((fst a - fst b)%Q, (snd a - snd b)%Q).
Definition vscale (a : Vec) (k : Q) : Vec := ((fst a * k)%Q, (snd a * k)%Q).

(** [list.remove(x)]: drops the first occurrence, [ValueError] if there is
    none. *)
Fixpoint py_list_remove (x : nat) (l : list nat) : option (list nat) :=
  match l with
  | [] => None
  | y :: l' => if decide (x = y) then Some l'
               else l'' ← py_list_remove x l'; Some (y :: l'')
  end.

Definition lower_ascii (c : Ascii.ascii) : Ascii.ascii :=
  let n := Ascii.nat_of_ascii c in
  if (65 <=? n)%nat && (n <=? 90)%nat then Ascii.ascii_of_nat (n + 32) else c.

Fixpoint lower (s : string) : string :=
  match s with
  | EmptyString => EmptyString
  | String c s' => String (lower_ascii c) (lower s')
  end.

Definition log_event (m : LogMsg) (a : App) : App :=
  set_data_log (m :: data_log a) a.

Definition emit (ev : Event) (a : App) : App :=
  set_events (ev :: events a) a.

(** A new Python object: its identity is the next unused index. *)
Definition alloc (a : App) : nat * App :=
  (next_id a, set_next_id (S (next_id a)) a).

Definition alive (e : nat) (a : App) : bool := bool_decide (e ∈ all_sprites a).

Definition is_marked (a : App) (e : nat) : bool :=
  match ent_store a !! e with
  | Some ent => marked_for_removal ent
  | None => false
  end.

Section Simulator.

Variable env : Env.

(** ** Entities *)

(** [Entity.__init__]: the body and the default circle shape are created
    and both are added to the Space.  Returns the new entity. *)
Definition Entity_init (c : EntityClass) (pos : Vec) (image_path : string)
    (m : option Q) (radius scale : Q) (is_static : bool) (ctype : Z)
    (a : App) : option (nat * App) :=
  let '(self, a) := alloc a in
  let body_type := if is_static then STATIC else DYNAMIC in
  let m := if is_static then None else m in
  let '(b, a) := alloc a in
  let a := set_body_store (<[b := mkBody body_type m pos 0 [] []]> (body_store a)) a in
  let '(s, a) := alloc a in
  let a := set_shape_store
             (<[s := mkShape b (Circle radius) ctype (Some self)]> (shape_store a)) a in
  let a := set_ent_store
             (<[self := mkEntity c b s ctype false (load_image env image_path scale) pos 0]>
                (ent_store a)) a in
  sp ← Space.add_body b (space a);
  sp ← Space.add_shape s sp;
  Some (self, set_space sp a).

(** [Entity.kill_entity] *)
Definition kill_entity (self : nat) (a : App) : option App :=
  ent ← ent_store a !! self;
  sp ← (if decide (body ent ∈ bodies (space a))
        then Space.remove_body (body ent) (space a) else Some (space a));
  sp ← (if decide (shape ent ∈ shapes sp)
        then Space.remove_shape (shape ent) sp else Some sp);
  Some (set_all_sprites (all_sprites a ∖ {[self]}) (set_space sp a)).

(** [Entity.update] *)
Definition Entity_update (self : nat) (a : App) : option App :=
  ent ← ent_store a !! self;
  if marked_for_removal ent then kill_entity self a
  else
    b ← body_store a !! body ent;
    if decide (body_type b = DYNAMIC)
    then Some (emit (EvSync self)
                 (set_ent_store
                    (<[self := Entity_sync ent (position b) (angle b)]> (ent_store a)) a))
    else Some a.

(** [Entity.draw]: nothing is drawn for a sprite that is in no group, nor
    when the scaled image has an empty side. *)
Definition Entity_draw (self : nat) (a : App) : option App :=
  ent ← ent_store a !! self;
  if negb (alive self a) then Some a
  else
    let scaled_width := py_int (inject_Z (fst (image_size ent)) * zoom (camera a)) in
    let scaled_height := py_int (inject_Z (snd (image_size ent)) * zoom (camera a)) in
    if ((scaled_width <=? 0) || (scaled_height <=? 0))%Z then Some a
    else Some (emit (EvDraw self) a).

Definition ControllableEntity_init (pos : Vec) (a : App) : option (nat * App) :=
  Entity_init (ControllableEntity 20000) pos "ball.png" (Some 5%Q) 15 (1 # 10)
    false COLLISION_TYPE_PLAYER a.

(** [ControllableEntity.apply_force] *)
Definition apply_force (self : nat) (direction_vector : Vec) (a : App) : option App :=
  ent ← ent_store a !! self;
  match cls ent with
  | ControllableEntity force_magnitude =>
      let force_x := (fst direction_vector * force_magnitude)%Q in
      let force_y := (snd direction_vector * force_magnitude)%Q in
      b ← body_store a !! body ent;
      Some (emit (EvApplyForce self (force_x, force_y))
              (set_body_store
                 (<[body ent := Body_add_force b (force_x, force_y) vzero]> (body_store a)) a))
  | _ => None
  end.

(** [BoxEntity.__init__]: the default circle is taken out of the Space and
    replaced by a box the size of the image. *)
Definition BoxEntity_init (pos : Vec) (image_path : string) (scale : Q)
    (m : Q) (is_static : bool) (a : App) : option (nat * App) :=
  '(self, a) ← Entity_init BoxEntity pos image_path (Some m) 1 scale is_static
                 COLLISION_TYPE_BOX a;
  ent ← ent_store a !! self;
  sp ← Space.remove_shape (shape ent) (space a);
  let actual_size := image_size ent in
  let '(s, a) := alloc a in
  let a := set_shape_store
             (<[s := mkShape (body ent) (Poly actual_size) COLLISION_TYPE_BOX (Some self)]>
                (shape_store a)) a in
  let a := set_ent_store (<[self := Entity_with_shape ent s]> (ent_store a)) a in
  sp ← Space.add_shape s sp;
  Some (self, set_space sp a).

Definition BouncerEntity_init (pos : Vec) (is_static : bool) (a : App)
    : option (nat * App) :=
  Entity_init (BouncerEntity 500000) pos "bouncer.png" None 25 (2 # 10)
    is_static COLLISION_TYPE_BOUNCER a.

(** [BouncerEntity.on_collision] *)
Definition on_collision (self : nat) (other_shape : nat) (a : App) : option App :=
  ent ← ent_store a !! self;
  match cls ent with
  | BouncerEntity bounce_force =>
      osh ← shape_store a !! other_shape;
      ob ← body_store a !! shape_body osh;
      if decide (body_type ob = DYNAMIC) then
        sb ← body_store a !! body ent;
        let direction := normalized env (vsub (position ob) (position sb)) in
        Some (set_body_store
                (<[shape_body osh :=
                     Body_add_impulse ob
                       (vscale (vscale direction bounce_force) TIME_STEP) vzero]>
                   (body_store a)) a)
      else Some a
  | _ => None
  end.

Definition CoinEntity_init (pos : Vec) (a : App) : option (nat * App) :=
  Entity_init (CoinEntity 10) pos "coin.png" (Some 1%Q) 10 (7 # 100)
    false COLLISION_TYPE_COIN a.

(** [CoinEntity.on_collected] *)
Definition on_collected (self : nat) (a : App) : option App :=
  ent ← ent_store a !! self;
  match cls ent with
  | CoinEntity value =>
      let a := set_score (score a + value)%Z a in
      let a := log_event (LogCollected value) a in
      Some (set_ent_store (<[self := Entity_mark ent]> (ent_store a)) a)
  | _ => None
  end.

(** ** Collision handlers ([_setup_collision_handlers])

    A [begin] callback gets the two shapes of the arbiter and returns the
    new state and whether the contact is accepted. *)

Definition player_collect_coin_begin (arbiter : nat * nat) (a : App)
    : option (App * bool) :=
  let '(player_shape, coin_shape) := arbiter in
  csh ← shape_store a !! coin_shape;
  match parent_sprite csh with
  | Some sprite =>
      ent ← ent_store a !! sprite;
      if is_CoinEntity (cls ent)
      then a ← on_collected sprite a; Some (a, true)
      else Some (a, true)
  | None => Some (a, true)
  end.

Definition bouncer_interaction_begin (arbiter : nat * nat) (a : App)
    : option (App * bool) :=
  let '(bouncer_shape, other_shape) := arbiter in
  bsh ← shape_store a !! bouncer_shape;
  let '(bouncer_shape, other_shape) :=
    if decide (collision_type bsh ≠ COLLISION_TYPE_BOUNCER)
    then (other_shape, bouncer_shape) else (bouncer_shape, other_shape) in
  bsh ← shape_store a !! bouncer_shape;
  match parent_sprite bsh with
  | Some sprite =>
      ent ← ent_store a !! sprite;
      if is_BouncerEntity (cls ent)
      then a ← on_collision sprite other_shape a; Some (a, true)
      else Some (a, true)
  | None => Some (a, true)
  end.

(** How pymunk picks the callback for a new contact between [s1] and [s2]:
    the handler registered for the pair (PLAYER, COIN) gets the shapes in
    that order; any other pair goes to the default handler, which calls the
    wildcard handler of each shape's type with that shape first. *)
Definition dispatch_begin (arbiter : nat * nat) (a : App) : option (App * bool) :=
  let '(s1, s2) := arbiter in
  sh1 ← shape_store a !! s1;
  sh2 ← shape_store a !! s2;
  let t1 := collision_type sh1 in
  let t2 := collision_type sh2 in
  if decide (t1 = COLLISION_TYPE_PLAYER ∧ t2 = COLLISION_TYPE_COIN)
  then player_collect_coin_begin (s1, s2) a
  else if decide (t1 = COLLISION_TYPE_COIN ∧ t2 = COLLISION_TYPE_PLAYER)
  then player_collect_coin_begin (s2, s1) a
  else
    '(a, r1) ← (if decide (t1 = COLLISION_TYPE_BOUNCER)
                then bouncer_interaction_begin (s1, s2) a else Some (a, true));
    '(a, r2) ← (if decide (t2 = COLLISION_TYPE_BOUNCER)
                then bouncer_interaction_begin (s2, s1) a else Some (a, true));
    Some (a, r1 && r2).

Fixpoint run_begin (arbiters : list (nat * nat)) (a : App)
    : option (App * list (nat * nat * bool)) :=
  match arbiters with
  | [] => Some (a, [])
  | arb :: rest =>
      '(a, r) ← dispatch_begin arb a;
      '(a, rs) ← run_begin rest a;
      Some (a, (arb, r) :: rs)
  end.

(** [Space.step(dt)]: the contacts that begin in this step are reported to
    the handlers, then every body of the Space gets the position and angle
    the integrator computes and its accumulated forces are cleared. *)
Definition Space_step (dt : Q) (a : App) : option App :=
  let a := emit (EvStep dt) a in
  let arbiters := begin_contacts env (space a) (body_store a) (shape_store a) dt in
  '(a, accepted) ← run_begin arbiters a;
  let move := integrate env (space a) (body_store a) (shape_store a)
                (joint_store a) accepted dt in
  Some (set_body_store
          (map_imap (λ i b, Some (if decide (i ∈ bodies (space a))
                                  then Body_moved b (move i b) else b))
             (body_store a)) a).

(** ** Spawning *)

Definition screen_center : Vec := ((SCREEN_WIDTH / 2)%Q, (SCREEN_HEIGHT / 2)%Q).

Definition add_player_gui (a : App) : option App :=
  world_pos ← Camera.screen_to_world (camera a) screen_center;
  a ← match controllable_object a with
      | Some old =>
          if alive old a then
            a ← kill_entity old a;
            l ← py_list_remove old (entities a);
            Some (set_entities l a)
          else Some a
      | None => Some a
      end;
  '(obj, a) ← ControllableEntity_init world_pos a;
  let a := set_all_sprites ({[obj]} ∪ all_sprites a) a in
  let a := set_entities (entities a ++ [obj]) a in
  let a := set_controllable_object (Some obj) a in
  Some (log_event (LogAddedPlayer world_pos) a).

Definition _add_object_at_pos (world_pos : Vec) (entity_type_str : string)
    (a : App) : option App :=
  r ← (if decide (entity_type_str = "ball") then
         Some <$> Entity_init EntityBase world_pos "ball.png" (Some 10%Q) 12
                    (8 # 100) false COLLISION_TYPE_BALL a
       else if decide (entity_type_str = "box") then
         Some <$> BoxEntity_init world_pos "box.png" (1 # 10) 20 false a
       else if decide (entity_type_str = "bouncer") then
         Some <$> BouncerEntity_init world_pos true a
       else if decide (entity_type_str = "coin") then
         Some <$> CoinEntity_init world_pos a
       else Some None);
  match r with
  | Some (obj, a) =>
      let a := set_all_sprites ({[obj]} ∪ all_sprites a) a in
      let a := set_entities (entities a ++ [obj]) a in
      Some (log_event (LogAdded entity_type_str world_pos) a)
  | None => Some a
  end.

Definition add_object_at_mouse_center (entity_type_str : string) (a : App)
    : option App :=
  world_pos ← Camera.screen_to_world (camera a) screen_center;
  _add_object_at_pos world_pos entity_type_str a.

Definition add_object_at_click (screen_pos : Vec) (entity_type_str : string)
    (a : App) : option App :=
  world_pos ← Camera.screen_to_world (camera a) screen_pos;
  _add_object_at_pos world_pos entity_type_str a.

(** ** Reset *)

Fixpoint kill_all (l : list nat) (a : App) : option App :=
  match l with
  | [] => Some a
  | entity :: rest => a ← kill_entity entity a; kill_all rest a
  end.

Definition reset_simulation (a : App) : option App :=
  let a := log_event LogResetting a in
  a ← kill_all (entities a) a;
  let a := set_entities [] a in
  let a := set_controllable_object None a in
  let a := set_score 0 a in
  let a := set_camera (Camera.with_view (camera a) 0 0 1) a in
  Some (log_event LogReset a).

(** ** Pointer and keyboard handlers *)

Definition on_mouse_press (x y : Z) (a : App) : option App :=
  if negb (running a) then Some a
  else
    world_pos ← Camera.screen_to_world (camera a) (vec_of_Z (x, y));
    match point_query_nearest env (space a) (body_store a) (shape_store a)
            world_pos 0 with
    | Some point_query =>
        match pq_shape point_query with
        | Some s =>
            sh ← shape_store a !! s;
            b ← body_store a !! shape_body sh;
            if decide (body_type b = DYNAMIC) then
              let a := set_selected_shape_drag (Some s) a in
              let '(pivot, a) := alloc a in
              let a := set_joint_store
                         (<[pivot := mkPivotJoint (mouse_body a) (shape_body sh) vzero
                                       (world_to_local env b world_pos)
                                       (700000 * zoom (camera a))
                                       ((1 - (15 # 100)) ^ 60)]>
                            (joint_store a)) a in
              sp ← Space.add_constraint pivot (space a);
              Some (set_mouse_joint (Some pivot) (set_space sp a))
            else Some a
        | None => Some a
        end
    | None => Some a
    end.

Definition on_mouse_release (a : App) : option App :=
  if negb (running a) then Some a
  else match mouse_joint a with
       | None => Some a
       | Some j =>
           if decide (j ∈ constraints (space a)) then
             sp ← Space.remove_constraint j (space a);
             Some (set_selected_shape_drag None (set_mouse_joint None (set_space sp a)))
           else Some a
       end.

Definition on_right_click (x y : Z) (a : App) : option App :=
  if negb (running a) then Some a
  else add_object_at_click (vec_of_Z (x, y)) "ball" a.

Definition on_mouse_motion (x y : Z) (a : App) : option App :=
  if negb (running a) then Some a
  else
    world_pos ← Camera.screen_to_world (camera a) (vec_of_Z (x, y));
    b ← body_store a !! mouse_body a;
    Some (set_body_store (<[mouse_body a := Body_set_position b world_pos]> (body_store a)) a).

(** [direction] is [None] on Windows and macOS, where the event's [delta]
    decides, and the bound constant on Linux. *)
Definition on_mouse_wheel (delta : Z) (direction : option Z) (a : App) : App :=
  if negb (running a) then a
  else
    let up := match direction with
              | None => (0 <? delta)%Z
              | Some d => (0 <? d)%Z
              end in
    set_camera (if up then Camera.zoom_in (camera a) else Camera.zoom_out (camera a)) a.

Definition on_key_press (keysym : string) (a : App) : App :=
  set_pressed_keys ({[lower keysym]} ∪ pressed_keys a) a.

Definition on_key_release (keysym : string) (a : App) : App :=
  set_pressed_keys (pressed_keys a ∖ {[lower keysym]}) a.

Definition update_gravity_x (value : Q) (a : App) : App :=
  set_space (Space.set_gravity (value, snd (gravity (space a))) (space a)) a.

Definition update_gravity_y (value : Q) (a : App) : App :=
  set_space (Space.set_gravity (fst (gravity (space a)), value) (space a)) a.

Definition toggle_debug_draw (a : App) : App :=
  set_debug_draw_pymunk (negb (debug_draw_pymunk a)) a.

Definition pressed (k : string) (a : App) : bool := bool_decide (k ∈ pressed_keys a).

Definition handle_keyboard_input (a : App) : option App :=
  let a := emit EvSampleKeys a in
  let speed := pan_speed (camera a) in
  let pan_dx := 0%Q in
  let pan_dy := 0%Q in
  let pan_dx := if pressed "left" a then (pan_dx - speed)%Q else pan_dx in
  let pan_dx := if pressed "right" a then (pan_dx + speed)%Q else pan_dx in
  let pan_dy := if pressed "up" a then (pan_dy - speed)%Q else pan_dy in
  let pan_dy := if pressed "down" a then (pan_dy + speed)%Q else pan_dy in
  if negb (is_zero pan_dx) || negb (is_zero pan_dy)
  then c ← Camera.pan (camera a) pan_dx pan_dy; Some (set_camera c a)
  else Some a.

(** ** The tick ([update_simulation]) *)

(** The block "Move controllable object with WASD": [force_dir] before it
    is normalized, then the call of [apply_force]. *)
Definition force_dir (a : App) : Z * Z :=
  let fx := 0%Z in
  let fy := 0%Z in
  let fy := if pressed "w" a then (fy - 1)%Z else fy in
  let fy := if pressed "s" a then (fy + 1)%Z else fy in
  let fx := if pressed "a" a then (fx - 1)%Z else fx in
  let fx := if pressed "d" a then (fx + 1)%Z else fx in
  (fx, fy).

Definition steer (a : App) : option App :=
  match controllable_object a with
  | Some player =>
      if alive player a then
        let '(fx, fy) := force_dir a in
        if negb (fx =? 0)%Z || negb (fy =? 0)%Z then
          let length := math_sqrt env (inject_Z (fx ^ 2 + fy ^ 2)) in
          if is_zero length then None
          else apply_force player ((inject_Z fx / length)%Q, (inject_Z fy / length)%Q) a
        else Some a
      else Some a
  | None => Some a
  end.

(** One turn of the loop "Update all sprites". *)
Definition sweep_one (entity : nat) (a : App) : option App :=
  a ← Entity_update entity a;
  if is_marked a entity && bool_decide (entity ∈ entities a)
  then l ← py_list_remove entity (entities a); Some (set_entities l a)
  else Some a.

Fixpoint sweep (snapshot : list nat) (a : App) : option App :=
  match snapshot with
  | [] => Some a
  | entity :: rest => a ← sweep_one entity a; sweep rest a
  end.

Fixpoint draw_all (l : list nat) (a : App) : option App :=
  match l with
  | [] => Some a
  | entity :: rest => a ← Entity_draw entity a; draw_all rest a
  end.

(** Clearing the surface, the sprites, the optional debug drawing, then the
    HUD, the canvas and the labels (one [EvPresent]). *)
Definition render (a : App) : option App :=
  let a := emit EvClear a in
  a ← draw_all (entities a) a;
  let a := if debug_draw_pymunk a then emit EvDebugDraw a else a in
  Some (emit (EvPresent (length (entities a)) (score a)) a).

Definition update_simulation (a : App) : option App :=
  if negb (running a) then Some a
  else
    a ← Space_step TIME_STEP a;
    a ← handle_keyboard_input a;
    a ← steer a;
    a ← sweep (entities a) a;
    render a.

(** ** Construction ([SimulationApp.__init__]) *)

Definition world_boundaries : list Geometry :=
  let thickness := 50%Q in
  [ Segment ((-5000)%Q, (SCREEN_HEIGHT + thickness)%Q)
            ((SCREEN_WIDTH + 5000)%Q, (SCREEN_HEIGHT + thickness)%Q) thickness;
    Segment ((- thickness)%Q, (-5000)%Q)
            ((- thickness)%Q, (SCREEN_HEIGHT + 5000)%Q) thickness;
    Segment ((SCREEN_WIDTH + thickness)%Q, (-5000)%Q)
            ((SCREEN_WIDTH + thickness)%Q, (SCREEN_HEIGHT + 5000)%Q) thickness;
    Segment ((-5000)%Q, (- thickness)%Q)
            ((SCREEN_WIDTH + 5000)%Q, (- thickness)%Q) thickness ].

Fixpoint add_segments (static_body : nat) (gs : list Geometry) (a : App)
    : option App :=
  match gs with
  | [] => Some a
  | g :: rest =>
      let '(bound, a) := alloc a in
      let a := set_shape_store (<[bound := mkShape static_body g 0 None]> (shape_store a)) a in
      sp ← Space.add_shape bound (space a);
      add_segments static_body rest (set_space sp a)
  end.

Definition _add_boundaries (a : App) : option App :=
  add_segments (static_body (space a)) world_boundaries a.

(** The state before [_add_boundaries] runs: a fresh Space, whose built-in
    static body is object 0, and nothing else. *)
Definition App_blank : App :=
  {| next_id := 1;
     ent_store := ∅;
     body_store := {[ 0%nat := mkBody STATIC None vzero 0 [] [] ]};
     shape_store := ∅;
     joint_store := ∅;
     space := {| bodies := ∅; shapes := ∅; constraints := ∅;
                 gravity := (0%Q, 900%Q); static_body := 0 |};
     camera := Camera.init SCREEN_WIDTH SCREEN_HEIGHT;
     all_sprites := ∅;
     entities := [];
     controllable_object := None;
     score := 0;
     selected_shape_drag := None;
     mouse_joint := None;
     mouse_body := 0;
     pressed_keys := ∅;
     running := false;
     debug_draw_pymunk := false;
     data_log := [];
     events := [] |}.

Definition SimulationApp_init : option App :=
  a ← _add_boundaries App_blank;
  let '(mb, a) := alloc a in
  let a := set_body_store (<[mb := mkBody KINEMATIC None vzero 0 [] []]> (body_store a)) a in
  Some (log_event LogStarted
    {| next_id := next_id a; ent_store := ent_store a; body_store := body_store a;
       shape_store := shape_store a; joint_store := joint_store a; space := space a;
       camera := camera a; all_sprites := all_sprites a; entities := entities a;
       controllable_object := controllable_object a; score := score a;
       selected_shape_drag := None; mouse_joint := None; mouse_body := mb;
       pressed_keys := ∅; running := true;
       debug_draw_pymunk := debug_draw_pymunk a; data_log := data_log a;
       events := events a |}).

(** ** Everything that can happen to a running application *)

Inductive Op : Type :=
  | OpTick
  | OpMousePress (x y : Z)
  | OpMouseRelease
  | OpRightClick (x y : Z)
  | OpMouseMotion (x y : Z)
  | OpMouseWheel (delta : Z) (direction : option Z)
  | OpKeyPress (keysym : string)
  | OpKeyRelease (keysym : string)
  | OpAddPlayer
  | OpAddObject (entity_type_str : string)
  | OpReset
  | OpGravityX (value : Q)
  | OpGravityY (value : Q)
  | OpToggleDebugDraw.

Definition run_op (op : Op) (a : App) : option App :=
  match op with
  | OpTick => update_simulation a
  | OpMousePress x y => on_mouse_press x y a
  | OpMouseRelease => on_mouse_release a
  | OpRightClick x y => on_right_click x y a
  | OpMouseMotion x y => on_mouse_motion x y a
  | OpMouseWheel delta direction => Some (on_mouse_wheel delta direction a)
  | OpKeyPress k => Some (on_key_press k a)
  | OpKeyRelease k => Some (on_key_release k a)
  | OpAddPlayer => add_player_gui a
  | OpAddObject t => add_object_at_mouse_center t a
  | OpReset => reset_simulation a
  | OpGravityX v => Some (update_gravity_x v a)
  | OpGravityY v => Some (update_gravity_y v a)
  | OpToggleDebugDraw => Some (toggle_debug_draw a)
  end.

Fixpoint run_ops (ops : list Op) (a : App) : option App :=
  match ops with
  | [] => Some a
  | op :: rest => a ← run_op op a; run_ops rest a
  end.

(** The states the application can be in between two callbacks. *)
Inductive reachable : App → Prop :=
  | reachable_init a : SimulationApp_init = Some a → reachable a
  | reachable_op op a a' : reachable a → run_op op a = Some a' → reachable a'.

End Simulator.

(** ** Well-formed states

    What holds of the application state between two callbacks.  [wf_core]
    also holds inside a tick, between the collision callbacks and the
    sweep, when coins may be marked; [wf] adds that no live entity is
    marked. *)

Definition class_type (c : EntityClass) : Z :=
  match c with
  | EntityBase => COLLISION_TYPE_BALL
  | ControllableEntity _ => COLLISION_TYPE_PLAYER
  | BoxEntity => COLLISION_TYPE_BOX
  | BouncerEntity _ => COLLISION_TYPE_BOUNCER
  | CoinEntity _ => COLLISION_TYPE_COIN
  end.

(** The four segments [_add_boundaries] creates are the objects 1 to 4. *)
Definition boundary_ids : gset nat := {[ 1%nat; 2%nat; 3%nat; 4%nat ]}.

Definition camera_ok (c : Camera) : Prop :=
  (min_zoom c == 2 # 10)%Q ∧ (max_zoom c == 3)%Q ∧ (zoom_speed c == 5 # 100)%Q ∧
  (min_zoom c <= zoom c)%Q ∧ (zoom c <= max_zoom c)%Q.

Record wf_core (a : App) : Prop := mk_wf_core {
  wf_running : running a = true;
  wf_camera : camera_ok (camera a);
  wf_space_fresh : ∀ x,
    x ∈ bodies (space a) ∨ x ∈ shapes (space a) ∨ x ∈ constraints (space a) →
    x < next_id a;
  wf_store_fresh : ∀ x,
    is_Some (ent_store a !! x) ∨ is_Some (body_store a !! x) ∨
    is_Some (shape_store a !! x) → x < next_id a;
  wf_ent_closed : ∀ e ent, ent_store a !! e = Some ent →
    is_Some (body_store a !! body ent) ∧
    ∃ sh, shape_store a !! shape ent = Some sh ∧ parent_sprite sh = Some e;
  wf_shape_closed : ∀ s sh, shape_store a !! s = Some sh →
    is_Some (body_store a !! shape_body sh) ∧
    (parent_sprite sh = None → collision_type sh = 0%Z) ∧
    ∀ e, parent_sprite sh = Some e →
      ∃ ent, ent_store a !! e = Some ent ∧ collision_type sh = class_type (cls ent);
  wf_space_shapes : ∀ s, s ∈ shapes (space a) →
    ∃ sh, shape_store a !! s = Some sh ∧
      ∀ e, parent_sprite sh = Some e →
        e ∈ entities a ∧ ∃ ent, ent_store a !! e = Some ent ∧ shape ent = s;
  wf_alive : ∀ e, e ∈ all_sprites a ↔ e ∈ entities a;
  wf_nodup : NoDup (entities a);
  wf_ents_dom : ∀ e, e ∈ entities a → is_Some (ent_store a !! e);
  wf_detached : ∀ e ent, ent_store a !! e = Some ent → ¬ e ∈ entities a →
    ¬ body ent ∈ bodies (space a) ∧ ¬ shape ent ∈ shapes (space a);
  wf_ctrl : ∀ c, controllable_object a = Some c →
    ∃ ent, ent_store a !! c = Some ent ∧ is_ControllableEntity (cls ent) = true;
  wf_marked_coin : ∀ e ent, ent_store a !! e = Some ent →
    marked_for_removal ent = true → is_CoinEntity (cls ent) = true;
  wf_coin_value : ∀ e ent v, ent_store a !! e = Some ent →
    cls ent = CoinEntity v → v = 10%Z;
  wf_mouse_body : is_Some (body_store a !! mouse_body a);
  wf_boundary : ∀ s, s ∈ boundary_ids →
    s ∈ shapes (space a) ∧
    ∃ sh, shape_store a !! s = Some sh ∧ parent_sprite sh = None ∧
          shape_body sh = static_body (space a) ∧
          geometry sh ∈ world_boundaries
}.

Definition unmarked (a : App) : Prop :=
  ∀ e, e ∈ entities a → is_marked a e = false.

Definition wf (a : App) : Prop := wf_core a ∧ unmarked a.

(** ** A concrete environment

    An instance of [Env] to run the model on: no motion (the integrator
    leaves every body where it is), a fixed list of contacts and a fixed
    query hit, both reported only when their shapes are in the Space, the
    50 x 50 placeholder for every image, and Newton's iteration for the
    square root. *)

Definition newton_step (x y : Q) : Q := ((y + x / y) / 2)%Q.

Definition sqrt_model (x : Q) : Q :=
  Qred (newton_step x (newton_step x (newton_step x ((x + 1) / 2)))).

Definition normalized_model (v : Vec) : Vec :=
  let n2 := (fst v * fst v + snd v * snd v)%Q in
  if is_zero n2 then vzero
  else (Qred (fst v / sqrt_model n2), Qred (snd v / sqrt_model n2)).

Program Definition still_env (contacts : list (nat * nat)) (hit : option nat)
    : Env :=
  {| math_sqrt := sqrt_model;
     normalized := normalized_model;
     world_to_local := λ b p, vsub p (position b);
     load_image := λ _ _, (50%Z, 50%Z);
     point_query_nearest := λ sp _ _ p _,
       match hit with
       | Some s => if decide (s ∈ shapes sp)
                   then Some (mkPointQueryInfo (Some s) p 0) else None
       | None => None
       end;
     begin_contacts := λ sp _ _ _,
       filter (λ c, c.1 ∈ shapes sp ∧ c.2 ∈ shapes sp) contacts;
     integrate := λ _ _ _ _ _ _ _ b, (position b, angle b) |}.
Next Obligation.
  intros _ _ x Hx. unfold sqrt_model. rewrite Qred_correct.
  assert (Hstep : ∀ u v, (0 < u)%Q → (0 < v)%Q → (0 < newton_step u v)%Q).
  { intros u v Hu Hv. unfold newton_step.
    assert (0 < u / v)%Q by (apply Qlt_shift_div_l; lra).
    apply Qlt_shift_div_l; lra. }
  repeat apply Hstep; try lra.
  apply Qlt_shift_div_l; lra.
Qed.
Next Obligation.
  intros contacts hit sp bs ss p r info s H Hs. simpl in H.
  destruct hit as [h|]; [|done]. case_decide; [|done].
  injection H as <-. simpl in Hs. by injection Hs as <-.
Qed.
Next Obligation.
  intros contacts hit sp bs ss dt s1 s2 H. simpl in H.
  apply list_elem_of_filter in H. tauto.
Qed.

(** ** Concrete cameras and states used in the examples *)



(** The camera of a new application: 1000 x 600, no pan, zoom 1. *)
Definition default_camera : Camera := Camera.init SCREEN_WIDTH SCREEN_HEIGHT.

(** The same view at zoom 2. *)
Definition zoomed_camera : Camera := Camera.with_view default_camera 0 0 2.

(** The nearest-point query at [world_pos] with radius 0 returns the shape
    [s], and the body of [s] is DYNAMIC. *)
Definition dynamic_hit (env : Env) (a : App) (world_pos : Vec) (s : nat) : Prop :=
  ∃ info sh b,
    point_query_nearest env (space a) (body_store a) (shape_store a) world_pos 0
      = Some info ∧
    pq_shape info = Some s ∧ shape_store a !! s = Some sh ∧
    body_store a !! shape_body sh = Some b ∧ body_type b = DYNAMIC.

(** The state [SimulationApp.__init__] leaves: the Space's static body is
    object 0, the four boundary segments are 1 to 4, the pointer body 5. *)
Definition boundary_shape (i : nat) : Shape :=
  mkShape 0 (default (Circle 0) (world_boundaries !! i)) 0 None.

Definition initial_app : App :=
  {| next_id := 6;
     ent_store := ∅;
     body_store := <[5%nat := mkBody KINEMATIC None vzero 0 [] []]>
                     {[ 0%nat := mkBody STATIC None vzero 0 [] [] ]};
     shape_store := <[4%nat := boundary_shape 3]> (<[3%nat := boundary_shape 2]>
                      (<[2%nat := boundary_shape 1]> (<[1%nat := boundary_shape 0]> ∅)));
     joint_store := ∅;
     space := {| bodies := ∅;
                 shapes := {[4%nat]} ∪ ({[3%nat]} ∪ ({[2%nat]} ∪ ({[1%nat]} ∪ ∅)));
                 constraints := ∅;
                 gravity := (0%Q, 900%Q); static_body := 0 |};
     camera := Camera.init SCREEN_WIDTH SCREEN_HEIGHT;
     all_sprites := ∅;
     entities := [];
     controllable_object := None;
     score := 0;
     selected_shape_drag := None;
     mouse_joint := None;
     mouse_body := 5;
     pressed_keys := ∅;
     running := true;
     debug_draw_pymunk := false;
     data_log := [LogStarted];
     events := [] |}.

(** The coin a new contact collects: the entity behind the COIN shape when
    the other shape is the PLAYER's. *)
Definition coin_of (ss : gmap nat Shape) (arbiter : nat * nat) : option nat :=
  sh1 ← ss !! arbiter.1;
  sh2 ← ss !! arbiter.2;
  if decide (collision_type sh1 = COLLISION_TYPE_PLAYER ∧
             collision_type sh2 = COLLISION_TYPE_COIN)
  then parent_sprite sh2
  else if decide (collision_type sh1 = COLLISION_TYPE_COIN ∧
                  collision_type sh2 = COLLISION_TYPE_PLAYER)
  then parent_sprite sh1
  else None.

(** The coins collected by the contacts that begin in the next step. *)
Definition collected (env : Env) (a : App) : list nat :=
  omap (coin_of (shape_store a))
    (begin_contacts env (space a) (body_store a) (shape_store a) TIME_STEP).

(** The events of the latest tick, oldest first, given the events before. *)
Definition new_events (before after : list Event) : list Event :=
  reverse (take (length after - length before) after).

(** ** Relations between a state and its successor, used in the proofs *)

(** Two states that agree on everything [wf_core] reads. *)
Definition same_core (a a' : App) : Prop :=
  running a' = running a ∧ camera a' = camera a ∧ next_id a' = next_id a ∧
  ent_store a' = ent_store a ∧ body_store a' = body_store a ∧
  shape_store a' = shape_store a ∧
  bodies (space a') = bodies (space a) ∧ shapes (space a') = shapes (space a) ∧
  constraints (space a') = constraints (space a) ∧
  static_body (space a') = static_body (space a) ∧
  all_sprites a' = all_sprites a ∧ entities a' = entities a ∧
  controllable_object a' = controllable_object a ∧ mouse_body a' = mouse_body a.

(** The fields no constructor touches. *)
Definition same_rest (a a' : App) : Prop :=
  joint_store a' = joint_store a ∧ camera a' = camera a ∧
  all_sprites a' = all_sprites a ∧ entities a' = entities a ∧
  controllable_object a' = controllable_object a ∧ score a' = score a ∧
  selected_shape_drag a' = selected_shape_drag a ∧
  mouse_joint a' = mouse_joint a ∧ mouse_body a' = mouse_body a ∧
  pressed_keys a' = pressed_keys a ∧ running a' = running a ∧
  debug_draw_pymunk a' = debug_draw_pymunk a ∧ data_log a' = data_log a ∧
  events a' = events a ∧
  constraints (space a') = constraints (space a) ∧
  gravity (space a') = gravity (space a) ∧
  static_body (space a') = static_body (space a).

Definition space_fresh (a : App) : Prop :=
  ∀ x, x ∈ bodies (space a) ∨ x ∈ shapes (space a) ∨ x ∈ constraints (space a) →
       x < next_id a.

(** [a'] is [a] with one more live entity [e], made of new objects. *)
Record spawned (a a' : App) (e : nat) (ent : Entity) : Prop := mk_spawned {
  sp_running : running a' = running a;
  sp_camera : camera a' = camera a;
  sp_mouse_body : mouse_body a' = mouse_body a;
  sp_next : next_id a ≤ next_id a';
  sp_new : next_id a ≤ e ∧ next_id a ≤ body ent ∧ next_id a ≤ shape ent;
  sp_lt : e < next_id a' ∧ body ent < next_id a' ∧ shape ent < next_id a';
  sp_unmarked : marked_for_removal ent = false;
  sp_value : ∀ v, cls ent = CoinEntity v → v = 10%Z;
  sp_ents : ent_store a' = <[e := ent]> (ent_store a);
  sp_bodies : ∃ b, body_store a' = <[body ent := b]> (body_store a);
  sp_shapes_new : ∀ s sh, shape_store a' !! s = Some sh →
    shape_store a !! s = Some sh ∨
    (next_id a ≤ s < next_id a' ∧ shape_body sh = body ent ∧
     parent_sprite sh = Some e ∧ collision_type sh = class_type (cls ent));
  sp_shapes_old : ∀ s sh, shape_store a !! s = Some sh →
    shape_store a' !! s = Some sh;
  sp_shape : is_Some (shape_store a' !! shape ent);
  sp_space_bodies : bodies (space a') = {[body ent]} ∪ bodies (space a);
  sp_space_shapes : shapes (space a') = {[shape ent]} ∪ shapes (space a);
  sp_space_constraints : constraints (space a') = constraints (space a);
  sp_space_static : static_body (space a') = static_body (space a);
  sp_sprites : all_sprites a' = {[e]} ∪ all_sprites a;
  sp_entities : entities a' = entities a ++ [e];
  sp_ctrl : controllable_object a' = controllable_object a ∨
            (controllable_object a' = Some e ∧ is_ControllableEntity (cls ent) = true)
}.

(** The fields [kill_entity] leaves alone. *)
Definition kill_frame (a a' : App) : Prop :=
  next_id a' = next_id a ∧ ent_store a' = ent_store a ∧
  body_store a' = body_store a ∧ shape_store a' = shape_store a ∧
  joint_store a' = joint_store a ∧ camera a' = camera a ∧
  entities a' = entities a ∧ controllable_object a' = controllable_object a ∧
  score a' = score a ∧ selected_shape_drag a' = selected_shape_drag a ∧
  mouse_joint a' = mouse_joint a ∧ mouse_body a' = mouse_body a ∧
  pressed_keys a' = pressed_keys a ∧ running a' = running a ∧
  debug_draw_pymunk a' = debug_draw_pymunk a ∧ data_log a' = data_log a ∧
  events a' = events a ∧
  constraints (space a') = constraints (space a) ∧
  gravity (space a') = gravity (space a) ∧
  static_body (space a') = static_body (space a).

(** [a'] is [a] with the entity [e] killed and taken off [entities]. *)
Record retired (a a' : App) (e : nat) (ent : Entity) : Prop := mk_retired {
  rt_frame : running a' = running a ∧ camera a' = camera a ∧
             next_id a' = next_id a ∧ ent_store a' = ent_store a ∧
             body_store a' = body_store a ∧ shape_store a' = shape_store a ∧
             constraints (space a') = constraints (space a) ∧
             static_body (space a') = static_body (space a) ∧
             controllable_object a' = controllable_object a ∧
             mouse_body a' = mouse_body a;
  rt_bodies : bodies (space a') = bodies (space a) ∖ {[body ent]};
  rt_shapes : shapes (space a') = shapes (space a) ∖ {[shape ent]};
  rt_sprites : all_sprites a' = all_sprites a ∖ {[e]};
  rt_entities : entities a' = filter (λ y, y ≠ e) (entities a)
}.

(** What a callback may change: the score, the log, marks and bodies. *)
Definition callback_frame (a a' : App) : Prop :=
  next_id a' = next_id a ∧ shape_store a' = shape_store a ∧
  joint_store a' = joint_store a ∧ space a' = space a ∧ camera a' = camera a ∧
  all_sprites a' = all_sprites a ∧ entities a' = entities a ∧
  controllable_object a' = controllable_object a ∧
  selected_shape_drag a' = selected_shape_drag a ∧
  mouse_joint a' = mouse_joint a ∧ mouse_body a' = mouse_body a ∧
  pressed_keys a' = pressed_keys a ∧ running a' = running a ∧
  debug_draw_pymunk a' = debug_draw_pymunk a ∧ events a' = events a.

(** The part of the state [Space.step] leaves alone. *)
Definition step_frame (a a' : App) : Prop :=
  next_id a' = next_id a ∧ shape_store a' = shape_store a ∧
  joint_store a' = joint_store a ∧ space a' = space a ∧ camera a' = camera a ∧
  all_sprites a' = all_sprites a ∧ entities a' = entities a ∧
  controllable_object a' = controllable_object a ∧
  selected_shape_drag a' = selected_shape_drag a ∧
  mouse_joint a' = mouse_joint a ∧ mouse_body a' = mouse_body a ∧
  pressed_keys a' = pressed_keys a ∧ running a' = running a ∧
  debug_draw_pymunk a' = debug_draw_pymunk a.

(** The force [steer] applies for the keys held in [a] on a player whose
    [force_magnitude] is [mag]. *)
Definition steering_force (env : Env) (a : App) (mag : Q) : Vec :=
  let '(fx, fy) := force_dir a in
  let length := math_sqrt env (inject_Z (fx ^ 2 + fy ^ 2)) in
  ((inject_Z fx / length * mag)%Q, (inject_Z fy / length * mag)%Q).

(** The fields the removal sweep leaves alone. *)
Definition sweep_frame (a a' : App) : Prop :=
  next_id a' = next_id a ∧ body_store a' = body_store a ∧
  shape_store a' = shape_store a ∧ joint_store a' = joint_store a ∧
  camera a' = camera a ∧ controllable_object a' = controllable_object a ∧
  score a' = score a ∧ selected_shape_drag a' = selected_shape_drag a ∧
  mouse_joint a' = mouse_joint a ∧ mouse_body a' = mouse_body a ∧
  pressed_keys a' = pressed_keys a ∧ running a' = running a ∧
  debug_draw_pymunk a' = debug_draw_pymunk a ∧ data_log a' = data_log a ∧
  constraints (space a') = constraints (space a) ∧
  gravity (space a') = gravity (space a) ∧
  static_body (space a') = static_body (space a).

Definition is_sync_of (a : App) (l : list nat) (ev : Event) : Prop :=
  ∃ e, ev = EvSync e ∧ e ∈ l ∧ is_marked a e = false.

Definition is_draw_of (a : App) (ev : Event) : Prop :=
  ∃ e, ev = EvDraw e ∧ e ∈ entities a ∧ e ∈ all_sprites a.

(** What [steer] does to the state [a]. *)
Definition steer_cases (env : Env) (a a' : App) : Prop :=
  (a' = a ∧
   (controllable_object a = None ∨
    (∃ c, controllable_object a = Some c ∧ alive c a = false) ∨
    force_dir a = (0, 0)%Z))
  ∨ ∃ c ent mag b,
      controllable_object a = Some c ∧ alive c a = true ∧
      ent_store a !! c = Some ent ∧ cls ent = ControllableEntity mag ∧
      body_store a !! body ent = Some b ∧ force_dir a ≠ (0, 0)%Z ∧
      a' = emit (EvApplyForce c (steering_force env a mag))
             (set_body_store
                (<[body ent := Body_add_force b (steering_force env a mag) vzero]>
                   (body_store a)) a).

(** The five phases of one tick from [a] to [a'], with the states between
    them: [a1] after the physics step, the camera [c] after the pan keys,
    [a3] after the steering force, [a4] after the sweep. *)
Record tick_steps (env : Env) (a a1 : App) (c : Camera) (a3 a4 : App)
    (syncs draws : list Event) (a' : App) : Prop := mk_tick_steps {
  ts_step : Space_step env TIME_STEP a = Some a1;
  ts_wf1 : wf_core a1;
  ts_frame1 : step_frame a a1;
  ts_events1 : events a1 = EvStep TIME_STEP :: events a;
  ts_score1 : score a1 = (score a + 10 * Z.of_nat (length (collected env a)))%Z;
  ts_marks1 : ∀ e, is_marked a1 e = is_marked a e || bool_decide (e ∈ collected env a);
  ts_keys : handle_keyboard_input a1 = Some (set_camera c (emit EvSampleKeys a1));
  ts_camera : camera_ok c;
  ts_steer : steer env (set_camera c (emit EvSampleKeys a1)) = Some a3;
  ts_steer_cases : steer_cases env (set_camera c (emit EvSampleKeys a1)) a3;
  ts_wf3 : wf_core a3;
  ts_sweep : sweep (entities a3) a3 = Some a4;
  ts_wf4 : wf_core a4;
  ts_frame4 : sweep_frame a3 a4;
  ts_marks4 : ∀ x, is_marked a4 x = is_marked a3 x;
  ts_entities4 : entities a4 =
    filter (λ x, ¬ (x ∈ entities a3 ∧ is_marked a3 x = true)) (entities a3);
  ts_events4 : events a4 = syncs ++ events a3;
  ts_syncs : Forall (is_sync_of a3 (entities a3)) syncs;
  ts_render : render a4 = Some a';
  ts_final : a' = set_events
                    (EvPresent (length (entities a4)) (score a4) ::
                     (if debug_draw_pymunk a4 then [EvDebugDraw] else []) ++
                     draws ++ EvClear :: events a4) a4;
  ts_draws : Forall (is_draw_of a4) draws
}.

(** ** States and environments for the examples *)

(** No contact ever begins and the pointer hits nothing. *)
Definition quiet_env : Env := still_env [] None.

(** A coin, a bouncer, a box and the player, all spawned at the centre of
    the view.  Objects: coin 6 (body 7, shape 8), bouncer 9 (10, 11), box 12
    (13, shape 15 after the default circle 14), player 16 (17, 18). *)
Definition demo_ops : list Op :=
  [OpAddObject "coin"; OpAddObject "bouncer"; OpAddObject "box"; OpAddPlayer].

Definition demo_state : App :=
  default initial_app (run_ops quiet_env demo_ops initial_app).

(** The player's shape begins contact with the coin's, and the pointer is
    over the player. *)
Definition contact_env : Env := still_env [(18, 8)%nat] (Some 18%nat).




(** ** Notions used to state the further properties *)

(** The direction two opposite keys give: +1 for [pos] alone, -1 for [neg]
    alone, 0 for both or none. *)
Definition key_axis (neg pos : string) (a : App) : Q :=
  ((if pressed pos a then 1 else 0) - (if pressed neg a then 1 else 0))%Q.

(** The entity type strings [_add_object_at_pos] knows. *)
Definition known_types : list string := ["ball"; "box"; "bouncer"; "coin"].

(** The class of the entity [_add_object_at_pos] builds for a type string. *)
Definition type_class (entity_type_str : string) : option EntityClass :=
  if decide (entity_type_str = "ball") then Some EntityBase
  else if decide (entity_type_str = "box") then Some BoxEntity
  else if decide (entity_type_str = "bouncer") then Some (BouncerEntity 500000)
  else if decide (entity_type_str = "coin") then Some (CoinEntity 10)
  else None.

(** What never changes in an entity once it is built, and the same with
    the removal mark. *)
Definition ent_ids (ent : Entity) : EntityClass * nat * nat :=
  (cls ent, body ent, shape ent).

Definition ent_key (ent : Entity) : EntityClass * nat * nat * bool :=
  (cls ent, body ent, shape ent, marked_for_removal ent).

(** The bodies and shapes of the entities on the list, in list order, and
    the players among the entities on the list. *)
Definition live_bodies (a : App) : list nat :=
  omap (λ e, body <$> ent_store a !! e) (entities a).

Definition live_shapes (a : App) : list nat :=
  omap (λ e, shape <$> ent_store a !! e) (entities a).

Definition is_player (a : App) (e : nat) : bool :=
  match ent_store a !! e with
  | Some ent => is_ControllableEntity (cls ent)
  | None => false
  end.

Definition players (a : App) : list nat :=
  filter (λ e, is_player a e = true) (entities a).

(** The class, body and shape of every entity ever built. *)
Definition idm (a : App) : gmap nat (EntityClass * nat * nat) :=
  ent_ids <$> ent_store a.

(** The Space and the entity list agree: the bodies in the Space are the
    bodies of the listed entities, the shapes in the Space are theirs and
    the four boundary segments, and no two entities share a body or a
    shape. *)
Record synced_space (a : App) : Prop := mk_synced_space {
  sy_bodies : ∀ x, x ∈ bodies (space a) ↔
    ∃ e c s, e ∈ entities a ∧ idm a !! e = Some (c, x, s);
  sy_shapes : ∀ x, x ∈ shapes (space a) ↔
    x ∈ boundary_ids ∨ ∃ e c b, e ∈ entities a ∧ idm a !! e = Some (c, b, x);
  sy_inj_body : ∀ e1 e2 c1 c2 b s1 s2,
    idm a !! e1 = Some (c1, b, s1) → idm a !! e2 = Some (c2, b, s2) → e1 = e2;
  sy_inj_shape : ∀ e1 e2 c1 c2 b1 b2 s,
    idm a !! e1 = Some (c1, b1, s) → idm a !! e2 = Some (c2, b2, s) → e1 = e2;
  sy_boundary : ∀ e c b s, idm a !! e = Some (c, b, s) → ¬ s ∈ boundary_ids
}.

(** The only player on the list is [controllable_object], and
    [controllable_object] is on the list. *)
Definition one_player (a : App) : Prop :=
  (∀ e, e ∈ entities a → is_player a e = true → controllable_object a = Some e) ∧
  (∀ p, controllable_object a = Some p → p ∈ entities a ∧ is_player a p = true).

Definition synced (a : App) : Prop := synced_space a ∧ one_player a.

(** What a collision callback keeps: every entity's class, body and shape,
    the Space, the entity list and the player. *)
Definition callback_keeps (a a' : App) : Prop :=
  ent_ids <$> ent_store a' = ent_ids <$> ent_store a ∧ space a' = space a ∧
  entities a' = entities a ∧ controllable_object a' = controllable_object a.

(** [Entity.draw] blits the sprite: it is in the sprite group and its
    image, scaled by the zoom, has no empty side. *)
Definition drawn (a : App) (e : nat) : bool :=
  match ent_store a !! e with
  | Some ent =>
      alive e a &&
      (0 <? py_int (inject_Z (fst (image_size ent)) * zoom (camera a)))%Z &&
      (0 <? py_int (inject_Z (snd (image_size ent)) * zoom (camera a)))%Z
  | None => false
  end.

Definition draw_of (ev : Event) : option nat :=
  match ev with EvDraw e => Some e | _ => None end.

Definition sync_of (ev : Event) : option nat :=
  match ev with EvSync e => Some e | _ => None end.

(** What the pointer handlers leave alone. *)
Definition quiet (a a' : App) : Prop :=
  entities a' = entities a ∧ ent_store a' = ent_store a ∧
  bodies (space a') = bodies (space a) ∧ shapes (space a') = shapes (space a) ∧
  controllable_object a' = controllable_object a ∧ score a' = score a ∧
  gravity (space a') = gravity (space a) ∧ pressed_keys a' = pressed_keys a ∧
  camera a' = camera a.

(** The score, the gravity and the key set after [op], read off the
    callback [op] runs. *)
Definition score_after (env : Env) (op : Op) (a : App) : Z :=
  match op with
  | OpTick => score a + 10 * Z.of_nat (length (collected env a))
  | OpReset => 0
  | _ => score a
  end.

Definition gravity_after (op : Op) (a : App) : Vec :=
  match op with
  | OpGravityX v => (v, snd (gravity (space a)))
  | OpGravityY v => (fst (gravity (space a)), v)
  | _ => gravity (space a)
  end.

Definition keys_after (op : Op) (a : App) : gset string :=
  match op with
  | OpKeyPress k => {[lower k]} ∪ pressed_keys a
  | OpKeyRelease k => pressed_keys a ∖ {[lower k]}
  | _ => pressed_keys a
  end.

(** ** The background grid ([_draw_grid])

    The lines it draws on the surface, in drawing order, each as its two
    end points.  [SCREEN_WIDTH] and [SCREEN_HEIGHT] are the integers 1000
    and 600 here. *)

(** [range(start, stop, step)]; a zero step raises [ValueError]. *)
Definition py_range (start stop step : Z) : option (list Z) :=
  if (step =? 0)%Z then None
  else
    let n := if (0 <? step)%Z then ((stop - start + step - 1) / step)%Z
             else ((start - stop - step - 1) / (- step))%Z in
    Some ((λ k, (start + Z.of_nat k * step)%Z) <$> seq 0 (Z.to_nat n)).

(** [a % b] on integers; [ZeroDivisionError] when [b] is zero. *)
Definition py_mod (a b : Z) : option Z :=
  if (b =? 0)%Z then None else Some (a mod b)%Z.

Definition Line : Type := (Z * Z) * (Z * Z).

Definition _draw_grid (a : App) : option (list Line) :=
  let grid_size := 100%Q in
  let visible_grid_size := py_int (grid_size * zoom (camera a)) in
  if (visible_grid_size <? 20)%Z then Some []
  else
    offset_x ← py_mod (py_int (offset_x (camera a) * zoom (camera a))) visible_grid_size;
    offset_y ← py_mod (py_int (offset_y (camera a) * zoom (camera a))) visible_grid_size;
    xs ← py_range (- offset_x) (py_int SCREEN_WIDTH) visible_grid_size;
    ys ← py_range (- offset_y) (py_int SCREEN_HEIGHT) visible_grid_size;
    Some (((λ x, ((x, 0%Z), (x, py_int SCREEN_HEIGHT))) <$> xs) ++
          ((λ y, ((0%Z, y), (py_int SCREEN_WIDTH, y))) <$> ys)).

(** ** Asset loading ([load_image] and [IMAGE_CACHE])

    An image is embedded as its size.  [image_load] stands for
    [pygame.image.load]: the size of the image in the file, or [None] when
    it raises [pygame.error]. *)
Module Assets.

(** The dictionary [IMAGE_CACHE], most recent entry first; a key is a name
    and a scale factor, compared as Python compares a string and a
    float. *)
Definition Cache : Type := list (string * Q * (Z * Z)).

Fixpoint cache_get (name : string) (scale_factor : Q) (cache : Cache)
    : option (Z * Z) :=
  match cache with
  | [] => None
  | (n, s, img) :: rest =>
      if bool_decide (n = name) && Qeq_bool s scale_factor then Some img
      else cache_get name scale_factor rest
  end.

(** [os.path.join("assets", name)] with the POSIX separator. *)
Definition fullname (name : string) : string :=
  if String.prefix "/" name then name else "assets/" +:+ name.

Definition load_image (image_load : string → option (Z * Z)) (name : string)
    (scale_factor : Q) (cache : Cache) : (Z * Z) * Cache :=
  match cache_get name scale_factor cache with
  | Some img => (img, cache)
  | None =>
      match image_load (fullname name) with
      | None =>
          let fallback_surface := (50%Z, 50%Z) in
          (fallback_surface, (name, scale_factor, fallback_surface) :: cache)
      | Some size =>
          let image :=
            if negb (Qeq_bool scale_factor 1)
            then (Z.max 1 (py_int (inject_Z (fst size) * scale_factor)),
                  Z.max 1 (py_int (inject_Z (snd size) * scale_factor)))
            else size in
          (image, (name, scale_factor, image) :: cache)
      end
  end.



End Assets.

(** ** More states of the example scene *)

(** The player is being dragged: a press at the centre of the view hit its
    shape. *)
Definition dragging_state : App :=
  default demo_state (on_mouse_press contact_env 500 300 demo_state).

(** One tick after the player touched the coin, and a new coin and one
    more tick later. *)
Definition after_coin_tick : App :=
  default demo_state (update_simulation contact_env demo_state).

Definition later_ops : list Op := [OpAddObject "coin"; OpTick].

Definition later_state : App :=
  default after_coin_tick (run_ops contact_env later_ops after_coin_tick).

(** * Properties *)

(** ** Numbers *)



Lemma is_zero_false (q : Q) : (0 < q)%Q → is_zero q = false.
Proof.
  intros Hq. unfold is_zero. destruct (Qeq_bool q 0) eqn:E; [|done].
  apply Qeq_bool_eq in E. lra.
Qed.


(** ** Camera *)

Section CameraFacts.

Variable c : Camera.
Hypothesis zoom_pos : (0 < zoom c)%Q.

Lemma screen_to_world_total (p : Vec) : is_Some (Camera.screen_to_world c p).
Proof. unfold Camera.screen_to_world. rewrite is_zero_false; eauto. Qed.

(** Without the truncation the two transforms are inverse to each other. *)
Lemma screen_to_world_exact (w : Vec) :
  ∃ w', Camera.screen_to_world c (Camera.screen_x c (fst w), Camera.screen_y c (snd w)) = Some w'
        ∧ (fst w' == fst w)%Q ∧ (snd w' == snd w)%Q.
Proof.
  unfold Camera.screen_to_world. rewrite is_zero_false by done.
  eexists; split; [done|]. unfold Camera.screen_x, Camera.screen_y; cbn [fst snd].
  split; field; lra.
Qed.


End CameraFacts.






(** ** The invariant looks at part of the state only *)

Lemma wf_core_same (a a' : App) : same_core a a' → wf_core a → wf_core a'.
Proof.
  intros (Hr & Hc & Hn & He & Hb & Hs & Hsb & Hss & Hsc & Hst & Hal & Hen & Hct & Hm)
    [W_running W_camera W_space_fresh W_store_fresh W_ent_closed W_shape_closed
     W_space_shapes W_alive W_nodup W_ents_dom W_detached W_ctrl W_marked_coin
     W_coin_value W_mouse_body W_boundary].
  constructor;
    rewrite ?Hr, ?Hc, ?Hn, ?He, ?Hb, ?Hs, ?Hsb, ?Hss, ?Hsc, ?Hst, ?Hal, ?Hen, ?Hct, ?Hm;
    assumption.
Qed.

Lemma unmarked_same (a a' : App) :
  ent_store a' = ent_store a → entities a' = entities a → unmarked a → unmarked a'.
Proof. intros He Hl Hu e. unfold is_marked. rewrite He, Hl. apply Hu. Qed.

Lemma same_core_refl (a : App) : same_core a a.
Proof. by repeat split. Qed.

Ltac same_core := by repeat split.

Lemma wf_core_log m a : wf_core a → wf_core (log_event m a).
Proof. apply wf_core_same. same_core. Qed.

Lemma wf_core_emit ev a : wf_core a → wf_core (emit ev a).
Proof. apply wf_core_same. same_core. Qed.

(** Replacing bodies by bodies: the invariant only asks which exist. *)
Lemma wf_core_bodies (bs : gmap nat Body) (a : App) :
  (∀ k, is_Some (bs !! k) ↔ is_Some (body_store a !! k)) →
  wf_core a → wf_core (set_body_store bs a).
Proof.
  intros Hdom
    [W_running W_camera W_space_fresh W_store_fresh W_ent_closed W_shape_closed
     W_space_shapes W_alive W_nodup W_ents_dom W_detached W_ctrl W_marked_coin
     W_coin_value W_mouse_body W_boundary]. constructor; simpl; try assumption; intros.
  - apply W_store_fresh. rewrite <- Hdom. assumption.
  - rewrite Hdom. eauto.
  - rewrite Hdom. eauto.
  - rewrite Hdom. assumption.
Qed.

Lemma insert_existing_dom {A} (m : gmap nat A) (k : nat) (x : A) :
  is_Some (m !! k) → ∀ j, is_Some (<[k := x]> m !! j) ↔ is_Some (m !! j).
Proof.
  intros Hk j. rewrite lookup_insert_is_Some.
  split; [intros [<-|[_ ?]]; done | intros ?; destruct (decide (k = j)); auto].
Qed.

(** Replacing an entity by one of the same class, body and shape. *)
Lemma wf_core_entity (e : nat) (ent ent' : Entity) (a : App) :
  ent_store a !! e = Some ent →
  cls ent' = cls ent → body ent' = body ent → shape ent' = shape ent →
  (marked_for_removal ent' = true → is_CoinEntity (cls ent) = true) →
  wf_core a → wf_core (set_ent_store (<[e := ent']> (ent_store a)) a).
Proof.
  intros He Hc Hb Hs Hm
    [W_running W_camera W_space_fresh W_store_fresh W_ent_closed W_shape_closed
     W_space_shapes W_alive W_nodup W_ents_dom W_detached W_ctrl W_marked_coin
     W_coin_value W_mouse_body W_boundary]. constructor; simpl; try assumption.
  - intros x [Hx|Hx]; [|auto]. apply W_store_fresh. left.
    rewrite insert_existing_dom in Hx; eauto.
  - intros e0 ent0 H0. destruct (decide (e0 = e)) as [->|Hne].
    + rewrite lookup_insert_eq in H0. injection H0 as <-. rewrite Hb, Hs. eauto.
    + rewrite lookup_insert_ne in H0 by done. eauto.
  - intros s sh Hsh. destruct (W_shape_closed _ _ Hsh) as (H1 & H2 & H3).
    repeat split; try done. intros e0 Hp. destruct (H3 _ Hp) as (ent0 & H0 & Ht).
    destruct (decide (e0 = e)) as [->|Hne].
    + exists ent'. rewrite lookup_insert_eq. split; [done|]. rewrite Hc. congruence.
    + exists ent0. by rewrite lookup_insert_ne.
  - intros s Hs0. destruct (W_space_shapes _ Hs0) as (sh & Hsh & Hp).
    exists sh. split; [done|]. intros e0 He0. destruct (Hp _ He0) as (Hin & ent0 & H0 & Hshape).
    split; [done|]. destruct (decide (e0 = e)) as [->|Hne].
    + exists ent'. rewrite lookup_insert_eq. split; [done|]. congruence.
    + exists ent0. by rewrite lookup_insert_ne.
  - intros e0 Hin. rewrite insert_existing_dom; eauto.
  - intros e0 ent0 H0 Hnin. destruct (decide (e0 = e)) as [->|Hne].
    + rewrite lookup_insert_eq in H0. injection H0 as <-. rewrite Hb, Hs. eauto.
    + rewrite lookup_insert_ne in H0 by done. eauto.
  - intros c Hcc. destruct (W_ctrl _ Hcc) as (ent0 & H0 & Hk).
    destruct (decide (c = e)) as [->|Hne].
    + exists ent'. rewrite lookup_insert_eq. split; [done|]. rewrite Hc. congruence.
    + exists ent0. by rewrite lookup_insert_ne.
  - intros e0 ent0 H0 Hmk. destruct (decide (e0 = e)) as [->|Hne].
    + rewrite lookup_insert_eq in H0. injection H0 as <-. rewrite Hc. auto.
    + rewrite lookup_insert_ne in H0 by done. eauto.
  - intros e0 ent0 v H0 Hv. destruct (decide (e0 = e)) as [->|Hne].
    + rewrite lookup_insert_eq in H0. injection H0 as <-. rewrite Hc in Hv. eauto.
    + rewrite lookup_insert_ne in H0 by done. eauto.
Qed.

Lemma wf_core_camera (c : Camera) (a : App) :
  camera_ok c → wf_core a → wf_core (set_camera c a).
Proof. intros Hc
    [W_running W_camera W_space_fresh W_store_fresh W_ent_closed W_shape_closed
     W_space_shapes W_alive W_nodup W_ents_dom W_detached W_ctrl W_marked_coin
     W_coin_value W_mouse_body W_boundary]. constructor; simpl; assumption. Qed.

(** ** What the constructors do *)

Lemma wf_core_spawned (a a' : App) (e : nat) (ent : Entity) :
  wf_core a → spawned a a' e ent → wf_core a'.
Proof.
  intros Hwf Hsp.
  destruct Hsp as
    [S_running S_camera S_mouse_body S_next S_new S_lt S_unmarked S_value
     S_ents S_bodies S_shapes_new S_shapes_old S_shape S_space_bodies S_space_shapes
     S_space_constraints S_static S_sprites S_entities S_ctrl].
  destruct Hwf as
    [W_running W_camera W_space_fresh W_store_fresh W_ent_closed W_shape_closed
     W_space_shapes W_alive W_nodup W_ents_dom W_detached W_ctrl W_marked_coin
     W_coin_value W_mouse_body W_boundary].
  destruct S_new as (Hne & Hnb & Hns). destruct S_lt as (Hle & Hlb & Hls).
  destruct S_bodies as (b & Hb).
  assert (Hbody : ∀ k, is_Some (body_store a !! k) → is_Some (body_store a' !! k)).
  { intros k Hk. rewrite Hb, lookup_insert_is_Some. destruct (decide (body ent = k)); auto. }
  assert (Hold : ∀ e0 ent0, ent_store a !! e0 = Some ent0 → e0 ≠ e).
  { intros e0 ent0 H0 ->. assert (e < next_id a) by (apply W_store_fresh; eauto). lia. }
  assert (Hshape : ∃ sh, shape_store a' !! shape ent = Some sh ∧ parent_sprite sh = Some e).
  { destruct S_shape as [sh Hsh]. exists sh. split; [done|].
    destruct (S_shapes_new _ _ Hsh) as [Ho|(_ & _ & Hp & _)]; [|done].
    assert (shape ent < next_id a) by (apply W_store_fresh; eauto). lia. }
  constructor.
  - congruence.
  - by rewrite S_camera.
  - intros x. rewrite S_space_bodies, S_space_shapes, S_space_constraints.
    rewrite !elem_of_union, !elem_of_singleton.
    intros [[->|Hx]|[[->|Hx]|Hx]]; try lia;
      (assert (x < next_id a) by (apply W_space_fresh; auto); lia).
  - intros x [Hx|[Hx|Hx]].
    + rewrite S_ents, lookup_insert_is_Some in Hx. destruct Hx as [<-|[_ Hx]]; [lia|].
      assert (x < next_id a) by (apply W_store_fresh; auto). lia.
    + rewrite Hb, lookup_insert_is_Some in Hx. destruct Hx as [<-|[_ Hx]]; [lia|].
      assert (x < next_id a) by (apply W_store_fresh; auto). lia.
    + destruct Hx as [sh Hsh]. destruct (S_shapes_new _ _ Hsh) as [Ho|(? & _)]; [|lia].
      assert (x < next_id a) by (apply W_store_fresh; eauto). lia.
  - intros e0 ent0 H0. rewrite S_ents in H0.
    apply lookup_insert_Some in H0 as [[<- <-]|[Hne0 H0]].
    + split; [|done]. rewrite Hb, lookup_insert_eq. eauto.
    + destruct (W_ent_closed _ _ H0) as (Hbd & sh & Hsh & Hp). split; [auto|].
      exists sh. split; [auto|done].
  - intros s sh Hsh. destruct (S_shapes_new _ _ Hsh) as [Ho|(_ & Hbd & Hp & Ht)].
    + destruct (W_shape_closed _ _ Ho) as (H1 & H2 & H3). repeat split; auto.
      intros e0 He0. destruct (H3 _ He0) as (ent0 & H0 & Hty). exists ent0.
      split; [|done]. rewrite S_ents, lookup_insert_ne; [done|].
      intros <-. by eapply Hold.
    + repeat split.
      * rewrite Hbd, Hb, lookup_insert_eq. eauto.
      * congruence.
      * intros e0 He0. exists ent. rewrite S_ents.
        assert (e0 = e) as -> by congruence. by rewrite lookup_insert_eq.
  - intros s. rewrite S_space_shapes, elem_of_union, elem_of_singleton.
    intros [->|Hs].
    + destruct Hshape as (sh & Hsh & Hp). exists sh. split; [done|].
      intros e0 He0. assert (e0 = e) as -> by congruence.
      rewrite S_entities, S_ents, lookup_insert_eq. split; [set_solver|eauto].
    + destruct (W_space_shapes _ Hs) as (sh & Hsh & Hp). exists sh.
      split; [auto|]. intros e0 He0. destruct (Hp _ He0) as (Hin & ent0 & H0 & Hse).
      rewrite S_entities. split; [set_solver|]. exists ent0. split; [|done].
      rewrite S_ents, lookup_insert_ne; [done|]. intros <-. by eapply Hold.
  - intros e0. rewrite S_sprites, S_entities, elem_of_union, elem_of_app,
      elem_of_singleton, list_elem_of_singleton, W_alive. tauto.
  - rewrite S_entities. apply list.NoDup_app. split; [done|]. split; [|apply NoDup_singleton].
    intros e0 Hin. rewrite list_elem_of_singleton. intros ->.
    destruct (W_ents_dom _ Hin) as [ent0 H0]. by eapply Hold.
  - intros e0. rewrite S_entities, elem_of_app, list_elem_of_singleton, S_ents,
      lookup_insert_is_Some. intros [Hin| ->]; [|auto].
    destruct (decide (e = e0)); auto.
  - intros e0 ent0 H0 Hnin. rewrite S_ents in H0. rewrite S_entities in Hnin.
    apply lookup_insert_Some in H0 as [[<- <-]|[Hne0 H0]]; [set_solver|].
    destruct (W_ent_closed _ _ H0) as (Hbd & sh & Hsh & _).
    assert (body ent0 < next_id a) by (apply W_store_fresh; auto).
    assert (shape ent0 < next_id a) by (apply W_store_fresh; eauto).
    destruct (W_detached _ _ H0) as (Hd1 & Hd2); [set_solver|].
    rewrite S_space_bodies, S_space_shapes, !elem_of_union, !elem_of_singleton.
    split; intros [?|?]; try done; lia.
  - intros c Hc. rewrite S_ents. destruct S_ctrl as [Heq|[Heq Hk]].
    + rewrite Heq in Hc. destruct (W_ctrl _ Hc) as (ent0 & H0 & Hk). exists ent0.
      split; [|done]. rewrite lookup_insert_ne; [done|]. intros <-. by eapply Hold.
    + assert (c = e) as -> by congruence. exists ent. by rewrite lookup_insert_eq.
  - intros e0 ent0 H0 Hm. rewrite S_ents in H0.
    apply lookup_insert_Some in H0 as [[<- <-]|[Hne0 H0]]; [congruence|eauto].
  - intros e0 ent0 v H0 Hv. rewrite S_ents in H0.
    apply lookup_insert_Some in H0 as [[<- <-]|[Hne0 H0]]; eauto.
  - rewrite S_mouse_body. auto.
  - intros s Hs. destruct (W_boundary _ Hs) as (Hin & sh & Hsh & Hp).
    rewrite S_space_shapes, S_static. split; [set_solver|]. exists sh. auto.
Qed.

Lemma unmarked_spawned (a a' : App) (e : nat) (ent : Entity) :
  wf_core a → spawned a a' e ent → unmarked a → unmarked a'.
Proof.
  intros Hwf Hsp Hu e0.
  destruct Hsp as
    [S_running S_camera S_mouse_body S_next S_new S_lt S_unmarked S_value
     S_ents S_bodies S_shapes_new S_shapes_old S_shape S_space_bodies S_space_shapes
     S_space_constraints S_static S_sprites S_entities S_ctrl].
  destruct Hwf as
    [W_running W_camera W_space_fresh W_store_fresh W_ent_closed W_shape_closed
     W_space_shapes W_alive W_nodup W_ents_dom W_detached W_ctrl W_marked_coin
     W_coin_value W_mouse_body W_boundary]. unfold is_marked.
  rewrite S_entities, S_ents, elem_of_app, list_elem_of_singleton.
  intros [Hin| ->].
  - rewrite lookup_insert_ne; [by apply Hu|]. intros <-.
    destruct (W_ents_dom _ Hin) as [ent0 H0].
    assert (e < next_id a) by (apply W_store_fresh; eauto). lia.
  - by rewrite lookup_insert_eq.
Qed.

Section Constructors.

Variable env : Env.

Lemma Entity_init_spec c pos img m r sc st ct (a : App) :
  space_fresh a →
  let n := next_id a in
  ∃ a', Entity_init env c pos img m r sc st ct a = Some (n, a') ∧
    same_rest a a' ∧ next_id a' = S (S (S n)) ∧
    ent_store a' =
      <[n := mkEntity c (S n) (S (S n)) ct false (load_image env img sc) pos 0]>
        (ent_store a) ∧
    body_store a' =
      <[S n := mkBody (if st then STATIC else DYNAMIC) (if st then None else m)
                 pos 0 [] []]> (body_store a) ∧
    shape_store a' =
      <[S (S n) := mkShape (S n) (Circle r) ct (Some n)]> (shape_store a) ∧
    bodies (space a') = {[S n]} ∪ bodies (space a) ∧
    shapes (space a') = {[S (S n)]} ∪ shapes (space a).
Proof.
  intros Hfresh n. unfold Entity_init, alloc. cbn -[decide].
  unfold Space.add_body. rewrite decide_False; cycle 1.
  { intros Hin. assert (S n < next_id a) by (apply Hfresh; auto). unfold n in *. lia. }
  cbn -[decide]. unfold Space.add_shape. cbn -[decide]. rewrite decide_False; cycle 1.
  { intros Hin. assert (S (S n) < next_id a) by (apply Hfresh; auto). unfold n in *. lia. }
  cbn. eexists; split; [reflexivity|]. by repeat split.
Qed.

Lemma BoxEntity_init_spec pos img sc m st (a : App) :
  space_fresh a →
  let n := next_id a in
  ∃ a', BoxEntity_init env pos img sc m st a = Some (n, a') ∧
    same_rest a a' ∧ next_id a' = S (S (S (S n))) ∧
    ent_store a' =
      <[n := mkEntity BoxEntity (S n) (S (S (S n))) COLLISION_TYPE_BOX false
               (load_image env img sc) pos 0]> (ent_store a) ∧
    body_store a' =
      <[S n := mkBody (if st then STATIC else DYNAMIC) (if st then None else Some m)
                 pos 0 [] []]> (body_store a) ∧
    shape_store a' =
      <[S (S (S n)) := mkShape (S n) (Poly (load_image env img sc))
                         COLLISION_TYPE_BOX (Some n)]>
        (<[S (S n) := mkShape (S n) (Circle 1) COLLISION_TYPE_BOX (Some n)]>
           (shape_store a)) ∧
    bodies (space a') = {[S n]} ∪ bodies (space a) ∧
    shapes (space a') = {[S (S (S n))]} ∪ shapes (space a).
Proof.
  intros Hfresh n. unfold BoxEntity_init.
  destruct (Entity_init_spec BoxEntity pos img (Some m) 1 sc st COLLISION_TYPE_BOX a Hfresh)
    as (a1 & -> & Hrest & Hn & He & Hb & Hs & Hsb & Hss).
  fold n in He, Hb, Hs, Hsb, Hss, Hn.
  assert (S (S n) ∉ shapes (space a)) as Hnew.
  { intros Hin. assert (S (S n) < next_id a) by (apply Hfresh; auto). unfold n in *. lia. }
  assert (S (S (S n)) ∉ shapes (space a)) as Hnew'.
  { intros Hin. assert (S (S (S n)) < next_id a) by (apply Hfresh; auto). unfold n in *. lia. }
  cbn -[decide]. rewrite He, lookup_insert_eq. cbn -[decide].
  unfold Space.remove_shape. rewrite Hss. rewrite decide_True by set_solver.
  cbn -[decide]. unfold Space.add_shape. cbn -[decide]. rewrite Hn.
  rewrite decide_False; cycle 1.
  { rewrite elem_of_difference, elem_of_union, !elem_of_singleton.
    intros [[?|?] ?]; [lia|done]. }
  cbn -[decide]. eexists; split; [done|].
  destruct Hrest as (?&?&?&?&?&?&?&?&?&?&?&?&?&?&?&?&?).
  cbn. rewrite ?Hn, ?He, ?Hb, ?Hs, ?Hsb, insert_insert_eq.
  repeat split; try done. set_solver.
Qed.

(** Registering the new entity (sprite group, [entities] and, for the
    player, [controllable_object]) completes the spawn. *)
Lemma spawned_of_init c pos img m r sc st (a a1 a2 : App) :
  wf_core a →
  Entity_init env c pos img m r sc st (class_type c) a = Some (next_id a, a1) →
  (∀ v, c = CoinEntity v → v = 10%Z) →
  same_core a1 (set_controllable_object (controllable_object a1)
                  (set_entities (entities a1) (set_all_sprites (all_sprites a1) a2))) →
  all_sprites a2 = {[next_id a]} ∪ all_sprites a1 →
  entities a2 = entities a1 ++ [next_id a] →
  (controllable_object a2 = controllable_object a1 ∨
   (controllable_object a2 = Some (next_id a) ∧ is_ControllableEntity c = true)) →
  spawned a a2 (next_id a)
    (mkEntity c (S (next_id a)) (S (S (next_id a))) (class_type c) false
       (load_image env img sc) pos 0).
Proof.
  intros Hwf Hinit Hval Hsame Hspr Hent Hctrl.
  destruct (Entity_init_spec c pos img m r sc st (class_type c) a (wf_space_fresh _ Hwf))
    as (a1' & Hinit' & Hrest & Hn & He & Hb & Hs & Hsb & Hss).
  rewrite Hinit in Hinit'. injection Hinit' as <-.
  destruct Hrest as (?&Rc&Rs&Re&Rct&?&?&?&Rm&?&Rr&?&?&?&Rcs&?&Rst).
  destruct Hsame as (Sr & Sc & Sn & Se & Sb & Ss & Sbs & Sss & Scs & Sst & _ & _ & _ & Sm).
  cbn in Sr, Sc, Sn, Se, Sb, Ss, Sbs, Sss, Scs, Sst, Sm.
  constructor; cbn [cls body shape marked_for_removal];
    rewrite ?Sr, ?Sc, ?Sn, ?Se, ?Sb, ?Ss, ?Sbs, ?Sss, ?Scs, ?Sst, ?Sm, ?Hspr, ?Hent, ?Hn, ?He,
      ?Hb, ?Hs, ?Hsb, ?Hss, ?Rc, ?Rs, ?Re, ?Rm, ?Rr, ?Rcs; try done; try lia; eauto.
  - intros s sh Hsh. apply lookup_insert_Some in Hsh as [[<- <-]|[? ?]]; [right|by left].
    cbn. repeat split; lia.
  - intros s sh Hsh. rewrite lookup_insert_ne; [done|]. intros <-.
    assert (S (S (next_id a)) < next_id a) by (eapply wf_store_fresh; eauto). lia.
  - rewrite lookup_insert_eq. eauto.
  - destruct Hctrl as [Hco|[Hco ?]]; rewrite Hco, ?Rct; auto.
Qed.

Lemma spawned_of_box pos img sc m st (a a1 a2 : App) :
  wf_core a →
  BoxEntity_init env pos img sc m st a = Some (next_id a, a1) →
  same_core a1 (set_entities (entities a1) (set_all_sprites (all_sprites a1) a2)) →
  all_sprites a2 = {[next_id a]} ∪ all_sprites a1 →
  entities a2 = entities a1 ++ [next_id a] →
  controllable_object a2 = controllable_object a1 →
  spawned a a2 (next_id a)
    (mkEntity BoxEntity (S (next_id a)) (S (S (S (next_id a)))) COLLISION_TYPE_BOX
       false (load_image env img sc) pos 0).
Proof.
  intros Hwf Hinit Hsame Hspr Hent Hctrl.
  destruct (BoxEntity_init_spec pos img sc m st a (wf_space_fresh _ Hwf))
    as (a1' & Hinit' & Hrest & Hn & He & Hb & Hs & Hsb & Hss).
  rewrite Hinit in Hinit'. injection Hinit' as <-.
  destruct Hrest as (?&Rc&Rs&Re&Rct&?&?&?&Rm&?&Rr&?&?&?&Rcs&?&Rst).
  destruct Hsame as (Sr & Sc & Sn & Se & Sb & Ss & Sbs & Sss & Scs & Sst & _ & _ & Sct & Sm).
  cbn in Sr, Sc, Sn, Se, Sb, Ss, Sbs, Sss, Scs, Sst, Sm, Sct.
  constructor; cbn [cls body shape marked_for_removal];
    rewrite ?Sr, ?Sc, ?Sn, ?Se, ?Sb, ?Ss, ?Sbs, ?Sss, ?Scs, ?Sst, ?Sm, ?Hspr, ?Hent, ?Hn, ?He,
      ?Hb, ?Hs, ?Hsb, ?Hss, ?Rc, ?Rs, ?Re, ?Rm, ?Rr, ?Rcs; try done; try lia; eauto.
  - intros s sh Hsh.
    apply lookup_insert_Some in Hsh as [[<- <-]|[? Hsh]]; [right; cbn; repeat split; lia|].
    apply lookup_insert_Some in Hsh as [[<- <-]|[? Hsh]]; [right; cbn; repeat split; lia|].
    by left.
  - intros s sh Hsh.
    assert (s < next_id a) by (eapply wf_store_fresh; eauto).
    rewrite !lookup_insert_ne by lia. done.
  - rewrite lookup_insert_eq. eauto.
  - left. congruence.
Qed.

End Constructors.

(** ** Removing entities *)

Lemma filter_all (P : nat → Prop) `{!∀ x, Decision (P x)} (l : list nat) :
  (∀ x, x ∈ l → P x) → filter P l = l.
Proof.
  induction l as [|y l IH]; [done|]. intros Hall.
  rewrite filter_cons_True by (apply Hall; left).
  f_equal. apply IH. intros x Hx. apply Hall. by right.
Qed.

Lemma py_list_remove_elem (x : nat) (l : list nat) :
  x ∈ l → is_Some (py_list_remove x l).
Proof.
  induction l as [|y l IH]; [by intros ?%elem_of_nil|].
  intros Hin. simpl. case_decide; [eauto|].
  apply elem_of_cons in Hin as [?|Hin]; [done|].
  destruct (IH Hin) as [l' ->]. simpl. eauto.
Qed.

Lemma py_list_remove_NoDup (x : nat) (l : list nat) :
  NoDup l → x ∈ l → py_list_remove x l = Some (filter (λ y, y ≠ x) l).
Proof.
  induction l as [|y l IH]; [by intros _ ?%elem_of_nil|].
  intros [Hy Hl]%list.NoDup_cons Hin. simpl. case_decide as Hxy.
  - subst y. rewrite filter_cons_False by (intros ?; done).
    f_equal. symmetry. apply filter_all. intros z Hz ->. done.
  - apply elem_of_cons in Hin as [?|Hin]; [done|].
    rewrite IH by done. simpl. rewrite filter_cons_True by done. done.
Qed.

Lemma length_filter_ne (x : nat) (l : list nat) :
  NoDup l → x ∈ l → S (length (filter (λ y, y ≠ x) l)) = length l.
Proof.
  induction l as [|y l IH]; [by intros _ ?%elem_of_nil|].
  intros [Hy Hl]%list.NoDup_cons Hin. destruct (decide (y = x)) as [->|Hne].
  - rewrite filter_cons_False by (intros ?; done). simpl. f_equal. f_equal.
    apply filter_all. intros z Hz ->. done.
  - apply elem_of_cons in Hin as [?|Hin]; [done|].
    rewrite filter_cons_True by done. simpl. f_equal. by apply IH.
Qed.

Lemma kill_entity_spec (e : nat) (ent : Entity) (a : App) :
  ent_store a !! e = Some ent →
  ∃ a', kill_entity e a = Some a' ∧ kill_frame a a' ∧
    bodies (space a') = bodies (space a) ∖ {[body ent]} ∧
    shapes (space a') = shapes (space a) ∖ {[shape ent]} ∧
    all_sprites a' = all_sprites a ∖ {[e]}.
Proof.
  intros He. unfold kill_entity. rewrite He. cbn -[decide].
  unfold Space.remove_body, Space.remove_shape.
  destruct (decide (body ent ∈ bodies (space a))) as [Hb|Hb]; cbn -[decide];
    (destruct (decide (shape ent ∈ shapes (space a))) as [Hs|Hs]; cbn;
     (eexists; split; [reflexivity|]; cbn; split; [by repeat split|];
      repeat split; set_solver)).
Qed.

(** Killing an entity whose body, shape and sprite are already gone changes
    nothing at all. *)
Lemma kill_entity_absent (e : nat) (ent : Entity) (a : App) :
  ent_store a !! e = Some ent →
  body ent ∉ bodies (space a) → shape ent ∉ shapes (space a) →
  e ∉ all_sprites a →
  kill_entity e a = Some a.
Proof.
  intros He Hb Hs Hspr. unfold kill_entity. rewrite He. cbn -[decide].
  rewrite decide_False by done. cbn -[decide]. rewrite decide_False by done.
  cbn. f_equal. replace (all_sprites a ∖ {[e]}) with (all_sprites a) by set_solver.
  by destruct a.
Qed.

Lemma wf_core_retired (a a' : App) (e : nat) (ent : Entity) :
  wf_core a → ent_store a !! e = Some ent → retired a a' e ent → wf_core a'.
Proof.
  intros Hwf He Hrt.
  destruct Hrt as [(Fr & Fc & Fn & Fe & Fb & Fs & Fcs & Fst & Fct & Fm) Rb Rs Rsp Ren].
  destruct Hwf as [W_running W_camera W_space_fresh W_store_fresh W_ent_closed
    W_shape_closed W_space_shapes W_alive W_nodup W_ents_dom W_detached W_ctrl
    W_marked_coin W_coin_value W_mouse_body W_boundary].
  constructor;
    rewrite ?Fr, ?Fc, ?Fn, ?Fe, ?Fb, ?Fs, ?Fcs, ?Fst, ?Fct, ?Fm, ?Rb, ?Rs, ?Rsp, ?Ren;
    try assumption.
  - intros x. rewrite !elem_of_difference. intros [[? _]|[[? _]|?]]; apply W_space_fresh; auto.
  - intros s [Hs Hne]%elem_of_difference. rewrite elem_of_singleton in Hne.
    destruct (W_space_shapes _ Hs) as (sh & Hsh & Hp). exists sh. split; [done|].
    intros e0 He0. destruct (Hp _ He0) as (Hin & ent0 & H0 & Hse). split; [|eauto].
    apply list_elem_of_filter. split; [|done]. intros ->. congruence.
  - intros e0. rewrite elem_of_difference, elem_of_singleton, list_elem_of_filter, W_alive.
    tauto.
  - by apply list.NoDup_filter.
  - intros e0 [_ Hin]%list_elem_of_filter. auto.
  - intros e0 ent0 H0 Hnin. rewrite list_elem_of_filter in Hnin.
    rewrite !elem_of_difference, !elem_of_singleton.
    destruct (decide (e0 = e)) as [->|Hne].
    + assert (ent0 = ent) as -> by congruence. tauto.
    + destruct (W_detached _ _ H0) as (? & ?); [tauto|]. tauto.
  - intros s Hs. destruct (W_boundary _ Hs) as (Hin & sh & Hsh & Hp).
    split; [|eauto]. apply elem_of_difference. split; [done|].
    rewrite elem_of_singleton. intros ->.
    destruct (W_ent_closed _ _ He) as (_ & sh' & Hsh' & Hp').
    destruct Hp as [Hp _]. congruence.
Qed.

Lemma unmarked_retired (a a' : App) (e : nat) (ent : Entity) :
  retired a a' e ent → unmarked a → unmarked a'.
Proof.
  intros [(_ & _ & _ & Fe & _) _ _ _ Ren] Hu e0. unfold is_marked.
  rewrite Ren, Fe. intros [_ Hin]%list_elem_of_filter. by apply Hu.
Qed.

(** ** The camera stays in range *)

Lemma camera_ok_zoom_pos (c : Camera) : camera_ok c → (0 < zoom c)%Q.
Proof. intros (Hmin & Hmax & Hsp & Hlo & Hhi). lra. Qed.

Lemma camera_ok_range (c : Camera) :
  camera_ok c → (2 # 10 <= zoom c)%Q ∧ (zoom c <= 3)%Q.
Proof. intros (Hmin & Hmax & Hsp & Hlo & Hhi). split; lra. Qed.

Lemma camera_ok_init (w h : Q) : camera_ok (Camera.init w h).
Proof. unfold camera_ok; simpl. repeat split; try reflexivity; lra. Qed.

Lemma camera_ok_zoom_in (c : Camera) : camera_ok c → camera_ok (Camera.zoom_in c).
Proof.
  intros (Hmin & Hmax & Hsp & Hlo & Hhi). unfold camera_ok, Camera.zoom_in, py_min; simpl.
  destruct (Qlt_le_dec _ _); repeat split; try done; lra.
Qed.

Lemma camera_ok_zoom_out (c : Camera) : camera_ok c → camera_ok (Camera.zoom_out c).
Proof.
  intros (Hmin & Hmax & Hsp & Hlo & Hhi). unfold camera_ok, Camera.zoom_out, py_max; simpl.
  destruct (Qlt_le_dec _ _); repeat split; try done; lra.
Qed.

Lemma camera_ok_pan (c : Camera) (dx dy : Q) :
  camera_ok c → ∃ c', Camera.pan c dx dy = Some c' ∧ camera_ok c' ∧ zoom c' = zoom c.
Proof.
  intros Hok. unfold Camera.pan. rewrite is_zero_false by by apply camera_ok_zoom_pos.
  eexists; split; [done|]. split; [|done]. exact Hok.
Qed.

Lemma camera_ok_reset (c : Camera) : camera_ok c → camera_ok (Camera.with_view c 0 0 1).
Proof.
  intros (Hmin & Hmax & Hsp & Hlo & Hhi). unfold camera_ok; simpl. repeat split; try done; lra.
Qed.

Lemma camera_ok_screen_to_world (c : Camera) (p : Vec) :
  camera_ok c → is_Some (Camera.screen_to_world c p).
Proof. intros Hok. apply screen_to_world_total. by apply camera_ok_zoom_pos. Qed.

Section Operations.

Variable env : Env.

(** ** Spawning keeps the state well formed *)

Lemma _add_object_at_pos_wf (pos : Vec) (t : string) (a : App) :
  wf a → ∃ a', _add_object_at_pos env pos t a = Some a' ∧ wf a' ∧
    score a' = score a ∧ camera a' = camera a ∧
    gravity (space a') = gravity (space a) ∧ events a' = events a ∧
    mouse_joint a' = mouse_joint a ∧
    constraints (space a') = constraints (space a).
Proof.
  intros [Hwf Hun]. unfold _add_object_at_pos.
  pose proof (wf_space_fresh _ Hwf) as Hfresh.
  repeat case_decide.
  - destruct (Entity_init_spec env EntityBase pos "ball.png" (Some 10%Q) 12 (8 # 100)
                false COLLISION_TYPE_BALL a Hfresh)
      as (a1 & Hinit & Hrest & Hn & He & Hb & Hs & Hsb & Hss).
    rewrite Hinit. cbn. eexists; split; [reflexivity|].
    destruct Hrest as (?&?&?&?&?&?&?&?&?&?&?&?&?&?&?&?&?).
    match goal with |- wf ?a2 ∧ _ =>
      assert (spawned a a2 (next_id a) _) as Hsp
        by (eapply (spawned_of_init env EntityBase); eauto; try done; by left) end.
    split; [split; [eapply wf_core_spawned | eapply unmarked_spawned]; eauto|].
    cbn. by repeat split.
  - destruct (BoxEntity_init_spec env pos "box.png" (1 # 10) 20 false a Hfresh)
      as (a1 & Hinit & Hrest & Hn & He & Hb & Hs & Hsb & Hss).
    rewrite Hinit. cbn. eexists; split; [reflexivity|].
    destruct Hrest as (?&?&?&?&?&?&?&?&?&?&?&?&?&?&?&?&?).
    match goal with |- wf ?a2 ∧ _ =>
      assert (spawned a a2 (next_id a) _) as Hsp
        by (eapply (spawned_of_box env); eauto; done) end.
    split; [split; [eapply wf_core_spawned | eapply unmarked_spawned]; eauto|].
    cbn. by repeat split.
  - destruct (Entity_init_spec env (BouncerEntity 500000) pos "bouncer.png" None 25 (2 # 10)
                true COLLISION_TYPE_BOUNCER a Hfresh)
      as (a1 & Hinit & Hrest & Hn & He & Hb & Hs & Hsb & Hss).
    unfold BouncerEntity_init. rewrite Hinit. cbn. eexists; split; [reflexivity|].
    destruct Hrest as (?&?&?&?&?&?&?&?&?&?&?&?&?&?&?&?&?).
    match goal with |- wf ?a2 ∧ _ =>
      assert (spawned a a2 (next_id a) _) as Hsp
        by (eapply (spawned_of_init env (BouncerEntity 500000)); eauto; try done; by left) end.
    split; [split; [eapply wf_core_spawned | eapply unmarked_spawned]; eauto|].
    cbn. by repeat split.
  - destruct (Entity_init_spec env (CoinEntity 10) pos "coin.png" (Some 1%Q) 10 (7 # 100)
                false COLLISION_TYPE_COIN a Hfresh)
      as (a1 & Hinit & Hrest & Hn & He & Hb & Hs & Hsb & Hss).
    unfold CoinEntity_init. rewrite Hinit. cbn. eexists; split; [reflexivity|].
    destruct Hrest as (?&?&?&?&?&?&?&?&?&?&?&?&?&?&?&?&?).
    match goal with |- wf ?a2 ∧ _ =>
      assert (spawned a a2 (next_id a) _) as Hsp
        by (eapply (spawned_of_init env (CoinEntity 10)); eauto; try done;
            try (by intros v [= <-]); by left) end.
    split; [split; [eapply wf_core_spawned | eapply unmarked_spawned]; eauto|].
    cbn. by repeat split.
  - cbn. eexists; split; [reflexivity|]. split; [by split|]. by repeat split.
Qed.

Lemma retire_old_player (a : App) :
  wf a →
  ∃ a1,
    match controllable_object a with
    | Some old =>
        if alive old a then
          a ← kill_entity old a;
          l ← py_list_remove old (entities a);
          Some (set_entities l a)
        else Some a
    | None => Some a
    end = Some a1 ∧ wf a1 ∧
    score a1 = score a ∧ camera a1 = camera a ∧
    gravity (space a1) = gravity (space a) ∧ events a1 = events a ∧
    mouse_joint a1 = mouse_joint a ∧
    constraints (space a1) = constraints (space a) ∧ data_log a1 = data_log a.
Proof.
  intros [Hwf Hun].
  destruct (controllable_object a) as [old|] eqn:Hc; [|by eexists].
  unfold alive. case_bool_decide as Hal; [|by eexists].
  destruct (wf_ctrl _ Hwf _ Hc) as (ent & He & _).
  destruct (kill_entity_spec old ent a He) as (a1 & -> & Hfr & Hkb & Hks & Hksp).
  destruct Hfr as (?&?&?&?&?&?&Hen&?&?&?&?&?&?&?&?&?&?&?&?&?).
  cbn. rewrite Hen.
  rewrite py_list_remove_NoDup; [|by apply wf_nodup|by apply wf_alive].
  cbn. eexists; split; [reflexivity|].
  match goal with |- wf ?a2 ∧ _ =>
    assert (retired a a2 old ent) as Hrt by (constructor; cbn; by repeat split) end.
  split; [split; [eapply wf_core_retired | eapply unmarked_retired]; eauto|].
  cbn. by repeat split.
Qed.

Lemma add_player_gui_wf (a : App) :
  wf a → ∃ a', add_player_gui env a = Some a' ∧ wf a' ∧
    score a' = score a ∧ camera a' = camera a ∧
    gravity (space a') = gravity (space a) ∧ events a' = events a ∧
    mouse_joint a' = mouse_joint a ∧
    constraints (space a') = constraints (space a).
Proof.
  intros Hwfa. unfold add_player_gui.
  destruct (camera_ok_screen_to_world (camera a) screen_center) as [pos ->];
    [apply wf_camera, Hwfa|].
  cbn -[ControllableEntity_init].
  destruct (retire_old_player a Hwfa) as (a1 & -> & [Hwf Hun] & E1 & E2 & E3 & E4 & E5 & E6 & E7).
  cbn -[ControllableEntity_init]. unfold ControllableEntity_init.
  destruct (Entity_init_spec env (ControllableEntity 20000) pos "ball.png" (Some 5%Q) 15
              (1 # 10) false COLLISION_TYPE_PLAYER a1 (wf_space_fresh _ Hwf))
    as (a2 & Hinit & Hrest & Hn & He & Hb & Hs & Hsb & Hss).
  rewrite Hinit. cbn. eexists; split; [reflexivity|].
  destruct Hrest as (?&?&?&?&?&?&?&?&?&?&?&?&?&?&?&?&?).
  match goal with |- wf ?a3 ∧ _ =>
    assert (spawned a1 a3 (next_id a1) _) as Hsp
      by (eapply (spawned_of_init env (ControllableEntity 20000)); eauto; try done;
          by right) end.
  split; [split; [eapply wf_core_spawned | eapply unmarked_spawned]; eauto|].
  cbn. repeat split; congruence.
Qed.

Lemma add_object_at_mouse_center_wf (t : string) (a : App) :
  wf a → ∃ a', add_object_at_mouse_center env t a = Some a' ∧ wf a'.
Proof.
  intros Hwf. unfold add_object_at_mouse_center.
  destruct (camera_ok_screen_to_world (camera a) screen_center) as [pos ->];
    [apply wf_camera, Hwf|].
  cbn. destruct (_add_object_at_pos_wf pos t a Hwf) as (a' & ? & ? & _). eauto.
Qed.

Lemma on_right_click_wf (x y : Z) (a : App) :
  wf a → ∃ a', on_right_click env x y a = Some a' ∧ wf a'.
Proof.
  intros Hwf. unfold on_right_click, add_object_at_click.
  rewrite (wf_running _ (proj1 Hwf)). cbn.
  destruct (camera_ok_screen_to_world (camera a) (vec_of_Z (x, y))) as [pos ->];
    [apply wf_camera, Hwf|].
  cbn. destruct (_add_object_at_pos_wf pos "ball" a Hwf) as (a' & ? & ? & _). eauto.
Qed.

End Operations.

(** ** Reset *)

Lemma kill_all_spec (l : list nat) (a : App) :
  (∀ e, e ∈ l → is_Some (ent_store a !! e)) →
  ∃ a', kill_all l a = Some a' ∧ kill_frame a a' ∧
    (∀ x, x ∈ bodies (space a') ↔
          x ∈ bodies (space a) ∧
          ∀ e ent, e ∈ l → ent_store a !! e = Some ent → x ≠ body ent) ∧
    (∀ x, x ∈ shapes (space a') ↔
          x ∈ shapes (space a) ∧
          ∀ e ent, e ∈ l → ent_store a !! e = Some ent → x ≠ shape ent) ∧
    (∀ x, x ∈ all_sprites a' ↔ x ∈ all_sprites a ∧ x ∉ l).
Proof.
  revert a. induction l as [|e l IH]; intros a Hdom.
  - exists a. split; [done|]. split; [by repeat split|].
    repeat split; try tauto; intros; set_solver.
  - destruct (Hdom e) as [ent He]; [left|].
    destruct (kill_entity_spec e ent a He) as (a1 & Hk & Hfr & Hkb & Hks & Hksp).
    simpl. rewrite Hk. cbn.
    assert (He1 : ent_store a1 = ent_store a) by apply Hfr.
    destruct (IH a1) as (a' & -> & Hfr' & Hb' & Hs' & Hsp').
    { intros e0 Hin. rewrite He1. apply Hdom. by right. }
    eexists; split; [reflexivity|]. split.
    { destruct Hfr as (?&?&?&?&?&?&?&?&?&?&?&?&?&?&?&?&?&?&?&?).
      destruct Hfr' as (?&?&?&?&?&?&?&?&?&?&?&?&?&?&?&?&?&?&?&?).
      repeat split; congruence. }
    rewrite He1 in Hb', Hs'. repeat split.
    + apply Hb' in H. rewrite Hkb in H. set_solver.
    + intros e0 ent0 [->|Hin]%elem_of_cons H0.
      * apply Hb' in H. rewrite Hkb in H. assert (ent0 = ent) as -> by congruence. set_solver.
      * apply Hb' in H. destruct H as [_ H]. eauto.
    + intros [Hx Hall]. apply Hb'. rewrite Hkb. split.
      * apply elem_of_difference. split; [done|]. rewrite elem_of_singleton.
        eapply Hall; [left|done].
      * intros e0 ent0 Hin. apply Hall. by right.
    + apply Hs' in H. rewrite Hks in H. set_solver.
    + intros e0 ent0 [->|Hin]%elem_of_cons H0.
      * apply Hs' in H. rewrite Hks in H. assert (ent0 = ent) as -> by congruence. set_solver.
      * apply Hs' in H. destruct H as [_ H]. eauto.
    + intros [Hx Hall]. apply Hs'. rewrite Hks. split.
      * apply elem_of_difference. split; [done|]. rewrite elem_of_singleton.
        eapply Hall; [left|done].
      * intros e0 ent0 Hin. apply Hall. by right.
    + apply Hsp' in H. rewrite Hksp in H. set_solver.
    + apply Hsp' in H. rewrite Hksp in H. set_solver.
    + intros [Hx Hnin]. apply Hsp'. rewrite Hksp. set_solver.
Qed.

Lemma reset_simulation_spec (a : App) :
  wf_core a →
  ∃ a', reset_simulation a = Some a' ∧ wf a' ∧
    entities a' = [] ∧ score a' = 0%Z ∧ controllable_object a' = None ∧
    camera a' = Camera.with_view (camera a) 0 0 1 ∧
    gravity (space a') = gravity (space a) ∧
    constraints (space a') = constraints (space a) ∧
    static_body (space a') = static_body (space a) ∧
    ent_store a' = ent_store a ∧ body_store a' = body_store a ∧
    shape_store a' = shape_store a ∧ joint_store a' = joint_store a ∧
    mouse_joint a' = mouse_joint a ∧ pressed_keys a' = pressed_keys a ∧
    events a' = events a.
Proof.
  intros Hwf. unfold reset_simulation.
  destruct (kill_all_spec (entities a) (log_event LogResetting a))
    as (a1 & Hk & Hfr & Hb & Hs & Hsp); [apply (wf_ents_dom _ Hwf)|].
  cbv zeta. change (entities (log_event LogResetting a)) with (entities a).
  rewrite Hk. cbn. eexists; split; [reflexivity|].
  destruct Hfr as (Fn&Fe&Fb&Fs&Fj&Fc&Fen&Fct&Fsc&Fsel&Fmj&Fmb&Fpk&Fr&Fd&Fl&Fev&Fcs&Fg&Fsb).
  cbn in Fn, Fe, Fb, Fs, Fj, Fc, Fen, Fct, Fsc, Fsel, Fmj, Fmb, Fpk, Fr, Fd, Fl, Fev, Fcs, Fg,
    Fsb, Hb, Hs, Hsp.
  split; [|cbn; rewrite ?Fc; by repeat split].
  destruct Hwf as [W_running W_camera W_space_fresh W_store_fresh W_ent_closed
    W_shape_closed W_space_shapes W_alive W_nodup W_ents_dom W_detached W_ctrl
    W_marked_coin W_coin_value W_mouse_body W_boundary].
  split; [|by intros e ?%elem_of_nil].
  constructor; cbn; rewrite ?Fn, ?Fe, ?Fb, ?Fs, ?Fc, ?Fmb, ?Fr, ?Fcs, ?Fsb; try assumption.
  - by apply camera_ok_reset.
  - intros x [Hx|[Hx|Hx]]; apply W_space_fresh; [left; by apply Hb|right; left; by apply Hs|auto].
  - intros s [Hin Hall]%Hs. destruct (W_space_shapes _ Hin) as (sh & Hsh & Hp).
    exists sh. split; [done|]. intros e He. destruct (Hp _ He) as (Hine & ent & H0 & Hse).
    exfalso. by eapply Hall.
  - intros e. rewrite Hsp, W_alive. split; [tauto|by intros ?%elem_of_nil].
  - constructor.
  - by intros e ?%elem_of_nil.
  - intros e ent He _. rewrite Hb, Hs. destruct (decide (e ∈ entities a)) as [Hin|Hnin].
    + split; intros [_ Hall]; by eapply Hall.
    + destruct (W_detached _ _ He Hnin). tauto.
  - done.
  - intros s Hin. destruct (W_boundary _ Hin) as (Hs0 & sh & Hsh & Hp).
    split; [|eauto]. apply Hs. split; [done|]. intros e ent Hine He ->.
    destruct (W_ent_closed _ _ He) as (_ & sh' & Hsh' & Hp').
    destruct Hp as [Hp _]. congruence.
Qed.

(** ** The remaining callbacks *)

Lemma on_mouse_wheel_wf (delta : Z) (direction : option Z) (a : App) :
  wf a → wf (on_mouse_wheel delta direction a).
Proof.
  intros [Hwf Hun]. unfold on_mouse_wheel. rewrite (wf_running _ Hwf). cbn.
  split; [|done]. apply wf_core_camera; [|done].
  destruct (match direction with Some d => (0 <? d)%Z | None => (0 <? delta)%Z end);
    [apply camera_ok_zoom_in | apply camera_ok_zoom_out]; apply Hwf.
Qed.

Lemma on_key_press_wf (k : string) (a : App) : wf a → wf (on_key_press k a).
Proof. intros [Hwf Hun]. split; [|done]. eapply wf_core_same; [|done]. same_core. Qed.

Lemma on_key_release_wf (k : string) (a : App) : wf a → wf (on_key_release k a).
Proof. intros [Hwf Hun]. split; [|done]. eapply wf_core_same; [|done]. same_core. Qed.

Lemma update_gravity_x_wf (v : Q) (a : App) : wf a → wf (update_gravity_x v a).
Proof. intros [Hwf Hun]. split; [|done]. eapply wf_core_same; [|done]. same_core. Qed.

Lemma update_gravity_y_wf (v : Q) (a : App) : wf a → wf (update_gravity_y v a).
Proof. intros [Hwf Hun]. split; [|done]. eapply wf_core_same; [|done]. same_core. Qed.

Lemma toggle_debug_draw_wf (a : App) : wf a → wf (toggle_debug_draw a).
Proof. intros [Hwf Hun]. split; [|done]. eapply wf_core_same; [|done]. same_core. Qed.

Lemma on_mouse_motion_wf (x y : Z) (a : App) :
  wf a → ∃ a', on_mouse_motion x y a = Some a' ∧ wf a'.
Proof.
  intros [Hwf Hun]. unfold on_mouse_motion. rewrite (wf_running _ Hwf). cbn.
  destruct (camera_ok_screen_to_world (camera a) (vec_of_Z (x, y))) as [pos ->];
    [apply wf_camera, Hwf|].
  cbn. destruct (wf_mouse_body _ Hwf) as [b Hb]. rewrite Hb. cbn.
  eexists; split; [reflexivity|]. split; [|done].
  apply wf_core_bodies; [|done]. apply insert_existing_dom. eauto.
Qed.

Lemma wf_core_constraints (sp : Space) (a : App) :
  bodies sp = bodies (space a) → shapes sp = shapes (space a) →
  static_body sp = static_body (space a) →
  (∀ x, x ∈ constraints sp → x < next_id a) →
  wf_core a → wf_core (set_space sp a).
Proof.
  intros Hb Hs Hst Hc
    [W_running W_camera W_space_fresh W_store_fresh W_ent_closed W_shape_closed
     W_space_shapes W_alive W_nodup W_ents_dom W_detached W_ctrl W_marked_coin
     W_coin_value W_mouse_body W_boundary]. constructor; cbn; rewrite ?Hb, ?Hs, ?Hst; try assumption.
  intros x [Hx|[Hx|Hx]]; auto.
Qed.

Lemma on_mouse_release_spec (a : App) :
  ∃ a', on_mouse_release a = Some a' ∧ (wf a → wf a') ∧
    on_mouse_release a' = Some a' ∧
    (∀ j, mouse_joint a = Some j → j ∉ constraints (space a) → a' = a).
Proof.
  unfold on_mouse_release. destruct (running a) eqn:Hr; cbn -[decide];
    [|exists a; rewrite Hr; cbn; split; [done|]; split; [done|]; split; done].
  destruct (mouse_joint a) as [j|] eqn:Hj;
    [|exists a; rewrite Hr, Hj; cbn; split; [done|]; split; [done|]; split; done].
  destruct (decide (j ∈ constraints (space a))) as [Hin|Hnin].
  - unfold Space.remove_constraint. rewrite decide_True by done. cbn.
    eexists; split; [reflexivity|]. cbn. rewrite Hr. cbn. split; [|split; [done|]].
    + intros [Hwf Hun]. split; [|done].
      eapply wf_core_same; [|eapply (wf_core_constraints _ a); [..|exact Hwf]];
        [same_core|done|done|done|].
      cbn. intros x [Hx _]%elem_of_difference. apply (wf_space_fresh _ Hwf). auto.
    + intros j' [= <-] Hn. done.
  - exists a. rewrite Hr, Hj. cbn -[decide]. rewrite decide_False by done.
    split; [done|]. split; [done|]. split; done.
Qed.


Lemma SimulationApp_init_eq : SimulationApp_init = Some initial_app.
Proof. vm_compute. reflexivity. Qed.

Lemma initial_app_wf : wf initial_app.
Proof.
  split; [|by intros e ?%elem_of_nil].
  constructor; unfold initial_app;
    cbn [running camera next_id ent_store body_store shape_store space bodies shapes
         constraints all_sprites entities controllable_object mouse_body].
  - done.
  - apply camera_ok_init.
  - intros x [Hx|[Hx|Hx]]; [by apply elem_of_empty in Hx| |by apply elem_of_empty in Hx].
    rewrite !elem_of_union, !elem_of_singleton in Hx.
    destruct Hx as [->|[->|[->|[->|[]%elem_of_empty]]]]; lia.
  - intros x [Hx|[Hx|Hx]].
    + rewrite lookup_empty in Hx. by destruct Hx.
    + rewrite lookup_insert_is_Some, lookup_singleton_is_Some in Hx.
      destruct Hx as [<-|[_ <-]]; lia.
    + rewrite !lookup_insert_is_Some, lookup_empty in Hx.
      destruct Hx as [<-|[_ [<-|[_ [<-|[_ [<-|[_ []%is_Some_None]]]]]]]]; lia.
  - intros e ent He. by rewrite lookup_empty in He.
  - intros s sh Hsh.
    assert (sh = boundary_shape 3 ∨ sh = boundary_shape 2 ∨ sh = boundary_shape 1 ∨
            sh = boundary_shape 0) as Hcases.
    { repeat (apply lookup_insert_Some in Hsh as [[_ <-]|[_ Hsh]]; [tauto|]).
      by rewrite lookup_empty in Hsh. }
    assert (is_Some ((<[5%nat := mkBody KINEMATIC None vzero 0 [] []]>
                        {[ 0%nat := mkBody STATIC None vzero 0 [] [] ]} : gmap nat Body)
                     !! 0%nat)) as H0.
    { rewrite lookup_insert_ne by lia. rewrite lookup_singleton_eq. eauto. }
    destruct Hcases as [->|[->|[->| ->]]]; cbn [boundary_shape shape_body parent_sprite
      collision_type]; repeat split; done.
  - intros s Hs. rewrite !elem_of_union, !elem_of_singleton in Hs.
    destruct Hs as [->|[->|[->|[->|[]%elem_of_empty]]]];
      (eexists; split;
       [repeat first [apply lookup_insert_eq | rewrite lookup_insert_ne by lia]|done]).
  - intros e; split; [by intros ?%elem_of_empty | by intros ?%elem_of_nil].
  - constructor.
  - by intros e ?%elem_of_nil.
  - intros e ent He. by rewrite lookup_empty in He.
  - done.
  - intros e ent He. by rewrite lookup_empty in He.
  - intros e ent v He. by rewrite lookup_empty in He.
  - rewrite lookup_insert_eq. eauto.
  - intros s Hs. unfold boundary_ids in Hs. rewrite !elem_of_union, !elem_of_singleton in Hs.
    split.
    + rewrite !elem_of_union, !elem_of_singleton. tauto.
    + destruct Hs as [[[->| ->]| ->]| ->];
        (eexists; split;
         [repeat first [apply lookup_insert_eq | rewrite lookup_insert_ne by lia]|]);
        (split; [done|]; split; [done|]);
        unfold boundary_shape; cbn [geometry];
        match goal with |- default _ (_ !! ?i) ∈ _ =>
          apply (list_elem_of_lookup_2 _ i); reflexivity end.
Qed.

Lemma SimulationApp_init_wf (a : App) : SimulationApp_init = Some a → wf a.
Proof. rewrite SimulationApp_init_eq. intros [= <-]. apply initial_app_wf. Qed.

(** ** The drag joint *)

Section Drag.

Variable env : Env.

Lemma on_mouse_press_spec (x y : Z) (a : App) :
  wf a →
  ∃ world_pos a',
    Camera.screen_to_world (camera a) (vec_of_Z (x, y)) = Some world_pos ∧
    on_mouse_press env x y a = Some a' ∧ wf a' ∧
    ((∃ s, dynamic_hit env a world_pos s ∧
           ¬ next_id a ∈ constraints (space a) ∧
           constraints (space a') = {[next_id a]} ∪ constraints (space a) ∧
           mouse_joint a' = Some (next_id a) ∧
           selected_shape_drag a' = Some s ∧
           is_Some (joint_store a' !! next_id a))
     ∨ ((∀ s, ¬ dynamic_hit env a world_pos s) ∧ a' = a)).
Proof.
  intros [Hwf Hun]. unfold on_mouse_press. rewrite (wf_running _ Hwf). cbn -[decide].
  destruct (camera_ok_screen_to_world (camera a) (vec_of_Z (x, y))) as [pos Hpos];
    [apply wf_camera, Hwf|].
  exists pos. rewrite Hpos. cbn -[decide].
  destruct (point_query_nearest env (space a) (body_store a) (shape_store a) pos 0)
    as [info|] eqn:Hq; cycle 1.
  { exists a. repeat (split; [done|]). right. split; [|done].
    intros s (info & sh & b & Hq' & _). congruence. }
  destruct (pq_shape info) as [s|] eqn:Hs; cycle 1.
  { exists a. repeat (split; [done|]). right. split; [|done].
    intros s (info' & sh & b & Hq' & Hs' & _). congruence. }
  pose proof (point_query_in_space env _ _ _ _ _ _ _ Hq Hs) as Hin.
  destruct (wf_space_shapes _ Hwf _ Hin) as (sh & Hsh & _).
  destruct (wf_shape_closed _ Hwf _ _ Hsh) as ([b Hb] & _).
  rewrite Hsh. cbn -[decide]. rewrite Hb. cbn -[decide].
  destruct (decide (body_type b = DYNAMIC)) as [Hdyn|Hdyn]; cycle 1.
  { exists a. repeat (split; [done|]). right. split; [|done].
    intros s' (info' & sh' & b' & Hq' & Hs' & Hsh' & Hb' & Hd). congruence. }
  assert (next_id a ∉ constraints (space a)) as Hfresh.
  { intros Hc. assert (next_id a < next_id a); [|lia]. apply (wf_space_fresh _ Hwf). auto. }
  unfold Space.add_constraint. cbn -[decide]. rewrite decide_False by done. cbn.
  eexists; split; [done|]. split; [reflexivity|]. split.
  - split; [|done].
    destruct Hwf as [W_running W_camera W_space_fresh W_store_fresh W_ent_closed
      W_shape_closed W_space_shapes W_alive W_nodup W_ents_dom W_detached W_ctrl
      W_marked_coin W_coin_value W_mouse_body W_boundary].
    constructor; cbn; try assumption.
    + intros z [Hz|[Hz|Hz]].
      * assert (z < next_id a) by auto. lia.
      * assert (z < next_id a) by auto. lia.
      * apply elem_of_union in Hz as [->%elem_of_singleton|Hz]; [lia|].
        assert (z < next_id a) by auto. lia.
    + intros z Hz. assert (z < next_id a) by auto. lia.
  - left. exists s. split; [by exists info, sh, b|]. cbn.
    rewrite lookup_insert_eq. repeat split; eauto.
Qed.

End Drag.

(** ** Collision callbacks *)

Lemma callback_frame_refl a : callback_frame a a.
Proof. by repeat split. Qed.

Lemma callback_frame_trans a b c :
  callback_frame a b → callback_frame b c → callback_frame a c.
Proof.
  intros (?&?&?&?&?&?&?&?&?&?&?&?&?&?&?) (?&?&?&?&?&?&?&?&?&?&?&?&?&?&?).
  repeat split; congruence.
Qed.

Section Callbacks.

Variable env : Env.

(** A COIN shape of the Space belongs to a live coin worth 10. *)
Lemma coin_shape_entity (a : App) (c : nat) (csh : Shape) :
  wf_core a → c ∈ shapes (space a) → shape_store a !! c = Some csh →
  collision_type csh = COLLISION_TYPE_COIN →
  ∃ e ent, parent_sprite csh = Some e ∧ ent_store a !! e = Some ent ∧
           e ∈ entities a ∧ shape ent = c ∧ cls ent = CoinEntity 10.
Proof.
  intros Hwf Hin Hsh Hty.
  destruct (wf_space_shapes _ Hwf _ Hin) as (sh & Hsh' & Hp).
  assert (sh = csh) as -> by congruence.
  destruct (wf_shape_closed _ Hwf _ _ Hsh) as (_ & Hnone & Hsome).
  destruct (parent_sprite csh) as [e|] eqn:Hpar.
  - destruct (Hp e eq_refl) as (Hine & ent & He & Hse).
    destruct (Hsome e eq_refl) as (ent' & He' & Hct).
    assert (ent' = ent) as -> by congruence.
    exists e, ent. repeat split; try done.
    rewrite Hty in Hct. destruct (cls ent) as [| | | |v] eqn:Hcls; try discriminate.
    by rewrite (wf_coin_value _ Hwf _ _ _ He Hcls).
  - rewrite Hnone in Hty by done. discriminate.
Qed.

Lemma player_collect_coin_begin_spec (a : App) (p c : nat) (csh : Shape) :
  wf_core a → c ∈ shapes (space a) → shape_store a !! c = Some csh →
  collision_type csh = COLLISION_TYPE_COIN →
  ∃ e ent, parent_sprite csh = Some e ∧ ent_store a !! e = Some ent ∧
    e ∈ entities a ∧ shape ent = c ∧ cls ent = CoinEntity 10 ∧
    player_collect_coin_begin (p, c) a =
      Some (set_ent_store (<[e := Entity_mark ent]> (ent_store a))
              (log_event (LogCollected 10) (set_score (score a + 10) a)), true).
Proof.
  intros Hwf Hin Hsh Hty.
  destruct (coin_shape_entity a c csh Hwf Hin Hsh Hty) as (e & ent & Hp & He & Hine & Hse & Hcls).
  exists e, ent. repeat split; try done.
  unfold player_collect_coin_begin. rewrite Hsh. cbn. rewrite Hp, He. cbn.
  rewrite Hcls. cbn. unfold on_collected. rewrite He. cbn. rewrite Hcls. done.
Qed.

Lemma wf_core_collected (a : App) (e : nat) (ent : Entity) :
  wf_core a → ent_store a !! e = Some ent → cls ent = CoinEntity 10 →
  wf_core (set_ent_store (<[e := Entity_mark ent]> (ent_store a))
             (log_event (LogCollected 10) (set_score (score a + 10) a))).
Proof.
  intros Hwf He Hcls.
  apply (wf_core_entity e ent (Entity_mark ent)
           (log_event (LogCollected 10) (set_score (score a + 10) a))); try done.
  - intros _. by rewrite Hcls.
  - eapply wf_core_same; [|exact Hwf]. same_core.
Qed.

(** The bouncer callback accepts the contact and touches bodies only. *)
Lemma bouncer_interaction_begin_spec (a : App) (s1 s2 : nat) :
  wf_core a → s1 ∈ shapes (space a) → s2 ∈ shapes (space a) →
  ∃ bs, bouncer_interaction_begin env (s1, s2) a = Some (set_body_store bs a, true) ∧
        ∀ k, is_Some (bs !! k) ↔ is_Some (body_store a !! k).
Proof.
  intros Hwf H1 H2.
  assert (Hid : ∃ bs, Some (a, true) = Some (set_body_store bs a, true) ∧
                      ∀ k, is_Some (bs !! k) ↔ is_Some (body_store a !! k)).
  { exists (body_store a). split; [by destruct a|done]. }
  destruct (wf_space_shapes _ Hwf _ H1) as (sh1 & Hsh1 & _).
  destruct (wf_space_shapes _ Hwf _ H2) as (sh2 & Hsh2 & _).
  unfold bouncer_interaction_begin. rewrite Hsh1. cbn -[decide].
  assert (Hgen : ∀ bsid osid bsh osh,
    shape_store a !! bsid = Some bsh → shape_store a !! osid = Some osh →
    ∃ bs, (bsh' ← shape_store a !! bsid;
           match parent_sprite bsh' with
           | Some sprite =>
               ent ← ent_store a !! sprite;
               if is_BouncerEntity (cls ent)
               then a0 ← on_collision env sprite osid a; Some (a0, true)
               else Some (a, true)
           | None => Some (a, true)
           end) = Some (set_body_store bs a, true) ∧
          ∀ k, is_Some (bs !! k) ↔ is_Some (body_store a !! k)).
  { intros bsid osid bsh osh Hb Ho. rewrite Hb. cbn.
    destruct (parent_sprite bsh) as [e|] eqn:Hp; [|done].
    destruct (wf_shape_closed _ Hwf _ _ Hb) as (_ & _ & Hsome).
    destruct (Hsome e Hp) as (ent & He & _). rewrite He. cbn.
    destruct (cls ent) as [| | |bf|] eqn:Hcls; cbn; try done.
    unfold on_collision. rewrite He. cbn. rewrite Hcls, Ho. cbn -[decide].
    destruct (wf_shape_closed _ Hwf _ _ Ho) as ([ob Hob] & _).
    rewrite Hob. cbn -[decide].
    destruct (decide (body_type ob = DYNAMIC)); [|done].
    destruct (wf_ent_closed _ Hwf _ _ He) as ([sb Hsb] & _).
    rewrite Hsb. cbn. eexists; split; [reflexivity|].
    apply insert_existing_dom. eauto. }
  destruct (decide (collision_type sh1 ≠ COLLISION_TYPE_BOUNCER)); eauto.
Qed.

Lemma is_marked_same (a a' : App) (e : nat) :
  ent_store a' = ent_store a → is_marked a' e = is_marked a e.
Proof. intros He. unfold is_marked. by rewrite He. Qed.

Lemma dispatch_begin_spec (a : App) (s1 s2 : nat) :
  wf_core a → s1 ∈ shapes (space a) → s2 ∈ shapes (space a) →
  ∃ a', dispatch_begin env (s1, s2) a = Some (a', true) ∧ wf_core a' ∧
    callback_frame a a' ∧
    score a' = (score a + match coin_of (shape_store a) (s1, s2) with
                          | Some _ => 10 | None => 0 end)%Z ∧
    ∀ e, is_marked a' e =
         is_marked a e || bool_decide (coin_of (shape_store a) (s1, s2) = Some e).
Proof.
  intros Hwf H1 H2.
  destruct (wf_space_shapes _ Hwf _ H1) as (sh1 & Hsh1 & _).
  destruct (wf_space_shapes _ Hwf _ H2) as (sh2 & Hsh2 & _).
  unfold dispatch_begin, coin_of.
  cbn -[decide player_collect_coin_begin bouncer_interaction_begin].
  rewrite Hsh1, Hsh2.
  cbn -[decide player_collect_coin_begin bouncer_interaction_begin].
  assert (Hcoin : ∀ p c csh, c ∈ shapes (space a) → shape_store a !! c = Some csh →
    collision_type csh = COLLISION_TYPE_COIN →
    ∃ a', player_collect_coin_begin (p, c) a = Some (a', true) ∧ wf_core a' ∧
      callback_frame a a' ∧
      score a' = (score a + match parent_sprite csh with
                            | Some _ => 10 | None => 0 end)%Z ∧
      ∀ e, is_marked a' e = is_marked a e || bool_decide (parent_sprite csh = Some e)).
  { intros p c csh Hin Hsh Hty.
    destruct (player_collect_coin_begin_spec a p c csh Hwf Hin Hsh Hty)
      as (e0 & ent & Hp & He & _ & _ & Hcls & ->).
    eexists; split; [reflexivity|]. split; [by apply wf_core_collected|].
    split; [by repeat split|]. rewrite Hp. split; [done|].
    intros e. unfold is_marked. cbn. destruct (decide (e0 = e)) as [->|Hne].
    - rewrite lookup_insert_eq. cbn. rewrite bool_decide_eq_true_2 by done.
      by rewrite orb_true_r.
    - rewrite lookup_insert_ne by done. rewrite bool_decide_eq_false_2 by congruence.
      by rewrite orb_false_r. }
  destruct (decide (collision_type sh1 = COLLISION_TYPE_PLAYER ∧
                    collision_type sh2 = COLLISION_TYPE_COIN)) as [[Ht1 Ht2]|Hn1].
  { by apply Hcoin. }
  destruct (decide (collision_type sh1 = COLLISION_TYPE_COIN ∧
                    collision_type sh2 = COLLISION_TYPE_PLAYER)) as [[Ht1 Ht2]|Hn2].
  { by apply Hcoin. }
  assert (Hb : ∀ (a0 : App) x y (t : Z), wf_core a0 → callback_frame a a0 →
    ent_store a0 = ent_store a → score a0 = score a →
    x ∈ shapes (space a) → y ∈ shapes (space a) →
    ∃ a1, (if decide (t = COLLISION_TYPE_BOUNCER)
           then bouncer_interaction_begin env (x, y) a0 else Some (a0, true))
          = Some (a1, true) ∧ wf_core a1 ∧ callback_frame a a1 ∧
          ent_store a1 = ent_store a ∧ score a1 = score a).
  { intros a0 x y t Hwf0 Hfr He Hsc Hx Hy.
    destruct (decide (t = COLLISION_TYPE_BOUNCER)); [|by exists a0].
    assert (space a0 = space a) as Hsp by apply Hfr.
    destruct (bouncer_interaction_begin_spec a0 x y Hwf0) as (bs & -> & Hdom);
      [by rewrite Hsp..|].
    eexists; split; [reflexivity|]. split; [by apply wf_core_bodies|].
    split; [|done]. eapply callback_frame_trans; [exact Hfr|]. by repeat split. }
  destruct (Hb a s1 s2 (collision_type sh1) Hwf (callback_frame_refl a) eq_refl eq_refl H1 H2)
    as (a1 & -> & Hwf1 & Hfr1 & He1 & Hsc1).
  cbn -[decide player_collect_coin_begin bouncer_interaction_begin].
  destruct (Hb a1 s2 s1 (collision_type sh2) Hwf1 Hfr1 He1 Hsc1 H2 H1)
    as (a2 & -> & Hwf2 & Hfr2 & He2 & Hsc2).
  cbn. exists a2. split; [done|]. split; [done|]. split; [done|].
  split; [rewrite Hsc2; lia|].
  intros e. rewrite (is_marked_same a a2) by done. by rewrite orb_false_r.
Qed.

Lemma run_begin_spec (arbs : list (nat * nat)) (a : App) :
  wf_core a →
  (∀ s1 s2, (s1, s2) ∈ arbs → s1 ∈ shapes (space a) ∧ s2 ∈ shapes (space a)) →
  ∃ a' rs, run_begin env arbs a = Some (a', rs) ∧ wf_core a' ∧
    callback_frame a a' ∧ rs = (λ arb, (arb, true)) <$> arbs ∧
    score a' = (score a + 10 * Z.of_nat (length (omap (coin_of (shape_store a)) arbs)))%Z ∧
    ∀ e, is_marked a' e =
         is_marked a e || bool_decide (e ∈ omap (coin_of (shape_store a)) arbs).
Proof.
  revert a. induction arbs as [|[s1 s2] arbs IH]; intros a Hwf Hin.
  - exists a, []. split; [done|]. split; [done|]. split; [apply callback_frame_refl|].
    split; [done|]. split; [cbn; lia|].
    intros e. cbn. rewrite bool_decide_eq_false_2 by apply not_elem_of_nil.
    by rewrite orb_false_r.
  - destruct (Hin s1 s2) as [H1 H2]; [left|].
    destruct (dispatch_begin_spec a s1 s2 Hwf H1 H2) as (a1 & Hd & Hwf1 & Hfr1 & Hsc1 & Hm1).
    assert (space a1 = space a) as Hsp by apply Hfr1.
    assert (shape_store a1 = shape_store a) as Hss by apply Hfr1.
    destruct (IH a1 Hwf1) as (a2 & rs & Hr & Hwf2 & Hfr2 & Hrs & Hsc2 & Hm2).
    { intros x y Hxy. rewrite Hsp. apply Hin. by right. }
    cbn [run_begin]. rewrite Hd. cbn. rewrite Hr. cbn.
    eexists _, _; split; [reflexivity|]. split; [done|].
    split; [by eapply callback_frame_trans|]. split; [by rewrite Hrs|].
    rewrite Hss in Hsc2, Hm2. cbn [omap list_omap].
    destruct (coin_of (shape_store a) (s1, s2)) as [c|] eqn:Hc.
    + split.
      * rewrite Hsc2, Hsc1. cbn [length]. lia.
      * intros e. rewrite Hm2, Hm1. rewrite <- orb_assoc. f_equal.
        destruct (decide (c = e)) as [->|Hne].
        -- rewrite (bool_decide_eq_true_2 (Some e = Some e)) by done. cbn.
           symmetry. apply bool_decide_eq_true_2. left.
        -- rewrite (bool_decide_eq_false_2 (Some c = Some e)) by congruence. cbn.
           apply bool_decide_ext. rewrite elem_of_cons. naive_solver.
    + split.
      * rewrite Hsc2, Hsc1. lia.
      * intros e. rewrite Hm2, Hm1. by rewrite orb_false_r.
Qed.

Lemma Space_step_spec (a : App) :
  wf_core a →
  ∃ a', Space_step env TIME_STEP a = Some a' ∧ wf_core a' ∧ step_frame a a' ∧
    events a' = EvStep TIME_STEP :: events a ∧
    score a' = (score a + 10 * Z.of_nat (length (collected env a)))%Z ∧
    ∀ e, is_marked a' e = is_marked a e || bool_decide (e ∈ collected env a).
Proof.
  intros Hwf. unfold Space_step, collected.
  change (space (emit (EvStep TIME_STEP) a)) with (space a).
  change (body_store (emit (EvStep TIME_STEP) a)) with (body_store a).
  change (shape_store (emit (EvStep TIME_STEP) a)) with (shape_store a).
  set (arbs := begin_contacts env (space a) (body_store a) (shape_store a) TIME_STEP).
  destruct (run_begin_spec arbs (emit (EvStep TIME_STEP) a))
    as (a1 & rs & Hr & Hwf1 & Hfr & _ & Hsc & Hm).
  { by apply wf_core_emit. }
  { intros s1 s2 Hin. by apply (begin_contacts_in_space env) in Hin. }
  cbv zeta. rewrite Hr. cbn -[map_imap].
  eexists; split; [reflexivity|].
  destruct Hfr as (?&?&?&?&?&?&?&?&?&?&?&?&?&?&?).
  split; [|split; [by repeat split|split; [done|split; [done|]]]].
  - apply wf_core_bodies; [|done]. intros k. rewrite map_lookup_imap.
    destruct (body_store a1 !! k); cbn; split; intros; eauto.
  - intros e. transitivity (is_marked a1 e); [by apply is_marked_same|].
    rewrite Hm. reflexivity.
Qed.

End Callbacks.

(** ** The phases of a tick *)

Lemma set_camera_id (a : App) : set_camera (camera a) a = a.
Proof. by destruct a. Qed.

Lemma set_events_id (a : App) : set_events (events a) a = a.
Proof. by destruct a. Qed.

Lemma handle_keyboard_input_spec (a : App) :
  wf_core a →
  ∃ c, handle_keyboard_input a = Some (set_camera c (emit EvSampleKeys a)) ∧
       camera_ok c.
Proof.
  intros Hwf. unfold handle_keyboard_input. cbv zeta.
  match goal with |- context [if ?b then _ else _] =>
    match b with (negb _ || negb _)%bool => destruct b end end.
  - match goal with |- context [Camera.pan ?c ?dx ?dy] =>
      destruct (camera_ok_pan c dx dy (wf_camera _ Hwf)) as (c' & -> & Hok & _) end.
    cbn. by exists c'.
  - exists (camera a). split; [by destruct a|apply Hwf].
Qed.

Lemma force_dir_range (a : App) :
  let '(fx, fy) := force_dir a in
  (-1 <= fx <= 1)%Z ∧ (-1 <= fy <= 1)%Z.
Proof.
  unfold force_dir.
  destruct (pressed "w" a), (pressed "s" a), (pressed "a" a), (pressed "d" a); cbn; lia.
Qed.

Lemma sweep_frame_refl (a : App) : sweep_frame a a.
Proof. by repeat split. Qed.

Lemma sweep_frame_trans (a b c : App) :
  sweep_frame a b → sweep_frame b c → sweep_frame a c.
Proof.
  intros (?&?&?&?&?&?&?&?&?&?&?&?&?&?&?&?&?) (?&?&?&?&?&?&?&?&?&?&?&?&?&?&?&?&?).
  repeat split; congruence.
Qed.

(** One turn of the sweep: a marked entity is killed and taken off the
    list, a live one is brought up to date with its body. *)
Lemma sweep_one_spec (e : nat) (a : App) :
  wf_core a → e ∈ entities a →
  ∃ a', sweep_one e a = Some a' ∧ wf_core a' ∧ sweep_frame a a' ∧
    (∀ x, is_marked a' x = is_marked a x) ∧
    entities a' = filter (λ x, ¬ (x = e ∧ is_marked a x = true)) (entities a) ∧
    (events a' = events a ∨
     (is_marked a e = false ∧ events a' = EvSync e :: events a)).
Proof.
  intros Hwf Hin. destruct (wf_ents_dom _ Hwf _ Hin) as [ent He].
  unfold sweep_one, Entity_update. rewrite He. cbn -[decide bool_decide].
  destruct (marked_for_removal ent) eqn:Hm.
  - destruct (kill_entity_spec e ent a He) as (a1 & -> & Hfr & Hkb & Hks & Hksp).
    destruct Hfr as (Fn&Fe&Fb&Fs&Fj&Fc&Fen&Fct&Fsc&Fsel&Fmj&Fmb&Fpk&Fr&Fd&Fl&Fev&Fcs&Fg&Fsb).
    cbn -[decide bool_decide]. unfold is_marked at 1. rewrite Fe, He, Hm.
    rewrite bool_decide_eq_true_2 by by rewrite Fen. cbn -[decide bool_decide].
    rewrite Fen, py_list_remove_NoDup by (done || apply Hwf). cbn.
    eexists; split; [reflexivity|].
    match goal with |- wf_core ?a2 ∧ _ =>
      assert (retired a a2 e ent) as Hrt by (constructor; cbn; by repeat split) end.
    split; [by eapply wf_core_retired|]. split; [by repeat split|].
    split; [intros x; unfold is_marked; cbn; by rewrite Fe|].
    split; [|by left]. cbn. apply list_filter_iff. intros x. split.
    + intros Hne [-> _]. done.
    + intros Hn ->. apply Hn. split; [done|]. unfold is_marked. by rewrite He.
  - destruct (wf_ent_closed _ Hwf _ _ He) as ([b Hb] & _). rewrite Hb.
    cbn -[decide bool_decide].
    assert (Hfilter : entities a =
              filter (λ x, ¬ (x = e ∧ is_marked a x = true)) (entities a)).
    { symmetry. apply filter_all. intros x _ [-> Hx]. unfold is_marked in Hx.
      rewrite He in Hx. congruence. }
    destruct (decide (body_type b = DYNAMIC)).
    + cbn -[decide bool_decide]. unfold is_marked at 1. cbn -[decide bool_decide].
      rewrite lookup_insert_eq. cbn -[decide bool_decide]. rewrite Hm.
      cbn -[decide bool_decide]. eexists; split; [reflexivity|].
      split; [|split; [by repeat split|]].
      { apply wf_core_emit. eapply (wf_core_entity e ent); try done.
        cbn. intros ?. congruence. }
      split; [|split; [done|]].
      * intros x. unfold is_marked. cbn. destruct (decide (e = x)) as [->|Hne].
        -- by rewrite lookup_insert_eq, He.
        -- by rewrite lookup_insert_ne.
      * right. split; [|done]. unfold is_marked. by rewrite He.
    + cbn -[decide bool_decide]. unfold is_marked at 1. rewrite He, Hm.
      cbn -[decide bool_decide]. exists a. split; [done|]. split; [done|].
      split; [apply sweep_frame_refl|]. split; [done|]. split; [done|by left].
Qed.

Lemma sweep_spec (l : list nat) (a : App) :
  wf_core a → NoDup l → (∀ x, x ∈ l → x ∈ entities a) →
  ∃ a' syncs, sweep l a = Some a' ∧ wf_core a' ∧ sweep_frame a a' ∧
    (∀ x, is_marked a' x = is_marked a x) ∧
    entities a' = filter (λ x, ¬ (x ∈ l ∧ is_marked a x = true)) (entities a) ∧
    events a' = syncs ++ events a ∧ Forall (is_sync_of a l) syncs.
Proof.
  revert a. induction l as [|e l IH]; intros a Hwf Hnd Hsub.
  - exists a, []. split; [done|]. split; [done|]. split; [apply sweep_frame_refl|].
    split; [done|]. split; [|by split].
    symmetry. apply filter_all. intros x _ [[]%elem_of_nil _].
  - apply list.NoDup_cons in Hnd as [Hne Hnd].
    destruct (sweep_one_spec e a Hwf) as (a1 & H1 & Hwf1 & Hfr1 & Hm1 & Hen1 & Hev1);
      [apply Hsub; left|].
    destruct (IH a1 Hwf1 Hnd) as (a2 & syncs & H2 & Hwf2 & Hfr2 & Hm2 & Hen2 & Hev2 & Hs2).
    { intros x Hx. rewrite Hen1. apply list_elem_of_filter. split.
      - intros [-> _]. done.
      - apply Hsub. by right. }
    cbn [sweep]. rewrite H1. cbn. rewrite H2.
    assert (Hs2' : Forall (is_sync_of a (e :: l)) syncs).
    { eapply Forall_impl; [|exact Hs2]. intros ev (x & -> & Hx & Hmx).
      exists x. rewrite <- Hm1. repeat split; try done. by right. }
    assert (Hen : entities a2 =
              filter (λ x, ¬ (x ∈ e :: l ∧ is_marked a x = true)) (entities a)).
    { rewrite Hen2, Hen1, list_filter_filter. apply list_filter_iff. intros x.
      rewrite Hm1, elem_of_cons. tauto. }
    destruct Hev1 as [Hev1|[Hme Hev1]].
    + exists a2, syncs. split; [done|]. split; [done|].
      split; [by eapply sweep_frame_trans|]. split; [intros x; by rewrite Hm2|].
      split; [done|]. split; [by rewrite Hev2, Hev1|done].
    + exists a2, (syncs ++ [EvSync e]). split; [done|]. split; [done|].
      split; [by eapply sweep_frame_trans|]. split; [intros x; by rewrite Hm2|].
      split; [done|]. split; [by rewrite Hev2, Hev1, <- app_assoc|].
      apply Forall_app. split; [done|]. apply Forall_singleton.
      exists e. repeat split; try done. left.
Qed.

Lemma draw_all_spec (l : list nat) (a : App) :
  (∀ e, e ∈ l → is_Some (ent_store a !! e)) → (∀ e, e ∈ l → e ∈ entities a) →
  ∃ draws, draw_all l a = Some (set_events (draws ++ events a) a) ∧
           Forall (is_draw_of a) draws.
Proof.
  revert a. induction l as [|e l IH]; intros a Hdom Hsub.
  - exists []. split; [|done]. cbn. by rewrite set_events_id.
  - destruct (Hdom e) as [ent He]; [left|].
    assert (Hdom' : ∀ x, x ∈ l → is_Some (ent_store a !! x)) by (intros; apply Hdom; by right).
    assert (Hsub' : ∀ x, x ∈ l → x ∈ entities a) by (intros; apply Hsub; by right).
    cbn [draw_all]. unfold Entity_draw. rewrite He. cbn -[py_int].
    unfold alive. case_bool_decide as Hal; cbn -[py_int].
    + match goal with |- context [if ?b then _ else _] => destruct b end;
        cbn [mbind option_bind].
      * destruct (IH a Hdom' Hsub') as (draws & -> & Hd). by exists draws.
      * destruct (IH (emit (EvDraw e) a) Hdom' Hsub') as (draws & -> & Hd).
        exists (draws ++ [EvDraw e]). split.
        -- cbn. by rewrite <- app_assoc.
        -- apply Forall_app. split; [done|]. apply Forall_singleton.
           exists e. repeat split; try done. apply Hsub. left.
    + destruct (IH a Hdom' Hsub') as (draws & -> & Hd). by exists draws.
Qed.

Lemma render_spec (a : App) :
  (∀ e, e ∈ entities a → is_Some (ent_store a !! e)) →
  ∃ draws,
    render a =
      Some (set_events
              (EvPresent (length (entities a)) (score a) ::
               (if debug_draw_pymunk a then [EvDebugDraw] else []) ++
               draws ++ EvClear :: events a) a) ∧
    Forall (is_draw_of a) draws.
Proof.
  intros Hdom. unfold render. cbv zeta.
  destruct (draw_all_spec (entities a) (emit EvClear a)) as (draws & Hd & Hf); [done..|].
  change (entities (emit EvClear a)) with (entities a). rewrite Hd. cbn.
  exists draws. split; [|done]. by destruct (debug_draw_pymunk a).
Qed.

Section Phases.

Variable env : Env.

Lemma steer_spec (a : App) :
  wf_core a → ∃ a', steer env a = Some a' ∧ steer_cases env a a'.
Proof.
  intros Hwf. unfold steer_cases, steer, steering_force.
  destruct (controllable_object a) as [c|] eqn:Hc; [|exists a; split; [done|]; left; auto].
  destruct (alive c a) eqn:Hal; [|exists a; split; [done|]; left; eauto 6].
  pose proof (force_dir_range a) as Hrange.
  destruct (force_dir a) as [fx fy] eqn:Hfd.
  destruct (negb (fx =? 0)%Z || negb (fy =? 0)%Z) eqn:Hnz; cycle 1.
  { exists a. split; [done|]. left. split; [done|]. right. right.
    apply orb_false_iff in Hnz as [H1 H2].
    apply negb_false_iff, Z.eqb_eq in H1. apply negb_false_iff, Z.eqb_eq in H2.
    congruence. }
  assert (Hne : (fx, fy) ≠ (0, 0)%Z).
  { intros [= -> ->]. discriminate. }
  assert (1 <= fx ^ 2 + fy ^ 2)%Z as Hsq.
  { apply orb_true_iff in Hnz. destruct Hrange as [Hrx Hry].
    assert (fx ≠ 0 ∨ fy ≠ 0)%Z as Hor.
    { destruct Hnz as [Hz|Hz]; apply negb_true_iff, Z.eqb_neq in Hz; auto. }
    nia. }
  assert (0 < math_sqrt env (inject_Z (fx ^ 2 + fy ^ 2)))%Q as Hpos.
  { apply math_sqrt_pos. change 1%Q with (inject_Z 1). by rewrite <- Zle_Qle. }
  rewrite is_zero_false by done.
  destruct (wf_ctrl _ Hwf _ Hc) as (ent & He & Hk).
  destruct (cls ent) as [|mag| | |] eqn:Hcls; try discriminate.
  destruct (wf_ent_closed _ Hwf _ _ He) as ([b Hb] & _).
  unfold apply_force. rewrite He. cbn. rewrite Hcls, Hb. cbn.
  eexists; split; [reflexivity|]. right. exists c, ent, mag, b. by repeat split.
Qed.

Lemma steer_cases_wf (a a' : App) :
  wf_core a → steer_cases env a a' →
  wf_core a' ∧ entities a' = entities a ∧ ent_store a' = ent_store a ∧
  all_sprites a' = all_sprites a ∧ space a' = space a ∧ score a' = score a.
Proof.
  intros Hwf [[-> _]|(c & ent & mag & b & _ & _ & He & _ & Hb & _ & ->)]; [done|].
  split; [|done]. apply wf_core_emit, wf_core_bodies; [|done].
  apply insert_existing_dom. eauto.
Qed.

Lemma update_simulation_spec (a : App) :
  wf a →
  ∃ a1 c a3 a4 syncs draws a',
    tick_steps env a a1 c a3 a4 syncs draws a' ∧
    update_simulation env a = Some a' ∧ wf a'.
Proof.
  intros [Hwf Hun].
  destruct (Space_step_spec env a Hwf) as (a1 & H1 & Hwf1 & Hfr1 & Hev1 & Hsc1 & Hm1).
  destruct (handle_keyboard_input_spec a1 Hwf1) as (c & H2 & Hc).
  assert (Hwf2 : wf_core (set_camera c (emit EvSampleKeys a1))).
  { by apply wf_core_camera, wf_core_emit. }
  destruct (steer_spec _ Hwf2) as (a3 & H3 & Hcases).
  destruct (steer_cases_wf _ _ Hwf2 Hcases) as (Hwf3 & Hen3 & Hes3 & _).
  destruct (sweep_spec (entities a3) a3 Hwf3) as
    (a4 & syncs & H4 & Hwf4 & Hfr4 & Hm4 & Hen4 & Hev4 & Hs4);
    [apply Hwf3|done|].
  destruct (render_spec a4) as (draws & H5 & Hd); [apply Hwf4|].
  eexists a1, c, a3, a4, syncs, draws, _. split; [by constructor|].
  split.
  - unfold update_simulation. rewrite (wf_running _ Hwf). cbn.
    rewrite H1. cbn. rewrite H2. cbn. rewrite H3. cbn. rewrite H4. cbn. exact H5.
  - split.
    + eapply wf_core_same; [|exact Hwf4]. same_core.
    + intros e. cbn. rewrite Hen4. intros [Hnm Hin]%list_elem_of_filter.
      unfold is_marked. cbn. change (is_marked a4 e = false). rewrite Hm4.
      destruct (is_marked a3 e) eqn:Hmk; [|done]. exfalso. by apply Hnm.
Qed.

End Phases.

(** ** Every reachable state is well formed *)

Section Reachable.

Variable env : Env.

Lemma run_op_wf (op : Op) (a : App) :
  wf a → ∃ a', run_op env op a = Some a' ∧ wf a'.
Proof.
  intros Hwf. destruct op; cbn [run_op].
  - destruct (update_simulation_spec env a Hwf) as (?&?&?&?&?&?&a'&_&?&?). eauto.
  - destruct (on_mouse_press_spec env x y a Hwf) as (?&a'&_&?&?&_). eauto.
  - destruct (on_mouse_release_spec a) as (a'&?&?&_). eauto.
  - by apply on_right_click_wf.
  - by apply on_mouse_motion_wf.
  - eexists; split; [done|]. by apply on_mouse_wheel_wf.
  - eexists; split; [done|]. by apply on_key_press_wf.
  - eexists; split; [done|]. by apply on_key_release_wf.
  - destruct (add_player_gui_wf env a Hwf) as (a'&?&?&_). eauto.
  - by apply add_object_at_mouse_center_wf.
  - destruct (reset_simulation_spec a (proj1 Hwf)) as (a'&?&?&_). eauto.
  - eexists; split; [done|]. by apply update_gravity_x_wf.
  - eexists; split; [done|]. by apply update_gravity_y_wf.
  - eexists; split; [done|]. by apply toggle_debug_draw_wf.
Qed.

Lemma reachable_wf (a : App) : reachable env a → wf a.
Proof.
  induction 1 as [a Hinit|op a a' _ IH Hop].
  - by apply SimulationApp_init_wf.
  - destruct (run_op_wf op a IH) as (a'' & Hop' & Hwf). congruence.
Qed.

Lemma reachable_initial : reachable env initial_app.
Proof. apply reachable_init, SimulationApp_init_eq. Qed.

Lemma reachable_run_ops (ops : list Op) (a a' : App) :
  reachable env a → run_ops env ops a = Some a' → reachable env a'.
Proof.
  revert a. induction ops as [|op ops IH]; intros a Hr Hrun.
  - cbn in Hrun. congruence.
  - cbn [run_ops] in Hrun. destruct (run_op env op a) as [a1|] eqn:Hop; [|done].
    cbn in Hrun. eapply IH; [|exact Hrun]. by eapply reachable_op.
Qed.

(** No callback of a reachable application raises. *)
Lemma run_ops_total (ops : list Op) (a : App) :
  reachable env a → ∃ a', run_ops env ops a = Some a' ∧ reachable env a'.
Proof.
  revert a. induction ops as [|op ops IH]; intros a Hr; [by exists a|].
  destruct (run_op_wf op a (reachable_wf a Hr)) as (a1 & Hop & _).
  destruct (IH a1) as (a' & Hrun & Hr'); [by eapply reachable_op|].
  exists a'. split; [|done]. cbn [run_ops]. rewrite Hop. done.
Qed.

End Reachable.

Lemma demo_state_reachable (env : Env) :
  load_image env = load_image quiet_env → reachable env demo_state.
Proof.
  intros Himg.
  destruct (run_ops_total env demo_ops initial_app (reachable_initial env)) as (a' & Hrun & Hr).
  replace demo_state with a'; [done|].
  assert (Hsame : run_ops env demo_ops initial_app = run_ops quiet_env demo_ops initial_app).
  { unfold demo_ops, run_ops, run_op, add_object_at_mouse_center, _add_object_at_pos,
      add_player_gui, ControllableEntity_init, CoinEntity_init, BouncerEntity_init,
      BoxEntity_init, Entity_init. by rewrite Himg. }
  unfold demo_state. by rewrite <- Hsame, Hrun.
Qed.

(** ** The bouncer callback *)


(** ** Removal is idempotent *)

(** C8.  [kill_entity] never raises on an existing entity, and calling it
    again on the state it returns changes nothing: the call on an entity
    whose body, shape and sprite are already gone returns the state as it
    is.  Likewise [on_mouse_release] never raises, a second release changes
    nothing, and a release whose joint is no longer among the Space's
    constraints returns the state as it is. *)
Theorem removal_idempotent (a : App) (e : nat) (ent : Entity) :
  ent_store a !! e = Some ent →
  (∃ a1, kill_entity e a = Some a1 ∧ kill_entity e a1 = Some a1) ∧
  (body ent ∉ bodies (space a) → shape ent ∉ shapes (space a) →
   e ∉ all_sprites a → kill_entity e a = Some a) ∧
  (∃ a2, on_mouse_release a = Some a2 ∧ on_mouse_release a2 = Some a2) ∧
  (∀ j, mouse_joint a = Some j → j ∉ constraints (space a) →
        on_mouse_release a = Some a).
Proof.
  intros He. split; [|split; [|split]].
  - destruct (kill_entity_spec e ent a He) as (a1 & Hk & Hfr & Hb & Hs & Hsp).
    exists a1. split; [done|].
    apply (kill_entity_absent e ent).
    + destruct Hfr as (_ & -> & _). done.
    + rewrite Hb. set_solver.
    + rewrite Hs. set_solver.
    + rewrite Hsp. set_solver.
  - by apply kill_entity_absent.
  - destruct (on_mouse_release_spec a) as (a2 & H1 & _ & H2 & _). eauto.
  - intros j Hj Hn. destruct (on_mouse_release_spec a) as (a2 & H1 & _ & _ & Hsame).
    by rewrite <- (Hsame j Hj Hn) at 2.
Qed.

(** ** The drag joint *)


(** ** Reset *)



(** ** One tick, end to end *)

Lemma new_events_app (before new : list Event) :
  new_events before (new ++ before) = reverse new.
Proof.
  unfold new_events. rewrite length_app.
  replace (length new + length before - length before)%nat with (length new) by lia.
  by rewrite take_app_length.
Qed.

Lemma filter_ext_elem (P Q : nat → Prop) `{!∀ x, Decision (P x)} `{!∀ x, Decision (Q x)}
    (l : list nat) :
  (∀ x, x ∈ l → P x ↔ Q x) → filter P l = filter Q l.
Proof.
  induction l as [|y l IH]; [done|]. intros Hall.
  rewrite !filter_cons. rewrite IH by (intros x Hx; apply Hall; by right).
  destruct (decide (P y)) as [Hp|Hp], (decide (Q y)) as [Hq|Hq]; try done.
  - exfalso. apply Hq, Hall; [left|done].
  - exfalso. apply Hp, Hall; [left|done].
Qed.

Lemma steering_force_keys (env : Env) (a b : App) (mag : Q) :
  pressed_keys a = pressed_keys b →
  steering_force env a mag = steering_force env b mag ∧ force_dir a = force_dir b.
Proof. intros Hk. unfold steering_force, force_dir, pressed. by rewrite Hk. Qed.

Section Tick.

Variable env : Env.

(** What the intermediate states of a tick have in common with its first
    state, and the events of the whole tick, most recent first. *)
Lemma tick_steps_facts (a a1 : App) (c : Camera) (a3 a4 : App)
    (syncs draws : list Event) (a' : App) :
  wf a → tick_steps env a a1 c a3 a4 syncs draws a' →
  entities a3 = entities a ∧ ent_store a3 = ent_store a1 ∧
  space a3 = space a ∧ all_sprites a3 = all_sprites a ∧
  (∀ e, is_marked a' e = is_marked a1 e) ∧
  entities a' = filter (λ x, x ∉ collected env a) (entities a) ∧
  score a' = (score a + 10 * Z.of_nat (length (collected env a)))%Z ∧
  ∃ force,
    events a' =
      EvPresent (length (entities a')) (score a') ::
      (if debug_draw_pymunk a then [EvDebugDraw] else []) ++ draws ++
      EvClear :: syncs ++ force ++ [EvSampleKeys; EvStep TIME_STEP] ++ events a ∧
    ((force = [] ∧
      (controllable_object a = None ∨
       (∃ p, controllable_object a = Some p ∧ ¬ p ∈ all_sprites a) ∨
       force_dir a = (0, 0)%Z))
     ∨ ∃ p ent mag b,
         controllable_object a = Some p ∧ p ∈ all_sprites a ∧
         ent_store a1 !! p = Some ent ∧ cls ent = ControllableEntity mag ∧
         force_dir a ≠ (0, 0)%Z ∧
         force = [EvApplyForce p (steering_force env a mag)] ∧
         body_store a' !! body ent = Some b ∧
         head (forces b) = Some (steering_force env a mag, vzero)).
Proof.
  intros [Hwf Hun] Hts.
  destruct Hts as
    [T_step T_wf1 T_frame1 T_events1 T_score1 T_marks1 T_keys T_camera T_steer
     T_steer_cases T_wf3 T_sweep T_wf4 T_frame4 T_marks4 T_entities4 T_events4
     T_syncs T_render T_final T_draws].
  destruct T_frame1 as (F1n&F1s&F1j&F1sp&F1c&F1al&F1en&F1ct&F1sel&F1mj&F1mb&F1pk&F1r&F1d).
  destruct T_frame4 as (F4n&F4b&F4s&F4j&F4c&F4ct&F4sc&F4sel&F4mj&F4mb&F4pk&F4r&F4d&F4l&_).
  set (a2 := set_camera c (emit EvSampleKeys a1)) in *.
  assert (Hk2 : pressed_keys a2 = pressed_keys a) by done.
  destruct (steering_force_keys env a2 a 0 Hk2) as [_ Hfd].
  assert (H3 : entities a3 = entities a2 ∧ ent_store a3 = ent_store a2 ∧
               all_sprites a3 = all_sprites a2 ∧ space a3 = space a2 ∧
               score a3 = score a2 ∧ debug_draw_pymunk a3 = debug_draw_pymunk a2).
  { destruct T_steer_cases as [[-> _]|(p & ent & mag & b & _ & _ & _ & _ & _ & _ & ->)];
      by repeat split. }
  destruct H3 as (H3en & H3es & H3al & H3sp & H3sc & H3d).
  assert (Hm3 : ∀ e, is_marked a3 e = is_marked a1 e).
  { intros e. by apply is_marked_same. }
  assert (Hen' : entities a' = filter (λ x, x ∉ collected env a) (entities a)).
  { rewrite T_final. cbn. rewrite T_entities4, H3en. cbn. rewrite F1en.
    apply filter_ext_elem. intros x Hx. rewrite Hm3, T_marks1, (Hun x Hx). cbn.
    rewrite bool_decide_eq_true. tauto. }
  split; [by rewrite H3en|]. split; [by rewrite H3es|].
  split; [by rewrite H3sp|]. split; [by rewrite H3al|].
  split; [intros e; rewrite T_final; cbn; change (is_marked a4 e = is_marked a1 e);
          by rewrite T_marks4|].
  split; [done|].
  split; [rewrite T_final; cbn; by rewrite F4sc, H3sc, <- T_score1|].
  assert (Hhead : events a' =
    EvPresent (length (entities a')) (score a') ::
    (if debug_draw_pymunk a then [EvDebugDraw] else []) ++ draws ++
    EvClear :: syncs ++ events a3).
  { rewrite T_final. cbn. rewrite F4d, H3d, T_events4. cbn. by rewrite F1d. }
  destruct T_steer_cases as [[-> Hwhy]|(p & ent & mag & b & Hp & Hal & He & Hcls & Hb & Hnz & ->)].
  - exists []. split; [rewrite Hhead; cbn; by rewrite T_events1|].
    left. split; [done|]. cbn in Hwhy. rewrite F1ct, Hfd in Hwhy.
    destruct Hwhy as [?|[(p & Hp & Hal)|?]]; auto.
    right. left. exists p. split; [done|]. unfold alive in Hal. cbn in Hal.
    rewrite F1al in Hal. by apply bool_decide_eq_false in Hal.
  - destruct (steering_force_keys env a2 a mag Hk2) as [Hsf _].
    rewrite Hsf in Hhead, F4b.
    exists [EvApplyForce p (steering_force env a mag)]. split.
    { rewrite Hhead. cbn -[steering_force]. by rewrite T_events1. }
    right. cbn in Hp, He. unfold alive in Hal. cbn in Hal.
    rewrite F1al in Hal. apply bool_decide_eq_true in Hal. rewrite F1ct in Hp.
    eexists p, ent, mag, _. rewrite Hfd in Hnz. repeat split; try done.
    + rewrite T_final. cbn -[steering_force]. rewrite F4b. cbn -[steering_force].
      apply lookup_insert_eq.
    + done.
Qed.

End Tick.



(** ** Deferred removal *)

Lemma is_marked_true (a : App) (e : nat) :
  is_marked a e = true →
  ∃ ent, ent_store a !! e = Some ent ∧ marked_for_removal ent = true.
Proof. unfold is_marked. destruct (ent_store a !! e); [eauto|done]. Qed.

(** C5.  In every reachable state a tick succeeds; its physics step, with
    all the collision callbacks it runs, leaves the Space, the entity list
    and the sprite group as they were and only sets marks; and every entity
    that is marked after the step is, when the tick ends, off the entity
    list, out of the sprite group, with its body and its shape out of the
    Space, without having been synchronized, drawn or given a force in this
    tick.  No entity on the list is marked when the tick ends, so the same
    holds for every later tick. *)
Theorem marked_entity_removed_before_use (env : Env) (a : App) :
  reachable env a →
  ∃ a1 a',
    Space_step env TIME_STEP a = Some a1 ∧ update_simulation env a = Some a' ∧
    space a1 = space a ∧ entities a1 = entities a ∧
    all_sprites a1 = all_sprites a ∧
    (∀ e, is_marked a' e = is_marked a1 e) ∧
    (∀ e, e ∈ entities a' → is_marked a' e = false) ∧
    ∀ e, is_marked a1 e = true →
      ¬ e ∈ entities a' ∧ ¬ e ∈ all_sprites a' ∧
      (∃ ent, ent_store a' !! e = Some ent ∧ marked_for_removal ent = true ∧
              ¬ body ent ∈ bodies (space a') ∧ ¬ shape ent ∈ shapes (space a')) ∧
      ¬ EvDraw e ∈ new_events (events a) (events a') ∧
      ¬ EvSync e ∈ new_events (events a) (events a') ∧
      ∀ f, ¬ EvApplyForce e f ∈ new_events (events a) (events a').
Proof.
  intros Hr. apply reachable_wf in Hr.
  destruct (update_simulation_spec env a Hr)
    as (a1 & c & a3 & a4 & syncs & draws & a' & Hts & Hup & [Hwf' Hun']).
  destruct (tick_steps_facts env a a1 c a3 a4 syncs draws a' Hr Hts)
    as (_ & Hes3 & _ & _ & Hm' & _ & _ & force & Hev & Hforce).
  exists a1, a'. split; [apply Hts|]. split; [done|].
  destruct (ts_frame1 _ _ _ _ _ _ _ _ _ Hts) as (_&_&_&Hsp&_&Hal&Hen&_).
  split; [done|]. split; [done|]. split; [done|]. split; [done|]. split; [done|].
  intros e He.
  assert (Hnin : ¬ e ∈ entities a').
  { intros Hin. apply Hun' in Hin. rewrite Hm' in Hin. congruence. }
  assert (Hnew : ∀ ev, ev ∈ new_events (events a) (events a') →
            ev = EvPresent (length (entities a')) (score a') ∨ ev = EvDebugDraw ∨
            ev ∈ draws ∨ ev = EvClear ∨ ev ∈ syncs ∨ ev ∈ force ∨
            ev = EvSampleKeys ∨ ev = EvStep TIME_STEP).
  { intros ev. replace (events a') with
      ((EvPresent (length (entities a')) (score a') ::
        (if debug_draw_pymunk a then [EvDebugDraw] else []) ++ draws ++
        EvClear :: syncs ++ force ++ [EvSampleKeys; EvStep TIME_STEP]) ++ events a)
      by (rewrite Hev; simpl; rewrite <- ?app_assoc; simpl; rewrite <- ?app_assoc;
          reflexivity).
    rewrite new_events_app, elem_of_reverse, elem_of_cons, !elem_of_app, elem_of_cons,
      !elem_of_app, !elem_of_cons.
    destruct (debug_draw_pymunk a).
    - rewrite list_elem_of_singleton. intros H. pose proof (not_elem_of_nil ev). tauto.
    - intros H. pose proof (not_elem_of_nil ev). tauto. }
  split; [done|]. split; [by rewrite (wf_alive _ Hwf')|]. split; [|split; [|split]].
  - rewrite <- Hm' in He. destruct (is_marked_true _ _ He) as (ent & Hent & Hmk).
    exists ent. split; [done|]. split; [done|]. by apply (wf_detached _ Hwf' e ent).
  - intros Hin. apply Hnew in Hin.
    destruct Hin as [?|[?|[Hin|[?|[Hin|[Hin|[?|?]]]]]]]; try discriminate.
    + pose proof (ts_draws _ _ _ _ _ _ _ _ _ Hts) as Hd.
      rewrite list.Forall_forall in Hd. destruct (Hd _ Hin) as (e0 & [= <-] & Hine & _).
      apply Hnin. by rewrite (ts_final _ _ _ _ _ _ _ _ _ Hts).
    + pose proof (ts_syncs _ _ _ _ _ _ _ _ _ Hts) as Hs.
      rewrite list.Forall_forall in Hs. by destruct (Hs _ Hin) as (e0 & ? & _).
    + destruct Hforce as [[-> _]|(?&?&?&?&_&_&_&_&_&->&_)].
      * by apply elem_of_nil in Hin.
      * by apply list_elem_of_singleton in Hin.
  - intros Hin. apply Hnew in Hin.
    destruct Hin as [?|[?|[Hin|[?|[Hin|[Hin|[?|?]]]]]]]; try discriminate.
    + pose proof (ts_draws _ _ _ _ _ _ _ _ _ Hts) as Hd.
      rewrite list.Forall_forall in Hd. by destruct (Hd _ Hin) as (e0 & ? & _).
    + pose proof (ts_syncs _ _ _ _ _ _ _ _ _ Hts) as Hs.
      rewrite list.Forall_forall in Hs. destruct (Hs _ Hin) as (e0 & [= <-] & _ & Hmk).
      rewrite (is_marked_same a1 a3) in Hmk by done. congruence.
    + destruct Hforce as [[-> _]|(?&?&?&?&_&_&_&_&_&->&_)].
      * by apply elem_of_nil in Hin.
      * by apply list_elem_of_singleton in Hin.
  - intros f Hin. apply Hnew in Hin.
    destruct Hin as [?|[?|[Hin|[?|[Hin|[Hin|[?|?]]]]]]]; try discriminate.
    + pose proof (ts_draws _ _ _ _ _ _ _ _ _ Hts) as Hd.
      rewrite list.Forall_forall in Hd. by destruct (Hd _ Hin) as (e0 & ? & _).
    + pose proof (ts_syncs _ _ _ _ _ _ _ _ _ Hts) as Hs.
      rewrite list.Forall_forall in Hs. by destruct (Hs _ Hin) as (e0 & ? & _).
    + destruct Hforce as [[-> _]|(p & ent & mag & b & _ & _ & Hent & Hcls & _ & -> & _)].
      * by apply elem_of_nil in Hin.
      * apply list_elem_of_singleton in Hin. injection Hin as <- _.
        destruct (is_marked_true _ _ He) as (ent' & Hent' & Hmk).
        assert (ent' = ent) as -> by congruence.
        pose proof (wf_marked_coin _ (ts_wf1 _ _ _ _ _ _ _ _ _ Hts) _ _ Hent Hmk) as Hcoin.
        rewrite Hcls in Hcoin. discriminate.
Qed.

(** ** Collecting a coin *)

(** C3.  In every reachable state, when the contacts that begin in a tick
    include the PLAYER shape [p] and a COIN shape [c] (in either order), the
    COIN shape belongs to a live coin [e] worth 10; the callback pymunk runs
    for that contact adds exactly 10 to the score, marks the coin, accepts
    the contact and leaves the Space and the entity list alone; and when
    the tick ends the coin is off the entity list, with its body and shape
    out of the Space, the score has grown by 10 for each collected coin and
    the list has lost exactly the collected coins, so that a tick whose
    only collected coin is [e] adds 10 to the score and makes the list one
    shorter. *)
Theorem coin_collected_on_contact (env : Env) (a : App) (p c : nat)
    (psh csh : Shape) :
  reachable env a →
  ((p, c) ∈ begin_contacts env (space a) (body_store a) (shape_store a) TIME_STEP ∨
   (c, p) ∈ begin_contacts env (space a) (body_store a) (shape_store a) TIME_STEP) →
  shape_store a !! p = Some psh → collision_type psh = COLLISION_TYPE_PLAYER →
  shape_store a !! c = Some csh → collision_type csh = COLLISION_TYPE_COIN →
  ∃ e ent ah a',
    parent_sprite csh = Some e ∧ ent_store a !! e = Some ent ∧
    cls ent = CoinEntity 10 ∧ e ∈ entities a ∧
    dispatch_begin env (p, c) a = Some (ah, true) ∧
    dispatch_begin env (c, p) a = Some (ah, true) ∧
    score ah = (score a + 10)%Z ∧ is_marked ah e = true ∧
    space ah = space a ∧ entities ah = entities a ∧
    update_simulation env a = Some a' ∧
    ¬ e ∈ entities a' ∧
    (∃ ent', ent_store a' !! e = Some ent' ∧ marked_for_removal ent' = true ∧
             ¬ body ent' ∈ bodies (space a') ∧ ¬ shape ent' ∈ shapes (space a')) ∧
    e ∈ collected env a ∧
    score a' = (score a + 10 * Z.of_nat (length (collected env a)))%Z ∧
    entities a' = filter (λ x, x ∉ collected env a) (entities a) ∧
    (collected env a = [e] →
     score a' = (score a + 10)%Z ∧ S (length (entities a')) = length (entities a)).
Proof.
  intros Hr Hcontact Hp Hpt Hc Hct. apply reachable_wf in Hr.
  assert (Hcin : c ∈ shapes (space a)).
  { destruct Hcontact as [H|H]; apply (begin_contacts_in_space env) in H; tauto. }
  destruct (player_collect_coin_begin_spec a p c csh (proj1 Hr) Hcin Hc Hct)
    as (e & ent & Hpar & He & Hine & Hse & Hcls & Hbegin).
  assert (Hcol : e ∈ collected env a).
  { unfold collected. apply list_elem_of_omap.
    destruct Hcontact as [H|H]; eexists; (split; [exact H|]);
      unfold coin_of; cbn -[decide]; rewrite Hp, Hc; cbn -[decide].
    - by rewrite decide_True.
    - rewrite decide_False by (rewrite Hct; intros [? _]; done).
      by rewrite decide_True. }
  destruct (update_simulation_spec env a Hr)
    as (a1 & cam & a3 & a4 & syncs & draws & a' & Hts & Hup & [Hwf' Hun']).
  destruct (tick_steps_facts env a a1 cam a3 a4 syncs draws a' Hr Hts)
    as (_ & _ & _ & _ & Hm' & Hen' & Hsc' & _).
  assert (Hmk : is_marked a' e = true).
  { rewrite Hm', (ts_marks1 _ _ _ _ _ _ _ _ _ Hts), bool_decide_eq_true_2 by done.
    apply orb_true_r. }
  assert (Hnin : ¬ e ∈ entities a').
  { intros Hin. apply Hun' in Hin. congruence. }
  eexists e, ent, _, a'. split; [done|]. split; [done|]. split; [done|]. split; [done|].
  split; [|split].
  { unfold dispatch_begin. rewrite Hp, Hc. cbn -[decide player_collect_coin_begin].
    rewrite decide_True by done. exact Hbegin. }
  { unfold dispatch_begin. rewrite Hp, Hc. cbn -[decide player_collect_coin_begin].
    rewrite decide_False by (rewrite Hct; intros [? _]; done).
    rewrite decide_True by done. exact Hbegin. }
  split; [done|]. split; [unfold is_marked; cbn; by rewrite lookup_insert_eq|].
  split; [done|]. split; [done|]. split; [done|]. split; [done|].
  split.
  { destruct (is_marked_true _ _ Hmk) as (ent' & Hent' & Hmk').
    exists ent'. split; [done|]. split; [done|]. by apply (wf_detached _ Hwf' e ent'). }
  split; [done|]. split; [done|]. split; [done|].
  intros Hone. rewrite Hsc', Hen', Hone. split; [cbn; lia|].
  rewrite <- (length_filter_ne e (entities a)); [|apply Hr|done].
  f_equal. f_equal. apply filter_ext_elem. intros x _. rewrite list_elem_of_singleton. done.
Qed.

(** ** The theorems at work on the example scene *)

Lemma demo_state_run (env : Env) :
  load_image env = load_image quiet_env →
  run_ops env demo_ops initial_app = Some demo_state.
Proof.
  intros Himg. unfold demo_state.
  assert (Hsame : run_ops env demo_ops initial_app = run_ops quiet_env demo_ops initial_app).
  { unfold demo_ops, run_ops, run_op, add_object_at_mouse_center, _add_object_at_pos,
      add_player_gui, ControllableEntity_init, CoinEntity_init, BouncerEntity_init,
      BoxEntity_init, Entity_init. by rewrite Himg. }
  rewrite Hsame. vm_compute. reflexivity.
Qed.


Lemma removal_idempotent_witness :
  ∃ a1, kill_entity 6 demo_state = Some a1 ∧ kill_entity 6 a1 = Some a1.
Proof.
  refine (proj1 (removal_idempotent demo_state 6
                   (mkEntity (CoinEntity 10) 7 8 2 false (50, 50)%Z (2000 # 4, 1200 # 4)%Q 0)
                   _)).
  vm_compute. reflexivity.
Defined.



Lemma demo_state_reachable_contact : reachable contact_env demo_state.
Proof.
  apply (reachable_run_ops contact_env demo_ops initial_app).
  - apply reachable_init. vm_compute. reflexivity.
  - vm_compute. reflexivity.
Qed.

Lemma coin_collected_on_contact_witness :
  ∃ a', update_simulation contact_env demo_state = Some a' ∧
        score a' = (score demo_state + 10)%Z ∧
        S (length (entities a')) = length (entities demo_state) ∧
        ¬ 6%nat ∈ entities a'.
Proof.
  destruct (coin_collected_on_contact contact_env demo_state 18 8
              (mkShape 17 (Circle 15) 1 (Some 16%nat))
              (mkShape 7 (Circle 10) 2 (Some 6%nat)))
    as (e & ent & ah & a' & Hpar & _ & _ & _ & _ & _ & _ & _ & _ & _ & Hup & Hnin & _ & _ & _ & _
        & Hone).
  - exact demo_state_reachable_contact.
  - left. vm_compute. left.
  - vm_compute. reflexivity.
  - reflexivity.
  - vm_compute. reflexivity.
  - reflexivity.
  - injection Hpar as <-. exists a'. split; [exact Hup|].
    destruct Hone as [Hs Hl]; [vm_compute; reflexivity|].
    split; [exact Hs|]. split; [exact Hl|exact Hnin].
Defined.


Lemma marked_entity_removed_before_use_witness :
  ∃ a', update_simulation contact_env demo_state = Some a' ∧
        ¬ 6%nat ∈ entities a' ∧
        ¬ EvDraw 6 ∈ new_events (events demo_state) (events a').
Proof.
  destruct (marked_entity_removed_before_use contact_env demo_state)
    as (a1 & a' & Hstep & Hup & _ & _ & _ & _ & _ & Hmarked).
  - exact demo_state_reachable_contact.
  - exists a'. split; [exact Hup|].
    destruct (Hmarked 6%nat) as (Hnin & _ & _ & Hdraw & _).
    + vm_compute in Hstep. injection Hstep as <-. vm_compute. reflexivity.
    + split; [exact Hnin|exact Hdraw].
Defined.


(** * Further properties of the code *)

(** ** Camera: zoom and pan *)

Lemma py_min_cases (a b : Q) :
  (py_min a b == a ∧ a <= b)%Q ∨ (py_min a b == b ∧ b <= a)%Q.
Proof. unfold py_min. destruct (Qlt_le_dec b a); [right|left]; split; lra. Qed.

Lemma py_max_cases (a b : Q) :
  (py_max a b == a ∧ b <= a)%Q ∨ (py_max a b == b ∧ a <= b)%Q.
Proof. unfold py_max. destruct (Qlt_le_dec a b); [right|left]; split; lra. Qed.

Lemma is_zero_spec (q : Q) : is_zero q = true ↔ (q == 0)%Q.
Proof. unfold is_zero. apply Qeq_bool_iff. Qed.

Lemma is_zero_neq (q : Q) : ¬ (q == 0)%Q → is_zero q = false.
Proof.
  intros Hq. destruct (is_zero q) eqn:E; [|done]. by apply is_zero_spec in E.
Qed.

(** X1.  [zoom_in] and [zoom_out] keep the zoom between [min_zoom] and
    [max_zoom], move it in their own direction only, stay put at the end of
    the range and leave the pan offset alone. *)
Theorem camera_zoom_clamped (c : Camera) :
  (min_zoom c <= zoom c)%Q → (zoom c <= max_zoom c)%Q → (0 <= zoom_speed c)%Q →
  (min_zoom c <= zoom (Camera.zoom_in c) <= max_zoom c)%Q ∧
  (min_zoom c <= zoom (Camera.zoom_out c) <= max_zoom c)%Q ∧
  (zoom (Camera.zoom_out c) <= zoom c <= zoom (Camera.zoom_in c))%Q ∧
  ((zoom c == max_zoom c)%Q → (zoom (Camera.zoom_in c) == max_zoom c)%Q) ∧
  ((zoom c == min_zoom c)%Q → (zoom (Camera.zoom_out c) == min_zoom c)%Q) ∧
  offset_x (Camera.zoom_in c) = offset_x c ∧ offset_y (Camera.zoom_in c) = offset_y c ∧
  offset_x (Camera.zoom_out c) = offset_x c ∧ offset_y (Camera.zoom_out c) = offset_y c.
Proof.
  intros Hlo Hhi Hsp. unfold Camera.zoom_in, Camera.zoom_out, Camera.with_view.
  cbn [zoom min_zoom max_zoom offset_x offset_y].
  destruct (py_min_cases (max_zoom c) (zoom c + zoom_speed c)) as [[E1 L1]|[E1 L1]];
    destruct (py_max_cases (min_zoom c) (zoom c - zoom_speed c)) as [[E2 L2]|[E2 L2]];
    rewrite E1, E2; repeat split; try done; intros; lra.
Qed.

(** X2.  [pan] raises exactly when the zoom is zero; otherwise it keeps the zoom
    and moves the screen image of every world point by exactly [(-dx, -dy)]
    pixels (before truncation), whatever the zoom. *)
Theorem camera_pan_shifts_screen (c : Camera) (dx dy : Q) :
  ((zoom c == 0)%Q → Camera.pan c dx dy = None) ∧
  (¬ (zoom c == 0)%Q →
   ∃ c', Camera.pan c dx dy = Some c' ∧ zoom c' = zoom c ∧
         (offset_x c' == offset_x c + dx / zoom c)%Q ∧
         (offset_y c' == offset_y c + dy / zoom c)%Q ∧
         ∀ x y, (Camera.screen_x c' x == Camera.screen_x c x - dx)%Q ∧
                (Camera.screen_y c' y == Camera.screen_y c y - dy)%Q).
Proof.
  unfold Camera.pan. split; intros Hz.
  - apply is_zero_spec in Hz. by rewrite Hz.
  - rewrite is_zero_neq by done. eexists. split; [done|].
    unfold Camera.screen_x, Camera.screen_y, Camera.with_view.
    cbn [zoom offset_x offset_y width height].
    split; [done|]. split; [reflexivity|]. split; [reflexivity|].
    intros x y. split; field; done.
Qed.

(** X3.  Zooming keeps the centre of the view fixed: whatever the zoom, the
    world point [(offset_x + width / 2, offset_y + height / 2)] is shown at
    the centre [(width / 2, height / 2)] of the screen (before [apply]
    truncates), so [zoom_in] and [zoom_out] leave it there. *)
Theorem camera_zoom_keeps_view_centre (c : Camera) (z : Q) :
  let centre := ((offset_x c + width c / 2)%Q, (offset_y c + height c / 2)%Q) in
  let c' := Camera.with_view c (offset_x c) (offset_y c) z in
  (Camera.screen_x c' (fst centre) == width c / 2)%Q ∧
  (Camera.screen_y c' (snd centre) == height c / 2)%Q ∧
  (Camera.screen_x (Camera.zoom_in c) (fst centre) == Camera.screen_x c (fst centre))%Q ∧
  (Camera.screen_y (Camera.zoom_in c) (snd centre) == Camera.screen_y c (snd centre))%Q ∧
  (Camera.screen_x (Camera.zoom_out c) (fst centre) == Camera.screen_x c (fst centre))%Q ∧
  (Camera.screen_y (Camera.zoom_out c) (snd centre) == Camera.screen_y c (snd centre))%Q.
Proof.
  cbn zeta.
  assert (Hx : ∀ z, (Camera.screen_x (Camera.with_view c (offset_x c) (offset_y c) z)
                       (offset_x c + width c / 2) == width c / 2)%Q).
  { intros z'. unfold Camera.screen_x, Camera.with_view.
    cbn [zoom offset_x offset_y width height]. field. }
  assert (Hy : ∀ z, (Camera.screen_y (Camera.with_view c (offset_x c) (offset_y c) z)
                       (offset_y c + height c / 2) == height c / 2)%Q).
  { intros z'. unfold Camera.screen_y, Camera.with_view.
    cbn [zoom offset_x offset_y width height]. field. }
  assert (Hx0 : (Camera.screen_x c (offset_x c + width c / 2) == width c / 2)%Q).
  { unfold Camera.screen_x. field. }
  assert (Hy0 : (Camera.screen_y c (offset_y c + height c / 2) == height c / 2)%Q).
  { unfold Camera.screen_y. field. }
  cbn [fst snd]. unfold Camera.zoom_in, Camera.zoom_out.
  rewrite !Hx, !Hy, Hx0, Hy0. by repeat split.
Qed.

(** [screen_to_world] raises exactly when the zoom is zero. *)
Lemma screen_to_world_None (c : Camera) (p : Vec) :
  Camera.screen_to_world c p = None ↔ (zoom c == 0)%Q.
Proof.
  unfold Camera.screen_to_world. rewrite <- is_zero_spec.
  destruct (is_zero (zoom c)); split; done.
Qed.

(** ** Keys *)

Lemma set_pressed_keys_id (a : App) : set_pressed_keys (pressed_keys a) a = a.
Proof. by destruct a. Qed.

(** X4.  The key set is keyed by the lower-case key name: releasing a key that is
    not held changes nothing (the [KeyError] is swallowed), so a press
    followed by the release of the same key, in whatever case, gives back
    the state before the press; pressing a held key again changes
    nothing. *)
Theorem key_press_release_roundtrip (k k' : string) (a : App) :
  lower k' = lower k → lower k ∉ pressed_keys a →
  on_key_release k' a = a ∧
  on_key_release k' (on_key_press k a) = a ∧
  on_key_press k' (on_key_press k a) = on_key_press k a ∧
  pressed (lower k) (on_key_press k a) = true.
Proof.
  intros Hk Hnot. unfold on_key_release, on_key_press, pressed. rewrite Hk.
  cbn [pressed_keys set_pressed_keys].
  assert (E1 : pressed_keys a ∖ {[lower k]} = pressed_keys a) by set_solver.
  assert (E2 : ({[lower k]} ∪ pressed_keys a) ∖ {[lower k]} = pressed_keys a)
    by set_solver.
  assert (E3 : {[lower k]} ∪ ({[lower k]} ∪ pressed_keys a) =
               {[lower k]} ∪ pressed_keys a) by set_solver.
  split; [rewrite E1; apply set_pressed_keys_id|].
  split; [destruct a; cbn in *; by rewrite E2|].
  split; [destruct a; cbn in *; by rewrite E3|].
  apply bool_decide_eq_true. set_solver.
Qed.

(** ** The pan keys *)

(** X5.  [handle_keyboard_input] moves the pan offset by [pan_speed / zoom] per
    held arrow key, opposite keys cancelling each other, and never changes
    the zoom. *)
Theorem keyboard_pan_offset (a : App) :
  ¬ (zoom (camera a) == 0)%Q →
  ∃ c, handle_keyboard_input a = Some (set_camera c (emit EvSampleKeys a)) ∧
       zoom c = zoom (camera a) ∧
       (offset_x c == offset_x (camera a) +
          key_axis "left" "right" a * pan_speed (camera a) / zoom (camera a))%Q ∧
       (offset_y c == offset_y (camera a) +
          key_axis "up" "down" a * pan_speed (camera a) / zoom (camera a))%Q.
Proof.
  intros Hz. unfold handle_keyboard_input, key_axis, pressed.
  cbn [camera pressed_keys emit set_events].
  set (s := pan_speed (camera a)).
  set (dx := (if bool_decide ("right" ∈ pressed_keys a)
              then (if bool_decide ("left" ∈ pressed_keys a) then 0 - s else 0) + s
              else if bool_decide ("left" ∈ pressed_keys a) then 0 - s else 0)%Q).
  set (dy := (if bool_decide ("down" ∈ pressed_keys a)
              then (if bool_decide ("up" ∈ pressed_keys a) then 0 - s else 0) + s
              else if bool_decide ("up" ∈ pressed_keys a) then 0 - s else 0)%Q).
  assert (Hdx : (dx == ((if bool_decide ("right" ∈ pressed_keys a) then 1 else 0) -
                        (if bool_decide ("left" ∈ pressed_keys a) then 1 else 0)) * s)%Q).
  { unfold dx. repeat case_bool_decide; ring. }
  assert (Hdy : (dy == ((if bool_decide ("down" ∈ pressed_keys a) then 1 else 0) -
                        (if bool_decide ("up" ∈ pressed_keys a) then 1 else 0)) * s)%Q).
  { unfold dy. repeat case_bool_decide; ring. }
  destruct (negb (is_zero dx) || negb (is_zero dy)) eqn:Hmove.
  - unfold Camera.pan. rewrite is_zero_neq by done. cbn.
    eexists. split; [reflexivity|]. cbn [zoom offset_x offset_y Camera.with_view].
    split; [done|]. rewrite <- Hdx, <- Hdy. split; reflexivity.
  - apply orb_false_elim in Hmove as [Hx Hy].
    apply negb_false_iff, is_zero_spec in Hx, Hy.
    exists (camera a). split; [by destruct a|]. split; [done|].
    rewrite <- Hdx, <- Hdy, Hx, Hy. split; field; done.
Qed.

(** ** Spawning *)

(** X6.  [_add_object_at_pos] with a type string other than "ball", "box",
    "bouncer" and "coin" returns without touching the state: no entity, no
    log line, no exception. *)
Theorem add_object_unknown_type_ignored (env : Env) (pos : Vec) (t : string)
    (a : App) :
  t ∉ known_types →
  _add_object_at_pos env pos t a = Some a ∧
  (¬ (zoom (camera a) == 0)%Q → add_object_at_mouse_center env t a = Some a).
Proof.
  intros Ht. unfold known_types in Ht.
  assert (H : ∀ p, _add_object_at_pos env p t a = Some a).
  { intros p. unfold _add_object_at_pos.
    rewrite !decide_False; [done|set_solver..]. }
  split; [apply H|]. intros Hz. unfold add_object_at_mouse_center.
  unfold Camera.screen_to_world. rewrite is_zero_neq by done. cbn. apply H.
Qed.

(** ** Dragging *)

(** X7.  With no drag in progress, a press followed by the release leaves the
    Space as it was, whether or not the press grabbed a shape: the joint a
    grab adds is the one the release removes, and afterwards no joint and
    no shape is held. *)
Theorem drag_press_release_roundtrip (env : Env) (a : App) (x y : Z) :
  reachable env a → mouse_joint a = None →
  ∃ a1 a2,
    on_mouse_press env x y a = Some a1 ∧ on_mouse_release a1 = Some a2 ∧
    space a2 = space a ∧ mouse_joint a2 = None ∧
    entities a2 = entities a ∧ score a2 = score a ∧ camera a2 = camera a ∧
    (a1 = a ∧ a2 = a ∨
     (∃ j, mouse_joint a1 = Some j ∧ ¬ j ∈ constraints (space a) ∧
           constraints (space a1) = {[j]} ∪ constraints (space a)) ∧
     selected_shape_drag a2 = None).
Proof.
  intros Hr Hnone. apply reachable_wf in Hr. destruct Hr as [Hwf _].
  assert (Hrun := wf_running _ Hwf).
  assert (Hrel : on_mouse_release a = Some a).
  { unfold on_mouse_release. by rewrite Hrun, Hnone. }
  assert (Hmiss : ∃ a1 a2, Some a = Some a1 ∧ on_mouse_release a1 = Some a2 ∧
            space a2 = space a ∧ mouse_joint a2 = None ∧
            entities a2 = entities a ∧ score a2 = score a ∧ camera a2 = camera a ∧
            (a1 = a ∧ a2 = a ∨
             (∃ j, mouse_joint a1 = Some j ∧ ¬ j ∈ constraints (space a) ∧
                   constraints (space a1) = {[j]} ∪ constraints (space a)) ∧
             selected_shape_drag a2 = None)).
  { exists a, a. repeat split; try done. by left. }
  unfold on_mouse_press. rewrite Hrun. cbn [negb].
  destruct (camera_ok_screen_to_world (camera a) (vec_of_Z (x, y))) as [pos ->];
    [apply wf_camera, Hwf|].
  cbn -[decide Qpower].
  destruct (point_query_nearest env _ _ _ pos 0) as [info|] eqn:Hq; [|exact Hmiss].
  destruct (pq_shape info) as [s|] eqn:Hs; [|exact Hmiss].
  pose proof (point_query_in_space env _ _ _ _ _ _ _ Hq Hs) as Hin.
  destruct (wf_space_shapes _ Hwf _ Hin) as (sh & Hsh & _).
  destruct (wf_shape_closed _ Hwf _ _ Hsh) as ([b Hb] & _).
  rewrite Hsh. cbn -[decide Qpower]. rewrite Hb. cbn -[decide Qpower].
  destruct (decide (body_type b = DYNAMIC)) as [Hdyn|Hdyn]; [|exact Hmiss].
  assert (next_id a ∉ constraints (space a)) as Hfresh.
  { intros Hc. assert (next_id a < next_id a); [|lia]. apply (wf_space_fresh _ Hwf). auto. }
  unfold Space.add_constraint. cbn -[decide Qpower]. rewrite decide_False by done.
  cbn -[decide Qpower].
  eexists _, _. split; [reflexivity|].
  unfold on_mouse_release. cbn -[decide Qpower]. rewrite Hrun. cbn -[decide Qpower].
  rewrite decide_True by set_solver.
  unfold Space.remove_constraint. cbn -[decide Qpower].
  rewrite decide_True by set_solver. cbn -[decide Qpower].
  split; [reflexivity|]. cbn -[decide Qpower].
  assert (E : ({[next_id a]} ∪ constraints (space a)) ∖ {[next_id a]} =
              constraints (space a)) by set_solver.
  rewrite E. split; [by destruct (space a)|].
  repeat (split; [done|]). right. split; [|done].
  exists (next_id a). by repeat split.
Qed.

(** X8.  A second press while a shape is held does not let go of the first
    joint: it adds a second one and [mouse_joint] forgets the first, so the
    release removes only the second and the first stays in the Space, out
    of reach of any later release. *)
Theorem drag_second_press_leaks_joint (env : Env) (a a1 : App) (x y x' y' : Z)
    (pos pos' : Vec) (s s' : nat) :
  reachable env a →
  Camera.screen_to_world (camera a) (vec_of_Z (x, y)) = Some pos →
  dynamic_hit env a pos s →
  on_mouse_press env x y a = Some a1 →
  Camera.screen_to_world (camera a1) (vec_of_Z (x', y')) = Some pos' →
  dynamic_hit env a1 pos' s' →
  ∃ a2 a3 j1 j2,
    on_mouse_press env x' y' a1 = Some a2 ∧ on_mouse_release a2 = Some a3 ∧
    mouse_joint a1 = Some j1 ∧ mouse_joint a2 = Some j2 ∧ j1 ≠ j2 ∧
    ¬ j1 ∈ constraints (space a) ∧
    constraints (space a2) = {[j2]} ∪ ({[j1]} ∪ constraints (space a)) ∧
    constraints (space a3) = {[j1]} ∪ constraints (space a) ∧
    mouse_joint a3 = None ∧ on_mouse_release a3 = Some a3.
Proof.
  intros Hr Hpos Hhit Hp1 Hpos' Hhit'. apply reachable_wf in Hr.
  destruct (on_mouse_press_spec env x y a Hr) as (p & b1 & Hp & Hb1 & Hwf1 & Hcase).
  rewrite Hpos in Hp. injection Hp as <-.
  rewrite Hp1 in Hb1. injection Hb1 as <-.
  destruct Hcase as [(s0 & _ & Hf1 & Hc1 & Hj1 & _)|[Hno _]]; [|by destruct (Hno s)].
  destruct (on_mouse_press_spec env x' y' a1 Hwf1) as (p' & a2 & Hp' & Hp2 & Hwf2 & Hcase).
  rewrite Hpos' in Hp'. injection Hp' as <-.
  destruct Hcase as [(s0' & _ & Hf2 & Hc2 & Hj2 & _)|[Hno _]]; [|by destruct (Hno s')].
  assert (Hrun := wf_running _ (proj1 Hwf2)).
  exists a2.
  assert (Hin2 : next_id a1 ∈ constraints (space a2)) by (rewrite Hc2; set_solver).
  assert (Hne : next_id a ≠ next_id a1).
  { intros Heq. apply Hf2. rewrite Hc1, <- Heq. set_solver. }
  eexists _, (next_id a), (next_id a1). split; [done|]. split.
  { unfold on_mouse_release. rewrite Hrun, Hj2. cbn [negb].
    rewrite decide_True by done. unfold Space.remove_constraint.
    rewrite decide_True by done. reflexivity. }
  split; [done|]. split; [done|]. split; [done|]. split; [done|].
  split; [by rewrite Hc2, Hc1|].
  split; [cbn; rewrite Hc2, Hc1; set_solver|].
  split; [done|]. unfold on_mouse_release. cbn. by rewrite Hrun.
Qed.

(** ** What the spawning callbacks build *)

Section Spawns.

Variable env : Env.

Lemma _add_object_at_pos_spawned (pos : Vec) (t : string) (c : EntityClass)
    (a : App) :
  wf a → type_class t = Some c →
  ∃ a' ent b sh,
    _add_object_at_pos env pos t a = Some a' ∧ wf a' ∧
    spawned a a' (next_id a) ent ∧
    cls ent = c ∧ rect_center ent = pos ∧
    body_store a' !! body ent = Some b ∧ position b = pos ∧
    body_type b = (if is_BouncerEntity c then STATIC else DYNAMIC) ∧
    forces b = [] ∧
    shape_store a' !! shape ent = Some sh ∧
    geometry sh = match c with
                  | EntityBase => Circle 12
                  | BoxEntity => Poly (image_size ent)
                  | BouncerEntity _ => Circle 25
                  | CoinEntity _ => Circle 10
                  | ControllableEntity _ => Circle 15
                  end ∧
    controllable_object a' = controllable_object a ∧
    data_log a' = LogAdded t pos :: data_log a ∧
    score a' = score a ∧ gravity (space a') = gravity (space a) ∧
    camera a' = camera a ∧ pressed_keys a' = pressed_keys a.
Proof.
  intros [Hwf Hun] Hc. unfold _add_object_at_pos. unfold type_class in Hc.
  pose proof (wf_space_fresh _ Hwf) as Hfresh.
  repeat case_decide; try done; injection Hc as <-.
  - destruct (Entity_init_spec env EntityBase pos "ball.png" (Some 10%Q) 12 (8 # 100)
                false COLLISION_TYPE_BALL a Hfresh)
      as (a1 & Hinit & Hrest & Hn & He & Hb & Hs & Hsb & Hss).
    rewrite Hinit. cbn. eexists _, _, _, _; split; [reflexivity|].
    destruct Hrest as (?&?&?&?&?&?&?&?&?&?&?&?&?&?&?&?&?).
    match goal with |- wf ?a2 ∧ _ =>
      assert (spawned a a2 (next_id a) _) as Hsp
        by (eapply (spawned_of_init env EntityBase); eauto; try done; by left) end.
    split; [split; [eapply wf_core_spawned | eapply unmarked_spawned]; eauto|].
    split; [exact Hsp|]. cbn. rewrite Hb, Hs, !lookup_insert_eq.
    repeat split; first [reflexivity|congruence].
  - destruct (BoxEntity_init_spec env pos "box.png" (1 # 10) 20 false a Hfresh)
      as (a1 & Hinit & Hrest & Hn & He & Hb & Hs & Hsb & Hss).
    rewrite Hinit. cbn. eexists _, _, _, _; split; [reflexivity|].
    destruct Hrest as (?&?&?&?&?&?&?&?&?&?&?&?&?&?&?&?&?).
    match goal with |- wf ?a2 ∧ _ =>
      assert (spawned a a2 (next_id a) _) as Hsp
        by (eapply (spawned_of_box env); eauto; done) end.
    split; [split; [eapply wf_core_spawned | eapply unmarked_spawned]; eauto|].
    split; [exact Hsp|]. cbn. rewrite Hb, Hs, !lookup_insert_eq.
    repeat split; first [reflexivity|congruence].
  - destruct (Entity_init_spec env (BouncerEntity 500000) pos "bouncer.png" None 25 (2 # 10)
                true COLLISION_TYPE_BOUNCER a Hfresh)
      as (a1 & Hinit & Hrest & Hn & He & Hb & Hs & Hsb & Hss).
    unfold BouncerEntity_init. rewrite Hinit. cbn. eexists _, _, _, _; split; [reflexivity|].
    destruct Hrest as (?&?&?&?&?&?&?&?&?&?&?&?&?&?&?&?&?).
    match goal with |- wf ?a2 ∧ _ =>
      assert (spawned a a2 (next_id a) _) as Hsp
        by (eapply (spawned_of_init env (BouncerEntity 500000)); eauto; try done; by left) end.
    split; [split; [eapply wf_core_spawned | eapply unmarked_spawned]; eauto|].
    split; [exact Hsp|]. cbn. rewrite Hb, Hs, !lookup_insert_eq.
    repeat split; first [reflexivity|congruence].
  - destruct (Entity_init_spec env (CoinEntity 10) pos "coin.png" (Some 1%Q) 10 (7 # 100)
                false COLLISION_TYPE_COIN a Hfresh)
      as (a1 & Hinit & Hrest & Hn & He & Hb & Hs & Hsb & Hss).
    unfold CoinEntity_init. rewrite Hinit. cbn. eexists _, _, _, _; split; [reflexivity|].
    destruct Hrest as (?&?&?&?&?&?&?&?&?&?&?&?&?&?&?&?&?).
    match goal with |- wf ?a2 ∧ _ =>
      assert (spawned a a2 (next_id a) _) as Hsp
        by (eapply (spawned_of_init env (CoinEntity 10)); eauto; try done;
            try (by intros v [= <-]); by left) end.
    split; [split; [eapply wf_core_spawned | eapply unmarked_spawned]; eauto|].
    split; [exact Hsp|]. cbn. rewrite Hb, Hs, !lookup_insert_eq.
    repeat split; first [reflexivity|congruence].
Qed.

(** [add_player_gui]: the old player, if there is one on the list, is
    retired (state [a1]), then the new one is built. *)
Lemma add_player_gui_spawned (a : App) :
  wf a →
  ∃ pos a1 a' ent b,
    Camera.screen_to_world (camera a) screen_center = Some pos ∧
    add_player_gui env a = Some a' ∧ wf a' ∧ wf a1 ∧
    (a1 = a ∧ (controllable_object a = None ∨
               ∃ old, controllable_object a = Some old ∧ ¬ old ∈ all_sprites a)
     ∨ ∃ old oent, controllable_object a = Some old ∧ old ∈ entities a ∧
                   ent_store a !! old = Some oent ∧ retired a a1 old oent) ∧
    spawned a1 a' (next_id a) ent ∧
    cls ent = ControllableEntity 20000 ∧ rect_center ent = pos ∧
    body_store a' !! body ent = Some b ∧ position b = pos ∧
    body_type b = DYNAMIC ∧ forces b = [] ∧
    controllable_object a' = Some (next_id a) ∧
    data_log a' = LogAddedPlayer pos :: data_log a ∧
    score a' = score a ∧ gravity (space a') = gravity (space a) ∧
    camera a' = camera a ∧ pressed_keys a' = pressed_keys a.
Proof.
  intros Hwfa. unfold add_player_gui.
  destruct (camera_ok_screen_to_world (camera a) screen_center) as [pos Hpos];
    [apply wf_camera, Hwfa|].
  rewrite Hpos. exists pos.
  cbn -[ControllableEntity_init].
  assert (Hold : ∃ a1,
    match controllable_object a with
    | Some old =>
        if alive old a then
          a ← kill_entity old a;
          l ← py_list_remove old (entities a);
          Some (set_entities l a)
        else Some a
    | None => Some a
    end = Some a1 ∧ wf a1 ∧ next_id a1 = next_id a ∧
    score a1 = score a ∧ camera a1 = camera a ∧
    gravity (space a1) = gravity (space a) ∧
    data_log a1 = data_log a ∧ pressed_keys a1 = pressed_keys a ∧
    (a1 = a ∧ (controllable_object a = None ∨
               ∃ old, controllable_object a = Some old ∧ ¬ old ∈ all_sprites a)
     ∨ ∃ old oent, controllable_object a = Some old ∧ old ∈ entities a ∧
                   ent_store a !! old = Some oent ∧ retired a a1 old oent)).
  { destruct Hwfa as [Hwf Hun].
    destruct (controllable_object a) as [old|] eqn:Hc;
      [|exists a; repeat (split; [done|]); left; split; [done|by left]].
    unfold alive. case_bool_decide as Hal;
      [|exists a; repeat (split; [done|]); left; split; [done|right; by exists old]].
    destruct (wf_ctrl _ Hwf _ Hc) as (ent & He & _).
    destruct (kill_entity_spec old ent a He) as (a1 & -> & Hfr & Hkb & Hks & Hksp).
    destruct Hfr as (?&?&?&?&?&?&Hen&?&?&?&?&?&?&?&?&?&?&?&?&?).
    cbn. rewrite Hen.
    rewrite py_list_remove_NoDup; [|by apply wf_nodup|by apply wf_alive].
    cbn. eexists; split; [reflexivity|].
    match goal with |- wf ?a2 ∧ _ =>
      assert (retired a a2 old ent) as Hrt by (constructor; cbn; by repeat split) end.
    split; [split; [eapply wf_core_retired | eapply unmarked_retired]; eauto|].
    cbn. repeat (split; [done|]). right. exists old, ent.
    repeat split; try done. by apply wf_alive. }
  destruct Hold as (a1 & -> & [Hwf Hun] & En & E1 & E2 & E3 & E4 & E5 & Hcases).
  exists a1.
  cbn -[ControllableEntity_init]. unfold ControllableEntity_init.
  destruct (Entity_init_spec env (ControllableEntity 20000) pos "ball.png" (Some 5%Q) 15
              (1 # 10) false COLLISION_TYPE_PLAYER a1 (wf_space_fresh _ Hwf))
    as (a2 & Hinit & Hrest & Hn & He & Hb & Hs & Hsb & Hss).
  rewrite Hinit. cbn. eexists _, _, _; split; [done|]. split; [reflexivity|].
  destruct Hrest as (?&?&?&?&?&?&?&?&?&?&?&?&?&?&?&?&?).
  match goal with |- wf ?a3 ∧ _ =>
    assert (spawned a1 a3 (next_id a1) _) as Hsp
      by (eapply (spawned_of_init env (ControllableEntity 20000)); eauto; try done;
          by right) end.
  split; [split; [eapply wf_core_spawned | eapply unmarked_spawned]; eauto|].
  split; [done|]. split; [exact Hcases|].
  rewrite <- En. split; [exact Hsp|]. cbn. rewrite Hb, !lookup_insert_eq.
  repeat split; first [reflexivity|congruence].
Qed.

End Spawns.

(** ** The tick in detail *)

Lemma fmap_insert_same {A B} (f : A → B) (m : gmap nat A) (k : nat) (x y : A) :
  m !! k = Some x → f y = f x → f <$> <[k := y]> m = f <$> m.
Proof.
  intros Hk Hf. rewrite fmap_insert, Hf. apply insert_id.
  by rewrite lookup_fmap, Hk.
Qed.

Lemma fmap_eq_lookup {A B} (f : A → B) (m m' : gmap nat A) (k : nat) (x : A) :
  f <$> m' = f <$> m → m !! k = Some x →
  ∃ x', m' !! k = Some x' ∧ f x' = f x.
Proof.
  intros Heq Hk. assert (H : (f <$> m') !! k = Some (f x)).
  { by rewrite Heq, lookup_fmap, Hk. }
  rewrite lookup_fmap in H. destruct (m' !! k) as [x'|]; [|done].
  exists x'. split; [done|]. by injection H.
Qed.

Lemma ent_key_ids (m m' : gmap nat Entity) :
  ent_key <$> m' = ent_key <$> m → ent_ids <$> m' = ent_ids <$> m.
Proof.
  intros H. apply map_eq. intros k. rewrite !lookup_fmap.
  assert (Hk : (ent_key <$> m') !! k = (ent_key <$> m) !! k) by by rewrite H.
  rewrite !lookup_fmap in Hk.
  destruct (m' !! k) as [x'|], (m !! k) as [x|]; cbn in *; try done.
  injection Hk as H1 H2 H3 H4. unfold ent_ids. by rewrite H1, H2, H3.
Qed.

(** *** The callbacks keep every entity's class, body and shape, and the
    Space *)

Lemma callback_keeps_refl (a : App) : callback_keeps a a.
Proof. by repeat split. Qed.

Lemma callback_keeps_trans (a b c : App) :
  callback_keeps a b → callback_keeps b c → callback_keeps a c.
Proof. intros (?&?&?&?) (?&?&?&?). repeat split; congruence. Qed.

Lemma on_collected_keeps (self : nat) (a a' : App) :
  on_collected self a = Some a' → callback_keeps a a'.
Proof.
  unfold on_collected. destruct (ent_store a !! self) as [ent|] eqn:He; [|done].
  cbn. destruct (cls ent); try done. intros [= <-].
  split; [|done]. cbn. by apply (fmap_insert_same ent_ids _ _ ent).
Qed.

Section Keeps.

Variable env : Env.

Lemma on_collision_keeps (self other : nat) (a a' : App) :
  on_collision env self other a = Some a' → callback_keeps a a'.
Proof.
  unfold on_collision. destruct (ent_store a !! self) as [ent|]; [|done].
  cbn. destruct (cls ent); try done.
  destruct (shape_store a !! other) as [osh|]; [|done]. cbn.
  destruct (body_store a !! shape_body osh) as [ob|]; [|done]. cbn.
  case_decide; [|intros [= <-]; apply callback_keeps_refl].
  destruct (body_store a !! body ent) as [sb|]; [|done]. cbn.
  intros [= <-]. by repeat split.
Qed.

Lemma player_collect_coin_begin_keeps (arb : nat * nat) (a a' : App) (r : bool) :
  player_collect_coin_begin arb a = Some (a', r) → callback_keeps a a'.
Proof.
  destruct arb as [p c]. unfold player_collect_coin_begin.
  destruct (shape_store a !! c) as [csh|]; [|done]. cbn.
  destruct (parent_sprite csh) as [sprite|]; [|intros [= <- _]; apply callback_keeps_refl].
  destruct (ent_store a !! sprite) as [ent|]; [|done]. cbn.
  destruct (is_CoinEntity (cls ent)); [|intros [= <- _]; apply callback_keeps_refl].
  destruct (on_collected sprite a) as [a1|] eqn:E; [|done]. cbn.
  intros [= <- _]. by apply on_collected_keeps in E.
Qed.

Lemma bouncer_interaction_begin_keeps (arb : nat * nat) (a a' : App) (r : bool) :
  bouncer_interaction_begin env arb a = Some (a', r) → callback_keeps a a'.
Proof.
  destruct arb as [s1 s2]. unfold bouncer_interaction_begin.
  destruct (shape_store a !! s1) as [bsh|]; [|done]. cbn -[decide].
  destruct (decide (collision_type bsh ≠ COLLISION_TYPE_BOUNCER)).
  - destruct (shape_store a !! s2) as [bsh'|]; [|done]. cbn.
    destruct (parent_sprite bsh') as [sprite|]; [|intros [= <- _]; apply callback_keeps_refl].
    destruct (ent_store a !! sprite) as [ent|]; [|done]. cbn.
    destruct (is_BouncerEntity (cls ent)); [|intros [= <- _]; apply callback_keeps_refl].
    destruct (on_collision env sprite s1 a) as [a1|] eqn:E; [|done]. cbn.
    intros [= <- _]. by apply on_collision_keeps in E.
  - destruct (shape_store a !! s1) as [bsh'|]; [|done]. cbn.
    destruct (parent_sprite bsh') as [sprite|]; [|intros [= <- _]; apply callback_keeps_refl].
    destruct (ent_store a !! sprite) as [ent|]; [|done]. cbn.
    destruct (is_BouncerEntity (cls ent)); [|intros [= <- _]; apply callback_keeps_refl].
    destruct (on_collision env sprite s2 a) as [a1|] eqn:E; [|done]. cbn.
    intros [= <- _]. by apply on_collision_keeps in E.
Qed.

Lemma dispatch_begin_keeps (arb : nat * nat) (a a' : App) (r : bool) :
  dispatch_begin env arb a = Some (a', r) → callback_keeps a a'.
Proof.
  destruct arb as [s1 s2]. unfold dispatch_begin.
  destruct (shape_store a !! s1) as [sh1|]; [|done].
  cbn -[decide player_collect_coin_begin bouncer_interaction_begin].
  destruct (shape_store a !! s2) as [sh2|]; [|done].
  cbn -[decide player_collect_coin_begin bouncer_interaction_begin].
  case_decide; [apply player_collect_coin_begin_keeps|].
  case_decide; [apply player_collect_coin_begin_keeps|].
  assert (Hb : ∀ (t : Z) x y a0 a1 r1,
    (if decide (t = COLLISION_TYPE_BOUNCER)
     then bouncer_interaction_begin env (x, y) a0 else Some (a0, true)) = Some (a1, r1) →
    callback_keeps a0 a1).
  { intros t x y a0 a1 r1. case_decide.
    - apply bouncer_interaction_begin_keeps.
    - intros [= <- _]. apply callback_keeps_refl. }
  destruct (if decide (collision_type sh1 = COLLISION_TYPE_BOUNCER)
            then bouncer_interaction_begin env (s1, s2) a else Some (a, true))
    as [[a1 r1]|] eqn:E1; [|done].
  cbn -[decide player_collect_coin_begin bouncer_interaction_begin].
  destruct (if decide (collision_type sh2 = COLLISION_TYPE_BOUNCER)
            then bouncer_interaction_begin env (s2, s1) a1 else Some (a1, true))
    as [[a2 r2]|] eqn:E2; [|done].
  cbn. intros [= <- _]. apply Hb in E1, E2. by eapply callback_keeps_trans.
Qed.

Lemma run_begin_keeps (arbs : list (nat * nat)) (a a' : App)
    (rs : list (nat * nat * bool)) :
  run_begin env arbs a = Some (a', rs) → callback_keeps a a'.
Proof.
  revert a rs. induction arbs as [|arb arbs IH]; intros a rs.
  - intros [= <- _]. apply callback_keeps_refl.
  - cbn [run_begin]. destruct (dispatch_begin env arb a) as [[a1 r]|] eqn:E1; [|done].
    cbn. destruct (run_begin env arbs a1) as [[a2 rs2]|] eqn:E2; [|done].
    cbn. intros [= <- _]. apply dispatch_begin_keeps in E1. apply IH in E2.
    by eapply callback_keeps_trans.
Qed.

(** [Space.step] keeps them too, and leaves no pending force on a body of
    the Space. *)
Lemma Space_step_keeps (dt : Q) (a a' : App) :
  Space_step env dt a = Some a' →
  callback_keeps a a' ∧
  (∀ i b, i ∈ bodies (space a) → body_store a' !! i = Some b → forces b = []).
Proof.
  unfold Space_step. cbv zeta.
  destruct (run_begin env _ (emit (EvStep dt) a)) as [[a1 rs]|] eqn:E; [|done].
  cbn -[map_imap]. intros [= <-]. apply run_begin_keeps in E.
  destruct E as (E1 & E2 & E3 & E4). cbn in E1, E2, E3, E4.
  split; [by repeat split|]. cbn -[map_imap]. rewrite E2.
  intros i b Hi. rewrite map_lookup_imap.
  destruct (body_store a1 !! i) as [b1|]; [|done]. cbn.
  rewrite decide_True by done. by intros [= <-].
Qed.

End Keeps.

(** *** The sweep *)

Lemma sweep_one_detail (e : nat) (a a' : App) :
  wf_core a → e ∈ entities a → sweep_one e a = Some a' →
  ∃ ent, ent_store a !! e = Some ent ∧ body_store a' = body_store a ∧
    if marked_for_removal ent
    then ent_store a' = ent_store a ∧
         bodies (space a') = bodies (space a) ∖ {[body ent]} ∧
         shapes (space a') = shapes (space a) ∖ {[shape ent]}
    else space a' = space a ∧
         ∃ b, body_store a !! body ent = Some b ∧
              ent_store a' =
                if decide (body_type b = DYNAMIC)
                then <[e := Entity_sync ent (position b) (angle b)]> (ent_store a)
                else ent_store a.
Proof.
  intros Hwf Hin Hsw. destruct (wf_ents_dom _ Hwf _ Hin) as [ent He].
  exists ent. split; [done|]. revert Hsw.
  unfold sweep_one, Entity_update. rewrite He. cbn -[decide bool_decide].
  destruct (marked_for_removal ent) eqn:Hm.
  - destruct (kill_entity_spec e ent a He) as (a1 & -> & Hfr & Hkb & Hks & Hksp).
    destruct Hfr as (Fn&Fe&Fb&Fs&Fj&Fc&Fen&Fct&Fsc&Fsel&Fmj&Fmb&Fpk&Fr&Fd&Fl&Fev&Fcs&Fg&Fsb).
    cbn -[decide bool_decide]. unfold is_marked at 1. rewrite Fe, He, Hm.
    rewrite bool_decide_eq_true_2 by by rewrite Fen. cbn -[decide bool_decide].
    rewrite Fen, py_list_remove_NoDup by (done || apply Hwf). cbn.
    intros [= <-]. by cbn.
  - destruct (wf_ent_closed _ Hwf _ _ He) as ([b Hb] & _). rewrite Hb.
    cbn -[decide bool_decide].
    destruct (decide (body_type b = DYNAMIC)).
    + cbn -[decide bool_decide]. unfold is_marked at 1. cbn -[decide bool_decide].
      rewrite lookup_insert_eq. cbn -[decide bool_decide]. rewrite Hm.
      cbn -[decide bool_decide]. intros [= <-]. cbn. split; [done|]. split; [done|].
      exists b. split; [done|]. by rewrite decide_True.
    + cbn -[decide bool_decide]. unfold is_marked at 1. rewrite He, Hm.
      cbn -[decide bool_decide]. intros [= <-]. split; [done|]. split; [done|].
      exists b. split; [done|]. by rewrite decide_False.
Qed.

(** The whole sweep: the bodies and shapes of the marked entities leave the
    Space and nothing else does; every entity keeps its class, body, shape
    and mark; an unmarked entity on the list whose body is dynamic ends at
    its body's position and angle. *)
Lemma sweep_detail (l : list nat) (a a' : App) :
  wf_core a → NoDup l → (∀ x, x ∈ l → x ∈ entities a) →
  sweep l a = Some a' →
  body_store a' = body_store a ∧
  ent_key <$> ent_store a' = ent_key <$> ent_store a ∧
  (∀ x, x ∈ bodies (space a') ↔
        x ∈ bodies (space a) ∧
        ∀ e ent, e ∈ l → ent_store a !! e = Some ent →
                 marked_for_removal ent = true → x ≠ body ent) ∧
  (∀ x, x ∈ shapes (space a') ↔
        x ∈ shapes (space a) ∧
        ∀ e ent, e ∈ l → ent_store a !! e = Some ent →
                 marked_for_removal ent = true → x ≠ shape ent) ∧
  (∀ e, ¬ e ∈ l → ent_store a' !! e = ent_store a !! e) ∧
  (∀ e ent b, e ∈ l → ent_store a !! e = Some ent →
     marked_for_removal ent = false → body_store a !! body ent = Some b →
     ent_store a' !! e =
       Some (if decide (body_type b = DYNAMIC)
             then Entity_sync ent (position b) (angle b) else ent)).
Proof.
  revert a. induction l as [|e0 l IH]; intros a Hwf Hnd Hsub Hsw.
  - injection Hsw as <-. split; [done|]. split; [done|].
    split; [intros x; split; [intros ?; split; [done|]; by intros ?? ?%elem_of_nil|tauto]|].
    split; [intros x; split; [intros ?; split; [done|]; by intros ?? ?%elem_of_nil|tauto]|].
    split; [done|]. by intros ??? ?%elem_of_nil.
  - apply list.NoDup_cons in Hnd as [Hne Hnd].
    assert (Hin0 : e0 ∈ entities a) by (apply Hsub; left).
    destruct (sweep_one_spec e0 a Hwf Hin0) as (a1 & H1 & Hwf1 & Hfr1 & Hm1 & Hen1 & _).
    cbn [sweep] in Hsw. rewrite H1 in Hsw. cbn in Hsw.
    destruct (sweep_one_detail e0 a a1 Hwf Hin0 H1) as (ent0 & He0 & Hbs1 & Hcase).
    assert (Hsub1 : ∀ x, x ∈ l → x ∈ entities a1).
    { intros x Hx. rewrite Hen1. apply list_elem_of_filter. split.
      - intros [-> _]. done.
      - apply Hsub. by right. }
    destruct (IH a1 Hwf1 Hnd Hsub1 Hsw) as (Hbs & Hkey & Hbod & Hshp & Hout & Hsync).
    (* how the first turn changes the entity store *)
    assert (Hstore1 : ∀ e, e ≠ e0 → ent_store a1 !! e = ent_store a !! e).
    { intros e Hne0. destruct (marked_for_removal ent0).
      - destruct Hcase as (-> & _). done.
      - destruct Hcase as (_ & b & _ & ->). case_decide; [|done].
        by rewrite lookup_insert_ne. }
    assert (Hkey1 : ent_key <$> ent_store a1 = ent_key <$> ent_store a).
    { destruct (marked_for_removal ent0).
      - destruct Hcase as (-> & _). done.
      - destruct Hcase as (_ & b & _ & ->). case_decide; [|done].
        by apply (fmap_insert_same ent_key _ _ ent0). }
    split; [congruence|]. split; [congruence|].
    split; [|split; [|split]].
    + intros x. rewrite Hbod. split.
      * intros [Hx Hall]. destruct (marked_for_removal ent0) eqn:Hm0.
        -- destruct Hcase as (Hes & Hb1 & _). rewrite Hb1 in Hx.
           apply elem_of_difference in Hx as [Hx Hx0]. split; [done|].
           intros e ent [->|He]%elem_of_cons Hent Hmk.
           ++ rewrite He0 in Hent. injection Hent as <-. set_solver.
           ++ apply (Hall e ent He); [|done]. by rewrite Hes.
        -- destruct Hcase as (Hsp & _). rewrite Hsp in Hx. split; [done|].
           intros e ent [->|He]%elem_of_cons Hent Hmk; [congruence|].
           apply (Hall e ent He); [|done]. rewrite Hstore1; [done|].
           intros ->. done.
      * intros [Hx Hall]. split.
        -- destruct (marked_for_removal ent0) eqn:Hm0.
           ++ destruct Hcase as (_ & -> & _). apply elem_of_difference. split; [done|].
              intros ->%elem_of_singleton. eapply (Hall e0 ent0); try done. left.
           ++ destruct Hcase as (-> & _). done.
        -- intros e ent He Hent Hmk. rewrite Hstore1 in Hent by (intros ->; done).
           eapply Hall; [by right|done..].
    + intros x. rewrite Hshp. split.
      * intros [Hx Hall]. destruct (marked_for_removal ent0) eqn:Hm0.
        -- destruct Hcase as (Hes & _ & Hs1). rewrite Hs1 in Hx.
           apply elem_of_difference in Hx as [Hx Hx0]. split; [done|].
           intros e ent [->|He]%elem_of_cons Hent Hmk.
           ++ rewrite He0 in Hent. injection Hent as <-. set_solver.
           ++ apply (Hall e ent He); [|done]. by rewrite Hes.
        -- destruct Hcase as (Hsp & _). rewrite Hsp in Hx. split; [done|].
           intros e ent [->|He]%elem_of_cons Hent Hmk; [congruence|].
           apply (Hall e ent He); [|done]. rewrite Hstore1; [done|].
           intros ->. done.
      * intros [Hx Hall]. split.
        -- destruct (marked_for_removal ent0) eqn:Hm0.
           ++ destruct Hcase as (_ & _ & ->). apply elem_of_difference. split; [done|].
              intros ->%elem_of_singleton. eapply (Hall e0 ent0); try done. left.
           ++ destruct Hcase as (-> & _). done.
        -- intros e ent He Hent Hmk. rewrite Hstore1 in Hent by (intros ->; done).
           eapply Hall; [by right|done..].
    + intros e Hnin. apply not_elem_of_cons in Hnin as [Hne0 Hnin].
      rewrite Hout by done. by apply Hstore1.
    + intros e ent b [->|He]%elem_of_cons Hent Hmk Hb.
      * rewrite Hout by done. rewrite He0 in Hent. injection Hent as <-.
        rewrite Hmk in Hcase. destruct Hcase as (_ & b' & Hb' & ->).
        rewrite Hb in Hb'. injection Hb' as <-.
        case_decide; [by rewrite lookup_insert_eq|done].
      * apply Hsync; try done; [|by rewrite Hbs1].
        rewrite Hstore1; [done|]. intros ->. done.
Qed.

(** *** Rendering *)

Lemma drawn_events (evs : list Event) (a : App) (e : nat) :
  drawn (set_events evs a) e = drawn a e.
Proof. done. Qed.

Lemma Entity_draw_drawn (e : nat) (a : App) :
  is_Some (ent_store a !! e) →
  Entity_draw e a = Some (if drawn a e then emit (EvDraw e) a else a).
Proof.
  intros [ent He]. unfold Entity_draw, drawn. rewrite He. cbn -[py_int].
  destruct (alive e a); cbn -[py_int]; [|done].
  rewrite !(Z.leb_antisym 0).
  by destruct (0 <? py_int (inject_Z (image_size ent).1 * _))%Z,
             (0 <? py_int (inject_Z (image_size ent).2 * _))%Z.
Qed.

Lemma draw_all_exact (l : list nat) (a : App) :
  (∀ e, e ∈ l → is_Some (ent_store a !! e)) →
  draw_all l a =
    Some (set_events
            (reverse (EvDraw <$> filter (λ e, drawn a e = true) l) ++ events a) a).
Proof.
  revert a. induction l as [|e l IH]; intros a Hdom.
  - cbn. by rewrite set_events_id.
  - rewrite filter_cons. cbn [draw_all].
    rewrite Entity_draw_drawn by (apply Hdom; left). cbn [mbind option_bind].
    destruct (drawn a e) eqn:Hd.
    + rewrite decide_True by done. rewrite IH by (intros; apply Hdom; by right).
      rewrite fmap_cons, reverse_cons, <- app_assoc. reflexivity.
    + rewrite decide_False by done. apply IH. intros; apply Hdom; by right.
Qed.

Lemma render_exact (a : App) :
  (∀ e, e ∈ entities a → is_Some (ent_store a !! e)) →
  render a =
    Some (set_events
            (EvPresent (length (entities a)) (score a) ::
             (if debug_draw_pymunk a then [EvDebugDraw] else []) ++
             reverse (EvDraw <$> filter (λ e, drawn a e = true) (entities a)) ++
             EvClear :: events a) a).
Proof.
  intros Hdom. unfold render. cbv zeta.
  change (entities (emit EvClear a)) with (entities a).
  rewrite draw_all_exact by done. cbn.
  by destruct (debug_draw_pymunk a).
Qed.

(** *** The whole tick *)

Lemma ent_ids_eq (e1 e2 : Entity) :
  ent_ids e1 = ent_ids e2 →
  cls e1 = cls e2 ∧ body e1 = body e2 ∧ shape e1 = shape e2.
Proof. unfold ent_ids. intros [= -> -> ->]. done. Qed.

Lemma omap_nil_Forall {A B} (f : A → option B) (l : list A) :
  Forall (λ x, f x = None) l → omap f l = [].
Proof.
  induction 1 as [|x l Hx _ IH]; [done|]. cbn. by rewrite Hx.
Qed.

Lemma omap_reverse {A B} (f : A → option B) (l : list A) :
  omap f (reverse l) = reverse (omap f l).
Proof.
  induction l as [|x l IH]; [done|].
  rewrite reverse_cons, omap_app, IH. cbn [omap list_omap].
  destruct (f x); [by rewrite reverse_cons|by rewrite app_nil_r].
Qed.

Lemma omap_draw_of_fmap (l : list nat) : omap draw_of (EvDraw <$> l) = l.
Proof. induction l as [|x l IH]; [done|]. cbn. by rewrite IH. Qed.

Section TickDetail.

Variable env : Env.

Lemma collected_on_list (a : App) (e : nat) :
  wf_core a → e ∈ collected env a → e ∈ entities a.
Proof.
  intros Hwf Hin. unfold collected in Hin.
  apply list_elem_of_omap in Hin as ([s1 s2] & Hc & Hcoin).
  apply (begin_contacts_in_space env) in Hc as [H1 H2].
  destruct (wf_space_shapes _ Hwf _ H1) as (sh1 & Hsh1 & Hp1).
  destruct (wf_space_shapes _ Hwf _ H2) as (sh2 & Hsh2 & Hp2).
  unfold coin_of in Hcoin. cbn -[decide] in Hcoin.
  rewrite Hsh1, Hsh2 in Hcoin. cbn -[decide] in Hcoin.
  repeat case_decide; try done.
  - by apply Hp2.
  - by apply Hp1.
Qed.

(** What one tick does to the Space, the entity list and the entities. *)
Lemma tick_space (a : App) :
  wf a →
  ∃ a1 a',
    Space_step env TIME_STEP a = Some a1 ∧
    update_simulation env a = Some a' ∧ wf a' ∧
    ent_ids <$> ent_store a' = ent_ids <$> ent_store a ∧
    entities a' = filter (λ x, x ∉ collected env a) (entities a) ∧
    (∀ x, x ∈ bodies (space a') ↔
          x ∈ bodies (space a) ∧
          ∀ e ent, e ∈ collected env a → ent_store a !! e = Some ent → x ≠ body ent) ∧
    (∀ x, x ∈ shapes (space a') ↔
          x ∈ shapes (space a) ∧
          ∀ e ent, e ∈ collected env a → ent_store a !! e = Some ent → x ≠ shape ent) ∧
    controllable_object a' = controllable_object a ∧
    gravity (space a') = gravity (space a) ∧
    constraints (space a') = constraints (space a) ∧
    pressed_keys a' = pressed_keys a ∧
    score a' = (score a + 10 * Z.of_nat (length (collected env a)))%Z.
Proof.
  intros Hwfa.
  destruct (update_simulation_spec env a Hwfa)
    as (a1 & c & a3 & a4 & syncs & draws & a' & Hts & Hup & Hwf').
  destruct (tick_steps_facts env a a1 c a3 a4 syncs draws a' Hwfa Hts)
    as (Hen3 & Hes3 & Hsp3 & Hal3 & Hm' & Hen' & Hsc' & _).
  destruct Hwfa as [Hwf Hun].
  destruct Hts as
    [T_step T_wf1 T_frame1 T_events1 T_score1 T_marks1 T_keys T_camera T_steer
     T_steer_cases T_wf3 T_sweep T_wf4 T_frame4 T_marks4 T_entities4 T_events4
     T_syncs T_render T_final T_draws].
  destruct (Space_step_keeps env _ _ _ T_step) as ((Hk1 & _) & _).
  destruct (sweep_detail (entities a3) a3 a4 T_wf3 (wf_nodup _ T_wf3) (λ x H, H) T_sweep)
    as (Hbs4 & Hkey4 & Hbod4 & Hshp4 & _ & _).
  destruct T_frame1 as (F1n&F1s&F1j&F1sp&F1c&F1al&F1en&F1ct&F1sel&F1mj&F1mb&F1pk&F1r&F1d).
  destruct T_frame4 as (F4n&F4b&F4s&F4j&F4c&F4ct&F4sc&F4sel&F4mj&F4mb&F4pk&F4r&F4d&F4l&F4cs&F4g&_).
  assert (H3 : controllable_object a3 = controllable_object a1 ∧
               pressed_keys a3 = pressed_keys a1).
  { destruct T_steer_cases as [[-> _]|(p & ent & mag & b & _ & _ & _ & _ & _ & _ & ->)];
      by split. }
  destruct H3 as [H3ct H3pk].
  (* a marked entity of the list after the step is a collected one *)
  assert (Hmk : ∀ e ent ent3, e ∈ entities a → ent_store a !! e = Some ent →
                  ent_store a3 !! e = Some ent3 →
                  ent_ids ent3 = ent_ids ent ∧
                  (marked_for_removal ent3 = true ↔ e ∈ collected env a)).
  { intros e ent ent3 Hin He He3. rewrite Hes3 in He3.
    destruct (fmap_eq_lookup ent_ids _ _ e ent Hk1 He) as (ent1 & He1 & Hids).
    rewrite He1 in He3. injection He3 as <-. split; [done|].
    pose proof (T_marks1 e) as Hm1. unfold is_marked at 1 in Hm1.
    rewrite He1, (Hun e Hin) in Hm1. cbn in Hm1. rewrite Hm1.
    apply bool_decide_eq_true. }
  assert (Hlook : ∀ e ent, e ∈ entities a → ent_store a !! e = Some ent →
                    ∃ ent3, ent_store a3 !! e = Some ent3).
  { intros e ent Hin He. rewrite Hes3.
    destruct (fmap_eq_lookup ent_ids _ _ e ent Hk1 He) as (ent1 & He1 & _). eauto. }
  assert (Hlook' : ∀ e ent3, ent_store a3 !! e = Some ent3 →
                     ∃ ent, ent_store a !! e = Some ent).
  { intros e ent3 He3. rewrite Hes3 in He3.
    destruct (fmap_eq_lookup ent_ids _ _ e ent3 (eq_sym Hk1) He3) as (ent & He & _). eauto. }
  exists a1, a'. split; [done|]. split; [done|]. split; [done|].
  split.
  { rewrite T_final. cbn. rewrite (ent_key_ids _ _ Hkey4), Hes3. exact Hk1. }
  split; [done|].
  split.
  { intros x. rewrite T_final. cbn. rewrite Hbod4, Hsp3, Hen3. split.
    - intros [Hx Hall]. split; [done|]. intros e ent Hcol He.
      assert (Hin : e ∈ entities a) by by apply collected_on_list.
      destruct (Hlook e ent Hin He) as (ent3 & He3).
      destruct (Hmk e ent ent3 Hin He He3) as [Hids Hiff].
      apply ent_ids_eq in Hids as (_ & <- & _).
      apply (Hall e ent3 Hin He3). by apply Hiff.
    - intros [Hx Hall]. split; [done|]. intros e ent3 Hin He3 Hm3.
      destruct (Hlook' e ent3 He3) as (ent & He).
      destruct (Hmk e ent ent3 Hin He He3) as [Hids Hiff].
      apply ent_ids_eq in Hids as (_ & -> & _).
      apply (Hall e ent); [by apply Hiff|done]. }
  split.
  { intros x. rewrite T_final. cbn. rewrite Hshp4, Hsp3, Hen3. split.
    - intros [Hx Hall]. split; [done|]. intros e ent Hcol He.
      assert (Hin : e ∈ entities a) by by apply collected_on_list.
      destruct (Hlook e ent Hin He) as (ent3 & He3).
      destruct (Hmk e ent ent3 Hin He He3) as [Hids Hiff].
      apply ent_ids_eq in Hids as (_ & _ & <-).
      apply (Hall e ent3 Hin He3). by apply Hiff.
    - intros [Hx Hall]. split; [done|]. intros e ent3 Hin He3 Hm3.
      destruct (Hlook' e ent3 He3) as (ent & He).
      destruct (Hmk e ent ent3 Hin He He3) as [Hids Hiff].
      apply ent_ids_eq in Hids as (_ & _ & ->).
      apply (Hall e ent); [by apply Hiff|done]. }
  rewrite T_final. cbn. rewrite F4ct, F4g, F4cs, F4pk, H3ct, H3pk, Hsp3, F1ct, F1pk.
  repeat split; try done. by rewrite T_final in Hsc'.
Qed.

(** What one tick leaves on the bodies and sprites of the live entities,
    and what it draws. *)
Lemma tick_sprites (a : App) :
  wf a →
  ∃ a',
    update_simulation env a = Some a' ∧
    (∀ i b, i ∈ bodies (space a') → body_store a' !! i = Some b →
       forces b = [] ∨
       ∃ p ent mag,
         controllable_object a = Some p ∧ p ∈ entities a ∧
         ent_store a !! p = Some ent ∧ body ent = i ∧
         cls ent = ControllableEntity mag ∧ force_dir a ≠ (0, 0)%Z ∧
         forces b = [(steering_force env a mag, vzero)]) ∧
    (∀ e, e ∈ entities a' →
       ∃ ent b, ent_store a' !! e = Some ent ∧ body_store a' !! body ent = Some b ∧
                (body_type b = DYNAMIC →
                 rect_center ent = position b ∧ image_angle ent = angle b)) ∧
    omap draw_of (new_events (events a) (events a')) =
      filter (λ e, drawn a' e = true) (entities a').
Proof.
  intros Hwfa.
  destruct (tick_space a Hwfa) as (a1' & a'' & _ & Hup' & _ & _ & _ & Hbod' & _).
  destruct (update_simulation_spec env a Hwfa)
    as (a1 & c & a3 & a4 & syncs & draws & a' & Hts & Hup & Hwf').
  rewrite Hup in Hup'. injection Hup' as <-.
  destruct (tick_steps_facts env a a1 c a3 a4 syncs draws a' Hwfa Hts)
    as (Hen3 & Hes3 & Hsp3 & Hal3 & Hm' & Hen' & Hsc' & force & Hev & Hforce).
  destruct Hwfa as [Hwf Hun].
  destruct Hts as
    [T_step T_wf1 T_frame1 T_events1 T_score1 T_marks1 T_keys T_camera T_steer
     T_steer_cases T_wf3 T_sweep T_wf4 T_frame4 T_marks4 T_entities4 T_events4
     T_syncs T_render T_final T_draws].
  destruct (Space_step_keeps env _ _ _ T_step) as ((Hk1 & _) & Hclear).
  destruct (sweep_detail (entities a3) a3 a4 T_wf3 (wf_nodup _ T_wf3) (λ x H, H) T_sweep)
    as (Hbs4 & Hkey4 & _ & _ & _ & Hsync4).
  destruct T_frame1 as (F1n&F1s&F1j&F1sp&F1c&F1al&F1en&F1ct&F1sel&F1mj&F1mb&F1pk&F1r&F1d).
  set (a2 := set_camera c (emit EvSampleKeys a1)) in *.
  assert (Hk2 : pressed_keys a2 = pressed_keys a) by done.
  exists a'. split; [done|]. split; [|split].
  - (* pending forces *)
    intros i b Hi Hb. apply Hbod' in Hi as [Hi _].
    rewrite T_final in Hb. cbn in Hb. rewrite Hbs4 in Hb.
    destruct T_steer_cases
      as [[-> _]|(p & ent & mag & b0 & Hp & Halive & He & Hcls & Hb0 & Hnz & ->)].
    + left. by apply (Hclear i b).
    + cbn -[steering_force] in Hb.
      destruct (decide (i = body ent)) as [->|Hne].
      * right. rewrite lookup_insert_eq in Hb. injection Hb as <-.
        cbn in He, Hp, Hb0.
        destruct (fmap_eq_lookup ent_ids _ _ p ent (eq_sym Hk1) He) as (ent0 & He0 & Hids).
        apply ent_ids_eq in Hids as (Hc0 & Hb0' & _).
        destruct (steering_force_keys env a2 a mag Hk2) as [Hsf Hfd].
        exists p, ent0, mag. rewrite F1ct in Hp. split; [done|].
        split.
        { unfold alive in Halive. cbn in Halive. rewrite F1al in Halive.
          apply bool_decide_eq_true in Halive. by apply (wf_alive _ Hwf). }
        split; [done|]. split; [done|]. split; [congruence|].
        split; [by rewrite <- Hfd|].
        cbn -[steering_force]. rewrite Hsf. f_equal. by apply (Hclear (body ent) b0).
      * left. rewrite lookup_insert_ne in Hb by done. by apply (Hclear i b).
  - (* sprites follow their bodies *)
    intros e He'. rewrite T_final in He'. cbn in He'.
    rewrite T_entities4 in He'. apply list_elem_of_filter in He' as [Hnm Hin3].
    destruct (wf_ents_dom _ T_wf3 _ Hin3) as [ent He3].
    destruct (wf_ent_closed _ T_wf3 _ _ He3) as ([b Hb] & _).
    assert (Hm3 : marked_for_removal ent = false).
    { destruct (marked_for_removal ent) eqn:E; [|done]. exfalso. apply Hnm.
      split; [done|]. unfold is_marked. by rewrite He3. }
    pose proof (Hsync4 e ent b Hin3 He3 Hm3 Hb) as He4.
    rewrite T_final. cbn. rewrite He4, Hbs4.
    case_decide as Hdyn.
    + exists (Entity_sync ent (position b) (angle b)), b. cbn. by repeat split.
    + exists ent, b. by repeat split.
  - (* what is drawn *)
    assert (Hdraws : draws =
              reverse (EvDraw <$> filter (λ e, drawn a4 e = true) (entities a4))).
    { rewrite render_exact in T_render by (intros; by apply (wf_ents_dom _ T_wf4)).
      injection T_render as Hr. rewrite T_final in Hr.
      apply (f_equal events) in Hr. cbn in Hr. injection Hr as Hr.
      apply app_inv_head in Hr. apply app_inv_tail in Hr. done. }
    assert (Hsplit : events a' =
      (EvPresent (length (entities a')) (score a')
       :: (if debug_draw_pymunk a then [EvDebugDraw] else []) ++
       draws ++ EvClear :: syncs ++ force ++ [EvSampleKeys; EvStep TIME_STEP]) ++
      events a).
    { rewrite Hev. repeat (rewrite <- app_assoc || rewrite <- app_comm_cons).
      reflexivity. }
    rewrite Hsplit, new_events_app, omap_reverse.
    cbn [omap list_omap draw_of]. rewrite !omap_app. cbn [omap list_omap draw_of].
    rewrite !omap_app.
    assert (Hdbg : omap draw_of (if debug_draw_pymunk a then [EvDebugDraw] else []) = [])
      by by destruct (debug_draw_pymunk a).
    assert (Hsy : omap draw_of syncs = []).
    { apply omap_nil_Forall. eapply Forall_impl; [|exact T_syncs].
      by intros ev (e & -> & _). }
    assert (Hfo : omap draw_of force = []).
    { destruct Hforce as [[-> _]|(p & ent & mag & b & _ & _ & _ & _ & _ & -> & _)]; done. }
    rewrite Hdbg, Hsy, Hfo, Hdraws, omap_reverse, omap_draw_of_fmap.
    cbn [omap list_omap draw_of app]. rewrite app_nil_r, reverse_involutive.
    rewrite T_final. reflexivity.
Qed.

End TickDetail.

(** ** What each callback leaves alone *)

Lemma quiet_refl (a : App) : quiet a a.
Proof. by repeat split. Qed.

Lemma on_mouse_release_quiet (a a' : App) : on_mouse_release a = Some a' → quiet a a'.
Proof.
  unfold on_mouse_release. destruct (running a); cbn -[decide];
    [|intros [= <-]; apply quiet_refl].
  destruct (mouse_joint a) as [j|]; [|intros [= <-]; apply quiet_refl].
  case_decide; [|intros [= <-]; apply quiet_refl].
  unfold Space.remove_constraint. rewrite decide_True by done. cbn.
  intros [= <-]. by repeat split.
Qed.

Lemma _add_object_at_pos_unknown (env : Env) (pos : Vec) (t : string) (a : App) :
  type_class t = None → _add_object_at_pos env pos t a = Some a.
Proof.
  unfold type_class, _add_object_at_pos. by repeat case_decide.
Qed.

Section Frames.

Variable env : Env.

Lemma on_mouse_press_quiet (x y : Z) (a a' : App) :
  on_mouse_press env x y a = Some a' → quiet a a'.
Proof.
  unfold on_mouse_press. destruct (running a); cbn -[decide Qpower];
    [|intros [= <-]; apply quiet_refl].
  destruct (Camera.screen_to_world (camera a) (vec_of_Z (x, y))) as [pos|]; [|done].
  cbn -[decide Qpower].
  destruct (point_query_nearest env _ _ _ pos 0) as [info|];
    [|intros [= <-]; apply quiet_refl].
  destruct (pq_shape info) as [s|]; [|intros [= <-]; apply quiet_refl].
  destruct (shape_store a !! s) as [sh|]; [|done]. cbn -[decide Qpower].
  destruct (body_store a !! shape_body sh) as [b|]; [|done]. cbn -[decide Qpower].
  case_decide; [|intros [= <-]; apply quiet_refl].
  unfold Space.add_constraint. cbn -[decide Qpower].
  case_decide; [done|]. cbn -[decide Qpower]. intros [= <-]. by repeat split.
Qed.

Lemma on_mouse_motion_quiet (x y : Z) (a a' : App) :
  on_mouse_motion x y a = Some a' → quiet a a'.
Proof.
  unfold on_mouse_motion. destruct (running a); cbn;
    [|intros [= <-]; apply quiet_refl].
  destruct (Camera.screen_to_world (camera a) (vec_of_Z (x, y))) as [pos|]; [|done].
  cbn. destruct (body_store a !! mouse_body a) as [b|]; [|done]. cbn.
  intros [= <-]. by repeat split.
Qed.

(** The score moves only in a tick (by 10 per collected coin) and at a
    reset, the gravity only with the sliders, the key set only with the key
    events. *)
Lemma run_op_frame (op : Op) (a a' : App) :
  wf a → run_op env op a = Some a' →
  score a' = score_after env op a ∧
  gravity (space a') = gravity_after op a ∧
  pressed_keys a' = keys_after op a.
Proof.
  intros Hwf Hop. destruct op; cbn [run_op score_after gravity_after keys_after] in *.
  - destruct (tick_space env a Hwf) as (a1 & a2 & _ & Hup & _ & _ & _ & _ & _ & _ & Hg & _ & Hk & Hs).
    rewrite Hup in Hop. injection Hop as <-. done.
  - apply on_mouse_press_quiet in Hop as (_&_&_&_&_&?&?&?&_). done.
  - apply on_mouse_release_quiet in Hop as (_&_&_&_&_&?&?&?&_). done.
  - unfold on_right_click, add_object_at_click in Hop.
    rewrite (wf_running _ (proj1 Hwf)) in Hop. cbn [negb] in Hop.
    destruct (Camera.screen_to_world (camera a) (vec_of_Z (x, y))) as [pos|]; [|done].
    cbn in Hop.
    destruct (_add_object_at_pos_spawned env pos "ball" EntityBase a Hwf eq_refl)
      as (a2 & ent & b & sh & Hadd & _ & _ & _ & _ & _ & _ & _ & _ & _ & _ & _ & _ & Hs & Hg & _ & Hk).
    rewrite Hadd in Hop. injection Hop as <-. done.
  - apply on_mouse_motion_quiet in Hop as (_&_&_&_&_&?&?&?&_). done.
  - injection Hop as <-. unfold on_mouse_wheel. by destruct (running a).
  - by injection Hop as <-.
  - by injection Hop as <-.
  - destruct (add_player_gui_spawned env a Hwf)
      as (pos & a1 & a2 & ent & b & _ & Hadd & _ & _ & _ & _ & _ & _ & _ & _ & _ & _ & _ & _
          & Hs & Hg & _ & Hk).
    rewrite Hadd in Hop. injection Hop as <-. done.
  - unfold add_object_at_mouse_center in Hop.
    destruct (Camera.screen_to_world (camera a) screen_center) as [pos|]; [|done].
    cbn in Hop. destruct (type_class entity_type_str) as [c|] eqn:Hc.
    + destruct (_add_object_at_pos_spawned env pos entity_type_str c a Hwf Hc)
        as (a2 & ent & b & sh & Hadd & _ & _ & _ & _ & _ & _ & _ & _ & _ & _ & _ & _
            & Hs & Hg & _ & Hk).
      rewrite Hadd in Hop. injection Hop as <-. done.
    + rewrite _add_object_at_pos_unknown in Hop by done. by injection Hop as <-.
  - destruct (reset_simulation_spec a (proj1 Hwf))
      as (a2 & Hr & _ & _ & Hs & _ & _ & Hg & _ & _ & _ & _ & _ & _ & _ & Hk & _).
    rewrite Hr in Hop. injection Hop as <-. done.
  - by injection Hop as <-.
  - by injection Hop as <-.
  - by injection Hop as <-.
Qed.

End Frames.

(** ** The Space and the entity list stay in step *)

Lemma idm_lookup (a : App) (e : nat) (c : EntityClass) (b s : nat) :
  idm a !! e = Some (c, b, s) ↔
  ∃ ent, ent_store a !! e = Some ent ∧ cls ent = c ∧ body ent = b ∧ shape ent = s.
Proof.
  unfold idm. rewrite lookup_fmap. destruct (ent_store a !! e) as [ent|]; cbn.
  - unfold ent_ids. split.
    + intros [= <- <- <-]. by exists ent.
    + intros (ent' & [= <-] & <- & <- & <-). done.
  - split; [done|]. by intros (? & ? & _).
Qed.

Lemma idm_fresh (a : App) (e : nat) (c : EntityClass) (b s : nat) :
  wf_core a → idm a !! e = Some (c, b, s) →
  e < next_id a ∧ b < next_id a ∧ s < next_id a.
Proof.
  intros Hwf (ent & He & _ & <- & <-)%idm_lookup.
  destruct (wf_ent_closed _ Hwf _ _ He) as (Hb & sh & Hsh & _).
  repeat split; apply (wf_store_fresh _ Hwf); eauto.
Qed.

Lemma is_player_idm (a : App) (e : nat) :
  is_player a e = match idm a !! e with
                  | Some (c, _, _) => is_ControllableEntity c
                  | None => false
                  end.
Proof. unfold is_player, idm. rewrite lookup_fmap. by destruct (ent_store a !! e). Qed.

Lemma synced_space_same (a a' : App) :
  entities a' = entities a → idm a' = idm a →
  bodies (space a') = bodies (space a) → shapes (space a') = shapes (space a) →
  synced_space a → synced_space a'.
Proof.
  intros He Hi Hb Hs [S1 S2 S3 S4 S5].
  constructor; rewrite ?He, ?Hi, ?Hb, ?Hs; assumption.
Qed.

Lemma one_player_same (a a' : App) :
  entities a' = entities a → idm a' = idm a →
  controllable_object a' = controllable_object a →
  one_player a → one_player a'.
Proof.
  intros He Hi Hc [P1 P2]. split.
  - intros e. rewrite He, Hc, is_player_idm, Hi, <- is_player_idm. apply P1.
  - intros p. rewrite He, Hc, is_player_idm, Hi, <- is_player_idm. apply P2.
Qed.

Lemma synced_quiet (a a' : App) : quiet a a' → synced a → synced a'.
Proof.
  intros (He & Hs & Hb & Hsh & Hc & _) [H1 H2].
  assert (idm a' = idm a) by (unfold idm; by rewrite Hs).
  split; [by eapply synced_space_same|by eapply one_player_same].
Qed.

Lemma synced_space_spawned (a a' : App) (e : nat) (ent : Entity) :
  wf_core a → spawned a a' e ent → synced_space a → synced_space a'.
Proof.
  intros Hwf Hsp [S1 S2 S3 S4 S5].
  destruct Hsp as
    [S_running S_camera S_mouse_body S_next S_new S_lt S_unmarked S_value
     S_ents S_bodies S_shapes_new S_shapes_old S_shape S_space_bodies S_space_shapes
     S_space_constraints S_static S_sprites S_entities S_ctrl].
  destruct S_new as (Hne & Hnb & Hns).
  assert (Hidm : idm a' = <[e := ent_ids ent]> (idm a)).
  { unfold idm. by rewrite S_ents, fmap_insert. }
  assert (Hold : ∀ e0 c b s, idm a !! e0 = Some (c, b, s) →
                   e0 ≠ e ∧ b ≠ body ent ∧ s ≠ shape ent).
  { intros e0 c b s H0. apply (idm_fresh a) in H0 as (?&?&?); [|done]. lia. }
  assert (Hlist : ∀ e0, e0 ∈ entities a → e0 ≠ e).
  { intros e0 Hin ->. apply (wf_ents_dom _ Hwf) in Hin.
    assert (e < next_id a) by (apply (wf_store_fresh _ Hwf); auto). lia. }
  assert (Hbound : ¬ shape ent ∈ boundary_ids).
  { intros Hin. apply (wf_boundary _ Hwf) in Hin as [Hin _].
    assert (shape ent < next_id a) by (apply (wf_space_fresh _ Hwf); auto). lia. }
  constructor.
  - intros x. rewrite S_space_bodies, S_entities, Hidm, elem_of_union, elem_of_singleton, S1.
    split.
    + intros [->|(e0 & c & s & Hin & H0)].
      * exists e, (cls ent), (shape ent). rewrite lookup_insert_eq.
        split; [apply elem_of_app; right; left|done].
      * exists e0, c, s. destruct (Hold _ _ _ _ H0) as (? & _).
        rewrite lookup_insert_ne by done. split; [apply elem_of_app; by left|done].
    + intros (e0 & c & s & Hin & H0). destruct (decide (e0 = e)) as [->|Hne0].
      * rewrite lookup_insert_eq in H0. injection H0 as _ <- _. by left.
      * rewrite lookup_insert_ne in H0 by done. right. exists e0, c, s.
        split; [|done]. apply elem_of_app in Hin as [?|?%list_elem_of_singleton]; done.
  - intros x. rewrite S_space_shapes, S_entities, Hidm, elem_of_union, elem_of_singleton, S2.
    split.
    + intros [->|[?|(e0 & c & b & Hin & H0)]]; [|by left|].
      * right. exists e, (cls ent), (body ent). rewrite lookup_insert_eq.
        split; [apply elem_of_app; right; left|done].
      * right. exists e0, c, b. destruct (Hold _ _ _ _ H0) as (? & _).
        rewrite lookup_insert_ne by done. split; [apply elem_of_app; by left|done].
    + intros [?|(e0 & c & b & Hin & H0)]; [right; by left|].
      destruct (decide (e0 = e)) as [->|Hne0].
      * rewrite lookup_insert_eq in H0. injection H0 as _ _ <-. by left.
      * rewrite lookup_insert_ne in H0 by done. right. right. exists e0, c, b.
        split; [|done]. apply elem_of_app in Hin as [?|?%list_elem_of_singleton]; done.
  - intros e1 e2 c1 c2 b s1 s2. rewrite Hidm.
    destruct (decide (e1 = e)) as [->|H1], (decide (e2 = e)) as [->|H2]; [done|..].
    + rewrite lookup_insert_eq, lookup_insert_ne by done. intros [= _ <- _] H0.
      by destruct (Hold _ _ _ _ H0) as (_ & ? & _).
    + rewrite lookup_insert_eq, lookup_insert_ne by done. intros H0 [= _ <- _].
      by destruct (Hold _ _ _ _ H0) as (_ & ? & _).
    + rewrite !lookup_insert_ne by done. apply S3.
  - intros e1 e2 c1 c2 b1 b2 s. rewrite Hidm.
    destruct (decide (e1 = e)) as [->|H1], (decide (e2 = e)) as [->|H2]; [done|..].
    + rewrite lookup_insert_eq, lookup_insert_ne by done. intros [= _ _ <-] H0.
      by destruct (Hold _ _ _ _ H0) as (_ & _ & ?).
    + rewrite lookup_insert_eq, lookup_insert_ne by done. intros H0 [= _ _ <-].
      by destruct (Hold _ _ _ _ H0) as (_ & _ & ?).
    + rewrite !lookup_insert_ne by done. apply S4.
  - intros e0 c b s. rewrite Hidm. destruct (decide (e0 = e)) as [->|H0].
    + rewrite lookup_insert_eq. by intros [= _ _ <-].
    + rewrite lookup_insert_ne by done. apply S5.
Qed.

Lemma synced_space_retired (a a' : App) (e : nat) (ent : Entity) :
  wf_core a → ent_store a !! e = Some ent → e ∈ entities a →
  retired a a' e ent → synced_space a → synced_space a'.
Proof.
  intros Hwf He Hin [Hfr Hb Hs Hsp Hen] [S1 S2 S3 S4 S5].
  destruct Hfr as (_&_&_&Hes&_).
  assert (Hidm : idm a' = idm a) by (unfold idm; by rewrite Hes).
  assert (Hie : idm a !! e = Some (cls ent, body ent, shape ent)).
  { apply idm_lookup. by exists ent. }
  constructor; rewrite ?Hidm; try assumption.
  - intros x. rewrite Hb, Hen, elem_of_difference, elem_of_singleton, S1. split.
    + intros [(e0 & c & s & Hin0 & H0) Hx]. exists e0, c, s. split; [|done].
      apply list_elem_of_filter. split; [|done]. intros ->.
      rewrite Hie in H0. by injection H0 as _ <- _.
    + intros (e0 & c & s & [Hne Hin0]%list_elem_of_filter & H0). split; [eauto|].
      intros ->. apply Hne. by eapply S3.
  - intros x. rewrite Hs, Hen, elem_of_difference, elem_of_singleton, S2. split.
    + intros [[?|(e0 & c & b & Hin0 & H0)] Hx]; [by left|]. right.
      exists e0, c, b. split; [|done].
      apply list_elem_of_filter. split; [|done]. intros ->.
      rewrite Hie in H0. by injection H0 as _ _ <-.
    + intros [Hbd|(e0 & c & b & [Hne Hin0]%list_elem_of_filter & H0)].
      * split; [by left|]. intros ->. by eapply S5.
      * split; [right; eauto|]. intros ->. apply Hne. by eapply S4.
Qed.

Lemma synced_same (a a' : App) :
  entities a' = entities a → ent_store a' = ent_store a →
  bodies (space a') = bodies (space a) → shapes (space a') = shapes (space a) →
  controllable_object a' = controllable_object a →
  synced a → synced a'.
Proof.
  intros He Hs Hb Hsh Hc [H1 H2].
  assert (idm a' = idm a) by (unfold idm; by rewrite Hs).
  split; [by eapply synced_space_same|by eapply one_player_same].
Qed.

Lemma is_player_spawned (a a' : App) (e : nat) (ent : Entity) (e0 : nat) :
  spawned a a' e ent →
  is_player a' e0 = if decide (e0 = e) then is_ControllableEntity (cls ent)
                    else is_player a e0.
Proof.
  intros Hsp. unfold is_player. rewrite (sp_ents _ _ _ _ Hsp).
  case_decide as He0; [subst; by rewrite lookup_insert_eq|by rewrite lookup_insert_ne].
Qed.

Lemma spawned_not_listed (a a' : App) (e : nat) (ent : Entity) (e0 : nat) :
  wf_core a → spawned a a' e ent → e0 ∈ entities a → e0 ≠ e.
Proof.
  intros Hwf Hsp Hin ->. apply (wf_ents_dom _ Hwf) in Hin.
  assert (e < next_id a) by (apply (wf_store_fresh _ Hwf); auto).
  destruct (sp_new _ _ _ _ Hsp) as (? & _). lia.
Qed.

(** A new entity that is no player. *)
Lemma one_player_spawned_other (a a' : App) (e : nat) (ent : Entity) :
  wf_core a → spawned a a' e ent →
  is_ControllableEntity (cls ent) = false →
  controllable_object a' = controllable_object a →
  one_player a → one_player a'.
Proof.
  intros Hwf Hsp Hcls Hc [P1 P2]. split.
  - intros e0. rewrite (sp_entities _ _ _ _ Hsp), Hc, (is_player_spawned a a' e ent) by done.
    intros [Hin|Hin%list_elem_of_singleton]%elem_of_app.
    + rewrite decide_False by by eapply spawned_not_listed. by apply P1.
    + rewrite decide_True by done. congruence.
  - intros p. rewrite Hc, (sp_entities _ _ _ _ Hsp), (is_player_spawned a a' e ent) by done.
    intros [Hin Hp]%P2. split; [apply elem_of_app; by left|].
    rewrite decide_False by by eapply spawned_not_listed. done.
Qed.

(** A new player, when no player is on the list. *)
Lemma one_player_spawned_player (a a' : App) (e : nat) (ent : Entity) :
  wf_core a → spawned a a' e ent →
  is_ControllableEntity (cls ent) = true →
  controllable_object a' = Some e →
  (∀ e0, e0 ∈ entities a → is_player a e0 = false) →
  one_player a'.
Proof.
  intros Hwf Hsp Hcls Hc Hnone. split.
  - intros e0. rewrite (sp_entities _ _ _ _ Hsp), Hc, (is_player_spawned a a' e ent) by done.
    intros [Hin|Hin%list_elem_of_singleton]%elem_of_app; [|by subst].
    rewrite decide_False by by eapply spawned_not_listed.
    rewrite (Hnone e0 Hin). done.
  - intros p. rewrite Hc. intros [= <-].
    rewrite (sp_entities _ _ _ _ Hsp), (is_player_spawned a a' e ent) by done.
    rewrite decide_True by done. split; [apply elem_of_app; right; left|done].
Qed.

Section Synced.

Variable env : Env.

Lemma collected_is_coin (a : App) (e : nat) :
  wf_core a → e ∈ collected env a → is_player a e = false.
Proof.
  intros Hwf Hin. unfold collected in Hin.
  apply list_elem_of_omap in Hin as ([s1 s2] & Hc & Hcoin).
  apply (begin_contacts_in_space env) in Hc as [H1 H2].
  destruct (wf_space_shapes _ Hwf _ H1) as (sh1 & Hsh1 & _).
  destruct (wf_space_shapes _ Hwf _ H2) as (sh2 & Hsh2 & _).
  unfold coin_of in Hcoin. cbn -[decide] in Hcoin.
  rewrite Hsh1, Hsh2 in Hcoin. cbn -[decide] in Hcoin.
  assert (Hgen : ∀ s sh, shape_store a !! s = Some sh →
            collision_type sh = COLLISION_TYPE_COIN → parent_sprite sh = Some e →
            is_player a e = false).
  { intros s sh Hsh Hty Hp.
    destruct (wf_shape_closed _ Hwf _ _ Hsh) as (_ & _ & Hsome).
    destruct (Hsome e Hp) as (ent & He & Hct). unfold is_player. rewrite He.
    rewrite Hty in Hct. by destruct (cls ent). }
  repeat case_decide; try done.
  - apply (Hgen s2 sh2); [done|tauto|done].
  - apply (Hgen s1 sh1); [done|tauto|done].
Qed.

Lemma update_simulation_synced (a a' : App) :
  wf a → synced a → update_simulation env a = Some a' → synced a'.
Proof.
  intros Hwf [[S1 S2 S3 S4 S5] [P1 P2]] Hup.
  destruct (tick_space env a Hwf)
    as (a1 & a2 & _ & Hup2 & _ & Hids & Hen & Hbod & Hshp & Hct & _).
  rewrite Hup in Hup2. injection Hup2 as <-.
  change (idm a' = idm a) in Hids.
  assert (Hbody : ∀ e ent, ent_store a !! e = Some ent →
            idm a !! e = Some (cls ent, body ent, shape ent)).
  { intros e ent He. apply idm_lookup. by exists ent. }
  split; [constructor; rewrite ?Hids; try assumption|split].
  - intros x. rewrite Hbod, Hen, S1. split.
    + intros [(e0 & c & s & Hin & H0) Hall]. exists e0, c, s. split; [|done].
      apply list_elem_of_filter. split; [|done]. intros Hcol.
      apply idm_lookup in H0 as (ent & He & _ & Hb & _).
      by apply (Hall e0 ent Hcol He).
    + intros (e0 & c & s & [Hnc Hin]%list_elem_of_filter & H0). split; [eauto|].
      intros e ent Hcol He ->. apply Hnc.
      by rewrite (S3 _ _ _ _ _ _ _ H0 (Hbody _ _ He)).
  - intros x. rewrite Hshp, Hen, S2. split.
    + intros [[?|(e0 & c & b & Hin & H0)] Hall]; [by left|]. right.
      exists e0, c, b. split; [|done].
      apply list_elem_of_filter. split; [|done]. intros Hcol.
      apply idm_lookup in H0 as (ent & He & _ & _ & Hs).
      by apply (Hall e0 ent Hcol He).
    + intros [Hbd|(e0 & c & b & [Hnc Hin]%list_elem_of_filter & H0)].
      * split; [by left|]. intros e ent Hcol He ->.
        by apply (S5 _ _ _ _ (Hbody _ _ He)).
      * split; [right; eauto|].
        intros e ent Hcol He ->. apply Hnc.
        by rewrite (S4 _ _ _ _ _ _ _ H0 (Hbody _ _ He)).
  - intros e. rewrite Hen, Hct, is_player_idm, Hids, <- is_player_idm.
    intros [_ Hin]%list_elem_of_filter. by apply P1.
  - intros p. rewrite Hen, Hct, is_player_idm, Hids, <- is_player_idm.
    intros [Hin Hp]%P2. split; [|done]. apply list_elem_of_filter. split; [|done].
    intros Hcol. apply (collected_is_coin a p) in Hcol; [congruence|apply Hwf].
Qed.

Lemma _add_object_at_pos_synced (pos : Vec) (t : string) (a a' : App) :
  wf a → synced a → _add_object_at_pos env pos t a = Some a' → synced a'.
Proof.
  intros Hwf [H1 H2] Hadd. destruct (type_class t) as [c|] eqn:Hc.
  - destruct (_add_object_at_pos_spawned env pos t c a Hwf Hc)
      as (a2 & ent & b & sh & Hadd2 & _ & Hsp & Hcls & _ & _ & _ & _ & _ & _ & _ & Hct & _).
    rewrite Hadd in Hadd2. injection Hadd2 as <-.
    split; [by eapply synced_space_spawned; [apply Hwf|..]|].
    eapply one_player_spawned_other; [apply Hwf|done| |done..].
    rewrite Hcls. clear Hcls. unfold type_class in Hc.
    repeat case_decide; try done; by injection Hc as <-.
  - rewrite _add_object_at_pos_unknown in Hadd by done. by injection Hadd as <-.
Qed.

Lemma add_player_gui_synced (a a' : App) :
  wf a → synced a → add_player_gui env a = Some a' → synced a'.
Proof.
  intros Hwf [H1 [P1 P2]] Hadd.
  destruct (add_player_gui_spawned env a Hwf)
    as (pos & a1 & a2 & ent & b & _ & Hadd2 & _ & Hwf1 & Hcase & Hsp & Hcls & _ & _ & _ & _
        & _ & Hct & _).
  rewrite Hadd in Hadd2. injection Hadd2 as <-.
  assert (Hn : next_id a1 = next_id a).
  { destruct Hcase as [[-> _]|(old & oent & _ & _ & _ & [Hfr _ _ _ _])]; [done|].
    by destruct Hfr as (_&_&?&_). }
  rewrite <- Hn in Hsp, Hct.
  assert (H1' : synced_space a1 ∧ ∀ e0, e0 ∈ entities a1 → is_player a1 e0 = false).
  { destruct Hcase as [[-> Hno]|(old & oent & Hold & Hin & He & Hrt)].
    - split; [done|]. intros e0 Hin. destruct (is_player a e0) eqn:Hp; [|done].
      apply P1 in Hp; [|done]. destruct Hno as [Hno|(old & Hold & Hdead)]; [congruence|].
      rewrite Hold in Hp. injection Hp as ->.
      exfalso. apply Hdead. by apply (wf_alive _ (proj1 Hwf)).
    - split; [by eapply synced_space_retired; [apply Hwf|..]|].
      intros e0. rewrite (rt_entities _ _ _ _ Hrt).
      intros [Hne Hin0]%list_elem_of_filter.
      assert (Hes : ent_store a1 = ent_store a).
      { destruct Hrt as [Hfr _ _ _ _]. by destruct Hfr as (_&_&_&?&_). }
      unfold is_player. rewrite Hes. fold (is_player a e0).
      destruct (is_player a e0) eqn:Hp; [|done].
      apply P1 in Hp; [|done]. congruence. }
  destruct H1' as [Hs1 Hnone].
  split; [by eapply synced_space_spawned; [apply Hwf1|..]|].
  eapply one_player_spawned_player; [apply Hwf1|done| |done..].
  by rewrite Hcls.
Qed.

Lemma reset_simulation_synced (a a' : App) :
  wf a → synced a → reset_simulation a = Some a' → synced a'.
Proof.
  intros [Hwf Hun] [[S1 S2 S3 S4 S5] _] Hr.
  unfold reset_simulation in Hr. cbv zeta in Hr.
  destruct (kill_all_spec (entities a) (log_event LogResetting a))
    as (a1 & Hk & Hfr & Hb & Hs & _).
  { intros e He. by apply (wf_ents_dom _ Hwf). }
  change (entities (log_event LogResetting a)) with (entities a) in Hr.
  rewrite Hk in Hr. cbn in Hr. injection Hr as <-.
  destruct Hfr as (_ & Hes & _). cbn in Hes, Hb, Hs.
  assert (Hidm : ∀ e c b s, idm a !! e = Some (c, b, s) →
            ∃ ent, ent_store a !! e = Some ent ∧ body ent = b ∧ shape ent = s).
  { intros e c b s (ent & ? & _ & ? & ?)%idm_lookup. eauto. }
  split; [constructor|split]; cbn.
  - intros x. rewrite Hb. split.
    + intros [(e & c & s & Hin & H0)%S1 Hall]. exfalso.
      destruct (Hidm _ _ _ _ H0) as (ent & He & Hbe & _). by apply (Hall e ent Hin He).
    + intros (e & c & s & []%elem_of_nil & _).
  - intros x. rewrite Hs. split.
    + intros [[?|(e & c & b & Hin & H0)]%S2 Hall]; [by left|]. exfalso.
      destruct (Hidm _ _ _ _ H0) as (ent & He & _ & Hse). by apply (Hall e ent Hin He).
    + intros [Hbd|(e & c & b & []%elem_of_nil & _)].
      split; [apply S2; by left|]. intros e ent Hin He ->.
      eapply S5; [|exact Hbd]. apply idm_lookup. by exists ent.
  - unfold idm. cbn. rewrite Hes. apply S3.
  - unfold idm. cbn. rewrite Hes. apply S4.
  - unfold idm. cbn. rewrite Hes. apply S5.
  - by intros e []%elem_of_nil.
  - done.
Qed.

Lemma run_op_synced (op : Op) (a a' : App) :
  wf a → synced a → run_op env op a = Some a' → synced a'.
Proof.
  intros Hwf Hsy Hop. destruct op; cbn [run_op] in Hop.
  - by eapply update_simulation_synced.
  - eapply synced_quiet; [|done]. by eapply on_mouse_press_quiet.
  - eapply synced_quiet; [|done]. by eapply on_mouse_release_quiet.
  - unfold on_right_click, add_object_at_click in Hop.
    destruct (running a); cbn [negb] in Hop; [|by injection Hop as <-].
    destruct (Camera.screen_to_world (camera a) (vec_of_Z (x, y))) as [pos|]; [|done].
    by eapply _add_object_at_pos_synced.
  - eapply synced_quiet; [|done]. by eapply on_mouse_motion_quiet.
  - injection Hop as <-. unfold on_mouse_wheel.
    destruct (running a); cbn [negb]; [|done]. by apply (synced_same a).
  - injection Hop as <-. by apply (synced_same a).
  - injection Hop as <-. by apply (synced_same a).
  - by eapply add_player_gui_synced.
  - unfold add_object_at_mouse_center in Hop.
    destruct (Camera.screen_to_world (camera a) screen_center) as [pos|]; [|done].
    by eapply _add_object_at_pos_synced.
  - by eapply reset_simulation_synced.
  - injection Hop as <-. by apply (synced_same a).
  - injection Hop as <-. by apply (synced_same a).
  - injection Hop as <-. by apply (synced_same a).
Qed.

Lemma initial_app_synced : synced initial_app.
Proof.
  split; [constructor|split]; unfold idm; cbn.
  - intros x. split; [set_solver|]. by intros (e & c & s & []%elem_of_nil & _).
  - intros x. unfold boundary_ids. split; [set_solver|].
    intros [?|(e & c & s & []%elem_of_nil & _)]. set_solver.
  - intros e1 e2 c1 c2 b s1 s2. by rewrite fmap_empty, lookup_empty.
  - intros e1 e2 c1 c2 b1 b2 s. by rewrite fmap_empty, lookup_empty.
  - intros e c b s. by rewrite fmap_empty, lookup_empty.
  - by intros e []%elem_of_nil.
  - done.
Qed.

Lemma reachable_synced (a : App) : reachable env a → synced a.
Proof.
  induction 1 as [a Hinit|op a a' Hr IH Hop].
  - rewrite SimulationApp_init_eq in Hinit. injection Hinit as <-.
    apply initial_app_synced.
  - eapply run_op_synced; [|done..]. by apply reachable_wf in Hr.
Qed.

End Synced.

(** ** Invariants of the running application *)

Lemma omap_total_length {A B} (f : A → option B) (l : list A) :
  (∀ x, x ∈ l → is_Some (f x)) → length (omap f l) = length l.
Proof.
  induction l as [|x l IH]; intros Hall; [done|].
  cbn. destruct (Hall x) as [y ->]; [left|]. cbn.
  rewrite IH; [done|]. intros; apply Hall; by right.
Qed.

Lemma NoDup_omap_inj {A B} (f : A → option B) (l : list A) :
  NoDup l →
  (∀ x y z, x ∈ l → y ∈ l → f x = Some z → f y = Some z → x = y) →
  NoDup (omap f l).
Proof.
  induction 1 as [|x l Hx Hnd IH]; intros Hinj; [constructor|].
  cbn. destruct (f x) as [z|] eqn:Hfx.
  - constructor.
    + intros (y & Hy & Hfy)%list_elem_of_omap.
      apply Hx. rewrite (Hinj x y z); [done|left|by right|done..].
    + apply IH. intros y1 y2 z' H1 H2. apply Hinj; by right.
  - apply IH. intros y1 y2 z' H1 H2. apply Hinj; by right.
Qed.

Lemma filter_none {A} (P : A → Prop) `{!∀ x, Decision (P x)} (l : list A) :
  (∀ x, x ∈ l → ¬ P x) → filter P l = [].
Proof.
  induction l as [|x l IH]; intros Hall; [done|].
  rewrite filter_cons, decide_False by (apply Hall; left).
  apply IH. intros; apply Hall; by right.
Qed.

Lemma filter_one {A} (P : A → Prop) `{!∀ x, Decision (P x)} (l : list A) (p : A) :
  NoDup l → p ∈ l → P p → (∀ x, x ∈ l → P x → x = p) → filter P l = [p].
Proof.
  induction 1 as [|x l Hx Hnd IH]; intros Hin Hp Hall; [by apply elem_of_nil in Hin|].
  rewrite filter_cons. apply elem_of_cons in Hin as [<-|Hin].
  - rewrite decide_True by done. f_equal. apply filter_none.
    intros y Hy HPy. apply Hx. rewrite <- (Hall y); [done|by right|done].
  - rewrite decide_False.
    + apply IH; try done. intros; apply Hall; [by right|done].
    + intros HPx. apply Hx. rewrite (Hall x); [done|left|done].
Qed.

Lemma players_spec (a : App) :
  wf_core a → one_player a → players a = option_list (controllable_object a).
Proof.
  intros Hwf [P1 P2]. unfold players.
  destruct (controllable_object a) as [p|] eqn:Hc; cbn.
  - destruct (P2 p eq_refl) as [Hin Hp].
    apply filter_one; [by apply wf_nodup|done..|].
    intros e He Hpe. apply P1 in Hpe; [|done]. congruence.
  - apply filter_none. intros e He Hpe. apply P1 in Hpe; [|done]. congruence.
Qed.

Lemma live_bodies_elem (a : App) (x : nat) :
  x ∈ live_bodies a ↔ ∃ e c s, e ∈ entities a ∧ idm a !! e = Some (c, x, s).
Proof.
  unfold live_bodies. rewrite list_elem_of_omap. split.
  - intros (e & Hin & He). apply fmap_Some in He as (ent & He & ->).
    exists e, (cls ent), (shape ent). split; [done|]. apply idm_lookup. by exists ent.
  - intros (e & c & s & Hin & (ent & He & _ & <- & _)%idm_lookup).
    exists e. split; [done|]. by rewrite He.
Qed.

Lemma live_shapes_elem (a : App) (x : nat) :
  x ∈ live_shapes a ↔ ∃ e c b, e ∈ entities a ∧ idm a !! e = Some (c, b, x).
Proof.
  unfold live_shapes. rewrite list_elem_of_omap. split.
  - intros (e & Hin & He). apply fmap_Some in He as (ent & He & ->).
    exists e, (cls ent), (body ent). split; [done|]. apply idm_lookup. by exists ent.
  - intros (e & c & b & Hin & (ent & He & _ & _ & <-)%idm_lookup).
    exists e. split; [done|]. by rewrite He.
Qed.

Lemma synced_space_sets (a : App) :
  wf_core a → synced_space a →
  bodies (space a) = list_to_set (live_bodies a) ∧
  shapes (space a) = boundary_ids ∪ list_to_set (live_shapes a) ∧
  NoDup (live_bodies a) ∧ NoDup (live_shapes a) ∧
  length (live_bodies a) = length (entities a) ∧
  length (live_shapes a) = length (entities a) ∧
  boundary_ids ## list_to_set (C := gset nat) (live_shapes a).
Proof.
  intros Hwf [S1 S2 S3 S4 S5].
  assert (Hlook : ∀ e ent, ent_store a !! e = Some ent →
            idm a !! e = Some (cls ent, body ent, shape ent)).
  { intros e ent He. apply idm_lookup. by exists ent. }
  split; [|split; [|split; [|split; [|split; [|split]]]]].
  - apply set_eq. intros x. by rewrite S1, elem_of_list_to_set, live_bodies_elem.
  - apply set_eq. intros x.
    by rewrite S2, elem_of_union, elem_of_list_to_set, live_shapes_elem.
  - apply NoDup_omap_inj; [by apply wf_nodup|].
    intros e1 e2 z _ _ (ent1 & H1 & ->)%fmap_Some (ent2 & H2 & Hb)%fmap_Some.
    apply Hlook in H1, H2. rewrite <- Hb in H2. by eapply S3.
  - apply NoDup_omap_inj; [by apply wf_nodup|].
    intros e1 e2 z _ _ (ent1 & H1 & ->)%fmap_Some (ent2 & H2 & Hb)%fmap_Some.
    apply Hlook in H1, H2. rewrite <- Hb in H2. by eapply S4.
  - apply omap_total_length. intros e He.
    destruct (wf_ents_dom _ Hwf _ He) as [ent ->]. by eexists.
  - apply omap_total_length. intros e He.
    destruct (wf_ents_dom _ Hwf _ He) as [ent ->]. by eexists.
  - intros x Hb (e & c & b & _ & H0)%elem_of_list_to_set%live_shapes_elem.
    by eapply S5.
Qed.


(** X10.  In every reachable state the Space holds exactly the bodies of the
    entities on the list, and exactly their shapes plus the four boundary
    segments: one body and one shape per listed entity, nothing left behind
    by a removed one. *)
Theorem space_holds_live_entities (env : Env) (a : App) :
  reachable env a →
  bodies (space a) = list_to_set (live_bodies a) ∧
  shapes (space a) = boundary_ids ∪ list_to_set (live_shapes a) ∧
  size (bodies (space a)) = length (entities a) ∧
  size (shapes (space a)) = 4 + length (entities a).
Proof.
  intros Hr. pose proof (reachable_wf env a Hr) as [Hwf _].
  destruct (reachable_synced env a Hr) as [Hs _].
  destruct (synced_space_sets a Hwf Hs) as (Hb & Hsh & Hn1 & Hn2 & Hl1 & Hl2 & Hdisj).
  split; [done|]. split; [done|]. rewrite Hb, Hsh. split.
  - by rewrite size_list_to_set.
  - rewrite size_union by done. rewrite size_list_to_set by done. by rewrite Hl2.
Qed.

(** X11.  In every reachable state at most one player is on the entity list, and
    it is [controllable_object]. *)
Theorem at_most_one_player (env : Env) (a : App) :
  reachable env a →
  players a = option_list (controllable_object a) ∧ length (players a) ≤ 1.
Proof.
  intros Hr. pose proof (reachable_wf env a Hr) as [Hwf _].
  destruct (reachable_synced env a Hr) as [_ Hp].
  rewrite (players_spec a Hwf Hp). split; [done|].
  destruct (controllable_object a); cbn; lia.
Qed.

(** X12.  The score is a non-negative multiple of 10 in every reachable state; a
    tick adds 10 for each coin collected in it, a reset sets it to 0, and
    no other callback changes it. *)
Theorem score_moves_by_coins_only (env : Env) (a : App) :
  reachable env a →
  (0 <= score a)%Z ∧ (10 | score a)%Z ∧
  ∀ op a', run_op env op a = Some a' → score a' = score_after env op a.
Proof.
  intros Hr.
  assert (Hstep : ∀ op a', run_op env op a = Some a' → score a' = score_after env op a).
  { intros op a' Hop. by apply (run_op_frame env op a a' (reachable_wf env a Hr)). }
  split; [|split; [|done]].
  - clear Hstep. induction Hr as [a Hinit|op a a' Hr IH Hop].
    + rewrite SimulationApp_init_eq in Hinit. by injection Hinit as <-.
    + destruct (run_op_frame env op a a' (reachable_wf env a Hr) Hop) as (-> & _).
      destruct op; cbn; lia.
  - clear Hstep. induction Hr as [a Hinit|op a a' Hr IH Hop].
    + rewrite SimulationApp_init_eq in Hinit. injection Hinit as <-. by exists 0%Z.
    + destruct (run_op_frame env op a a' (reachable_wf env a Hr) Hop) as (-> & _).
      destruct op; cbn; try done; [|by exists 0%Z].
      apply Z.divide_add_r; [done|]. by apply Z.divide_mul_l.
Qed.

(** X13.  The gravity changes with the two sliders only (each sets its own
    component), and the set of held keys with the key events only. *)
Theorem gravity_and_keys_frame (env : Env) (a a' : App) (op : Op) :
  reachable env a → run_op env op a = Some a' →
  gravity (space a') = gravity_after op a ∧ pressed_keys a' = keys_after op a.
Proof.
  intros Hr Hop.
  by destruct (run_op_frame env op a a' (reachable_wf env a Hr) Hop) as (_ & ? & ?).
Qed.

(** ** Spawning, in a reachable state *)




(** ** The tick, in a reachable state *)

Lemma py_int_pos (q : Q) : (1 <= q)%Q → (0 < py_int q)%Z.
Proof.
  intros Hq. unfold py_int.
  assert (Hb : Qle_bool 0 q = true) by (apply Qle_bool_iff; lra).
  rewrite Hb. pose proof (Qfloor_resp_le 1 q Hq) as Hf.
  change (Qfloor 1) with 1%Z in Hf. lia.
Qed.

Lemma drawn_big (a : App) (e : nat) (ent : Entity) :
  wf_core a → e ∈ entities a → ent_store a !! e = Some ent →
  (5 <= fst (image_size ent))%Z → (5 <= snd (image_size ent))%Z →
  drawn a e = true.
Proof.
  intros Hwf Hin He Hw Hh. unfold drawn, alive. rewrite He.
  rewrite bool_decide_eq_true_2 by by apply (wf_alive _ Hwf).
  destruct (camera_ok_range _ (wf_camera _ Hwf)) as [Hz _].
  assert (Hside : ∀ n : Z, (5 <= n)%Z → (1 <= inject_Z n * zoom (camera a))%Q).
  { intros n Hn. rewrite Zle_Qle in Hn. change (inject_Z 5) with 5%Q in Hn. nra. }
  cbn -[py_int]. apply andb_true_intro.
  split; apply Z.ltb_lt, py_int_pos, Hside; done.
Qed.


(** X18.  The sprites a tick draws are the entities left on the list whose image,
    scaled by the zoom, has no empty side, each once and in list order; an
    image of at least 5 x 5 pixels is never too small. *)
Theorem tick_draws_listed_entities (env : Env) (a : App) :
  reachable env a →
  ∃ a', update_simulation env a = Some a' ∧
    omap draw_of (new_events (events a) (events a')) =
      filter (λ e, drawn a' e = true) (entities a') ∧
    (∀ e ent, e ∈ entities a' → ent_store a' !! e = Some ent →
       (5 <= fst (image_size ent))%Z → (5 <= snd (image_size ent))%Z →
       drawn a' e = true) ∧
    ((∀ e ent, e ∈ entities a' → ent_store a' !! e = Some ent →
        (5 <= fst (image_size ent))%Z ∧ (5 <= snd (image_size ent))%Z) →
     omap draw_of (new_events (events a) (events a')) = entities a').
Proof.
  intros Hr. pose proof (reachable_wf env a Hr) as Hwf.
  destruct (tick_sprites env a Hwf) as (a' & Hup & _ & _ & Hdraw).
  assert (Hr' : reachable env a') by by eapply (reachable_op env OpTick).
  pose proof (reachable_wf env a' Hr') as [Hwf' _].
  exists a'. split; [done|]. split; [done|].
  split; [intros e ent; by apply drawn_big|].
  intros Hbig. rewrite Hdraw. apply filter_all. intros e He.
  destruct (wf_ents_dom _ Hwf' _ He) as [ent Hent].
  destruct (Hbig e ent He Hent). by eapply drawn_big.
Qed.


(** ** The background grid *)

Lemma py_range_spec (start stop step : Z) :
  (0 < step)%Z →
  ∃ l, py_range start stop step = Some l ∧
       ∀ x, x ∈ l ↔ ∃ k, (0 <= k)%Z ∧ x = (start + k * step)%Z ∧ (x < stop)%Z.
Proof.
  intros Hstep. unfold py_range.
  replace (step =? 0)%Z with false by (symmetry; apply Z.eqb_neq; lia).
  replace (0 <? step)%Z with true by (symmetry; apply Z.ltb_lt; lia).
  eexists. split; [reflexivity|]. intros x.
  set (q := ((stop - start + step - 1) / step)%Z).
  pose proof (Z.mul_div_le (stop - start + step - 1) step Hstep) as Hlo.
  pose proof (Z.mul_succ_div_gt (stop - start + step - 1) step Hstep) as Hhi.
  fold q in Hlo, Hhi.
  rewrite list_elem_of_fmap. split.
  - intros (k & -> & Hk%elem_of_seq). exists (Z.of_nat k).
    split; [lia|]. split; [done|]. nia.
  - intros (k & Hk & -> & Hlt). exists (Z.to_nat k).
    split; [by rewrite Z2Nat.id|]. apply elem_of_seq. nia.
Qed.

Lemma py_int_floor_range (q : Q) (lo hi : Z) :
  (0 <= lo)%Z → (inject_Z lo <= q)%Q → (q <= inject_Z hi)%Q →
  (lo <= py_int q <= hi)%Z.
Proof.
  intros H0 Hlo Hhi. unfold py_int.
  assert (Hq : (0 <= q)%Q).
  { rewrite Zle_Qle in H0. change (inject_Z 0) with 0%Q in H0. lra. }
  apply Qle_bool_iff in Hq. rewrite Hq.
  pose proof (Qfloor_resp_le _ _ Hlo) as H1. pose proof (Qfloor_resp_le _ _ Hhi) as H2.
  rewrite Qfloor_Z in H1, H2. lia.
Qed.

(** X20.  In every reachable state the grid is drawn (the zoom never makes it
    finer than 20 pixels): its spacing is [int(100 * zoom)], between 20 and
    300 pixels, every pixel column of the 1000 x 600 surface has a vertical
    line at most one spacing to its left and every pixel row a horizontal
    line at most one spacing above it, and no line starts more than one
    spacing off the surface. *)
Theorem grid_covers_screen (env : Env) (a : App) :
  reachable env a →
  let g := py_int (100 * zoom (camera a)) in
  (20 <= g <= 300)%Z ∧
  ∃ lines, _draw_grid a = Some lines ∧
    (∀ px, (0 <= px < 1000)%Z →
       ∃ x, ((x, 0%Z), (x, 600%Z)) ∈ lines ∧ (x <= px < x + g)%Z) ∧
    (∀ py, (0 <= py < 600)%Z →
       ∃ y, ((0%Z, y), (1000%Z, y)) ∈ lines ∧ (y <= py < y + g)%Z) ∧
    (∀ l, l ∈ lines →
       (∃ x, l = ((x, 0%Z), (x, 600%Z)) ∧ (- g < x < 1000)%Z) ∨
       (∃ y, l = ((0%Z, y), (1000%Z, y)) ∧ (- g < y < 600)%Z)).
Proof.
  intros Hr. apply reachable_wf in Hr as [Hwf _].
  destruct (camera_ok_range _ (wf_camera _ Hwf)) as [Hlo Hhi].
  cbv zeta. set (g := py_int (100 * zoom (camera a))).
  assert (Hg : (20 <= g <= 300)%Z).
  { apply py_int_floor_range; [lia|..].
    - change (inject_Z 20) with 20%Q. lra.
    - change (inject_Z 300) with 300%Q. lra. }
  split; [done|]. unfold _draw_grid. cbv zeta. fold g.
  replace (g <? 20)%Z with false by (symmetry; apply Z.ltb_ge; lia).
  unfold py_mod. replace (g =? 0)%Z with false by (symmetry; apply Z.eqb_neq; lia).
  cbn [mbind option_bind].
  set (ox := (py_int (offset_x (camera a) * zoom (camera a)) mod g)%Z).
  set (oy := (py_int (offset_y (camera a) * zoom (camera a)) mod g)%Z).
  assert (Hox : (0 <= ox < g)%Z) by (apply Z.mod_pos_bound; lia).
  assert (Hoy : (0 <= oy < g)%Z) by (apply Z.mod_pos_bound; lia).
  change (py_int SCREEN_WIDTH) with 1000%Z. change (py_int SCREEN_HEIGHT) with 600%Z.
  destruct (py_range_spec (- ox) 1000 g) as (xs & -> & Hxs); [lia|].
  destruct (py_range_spec (- oy) 600 g) as (ys & -> & Hys); [lia|].
  cbn [mbind option_bind]. eexists. split; [reflexivity|].
  split; [|split].
  - intros px Hpx. exists (- ox + (px + ox) / g * g)%Z.
    pose proof (Z.mul_div_le (px + ox) g) as H1.
    pose proof (Z.mul_succ_div_gt (px + ox) g) as H2.
    assert (0 <= (px + ox) / g)%Z by (apply Z.div_pos; lia).
    split; [|lia]. apply elem_of_app. left. apply list_elem_of_fmap.
    eexists. split; [reflexivity|]. apply Hxs. exists ((px + ox) / g)%Z. lia.
  - intros py Hpy. exists (- oy + (py + oy) / g * g)%Z.
    pose proof (Z.mul_div_le (py + oy) g) as H1.
    pose proof (Z.mul_succ_div_gt (py + oy) g) as H2.
    assert (0 <= (py + oy) / g)%Z by (apply Z.div_pos; lia).
    split; [|lia]. apply elem_of_app. right. apply list_elem_of_fmap.
    eexists. split; [reflexivity|]. apply Hys. exists ((py + oy) / g)%Z. lia.
  - intros l [Hl|Hl]%elem_of_app; apply list_elem_of_fmap in Hl as (v & -> & Hv).
    + left. exists v. split; [done|]. apply Hxs in Hv as (k & Hk & -> & Hlt). nia.
    + right. exists v. split; [done|]. apply Hys in Hv as (k & Hk & -> & Hlt). nia.
Qed.

(** ** The image cache *)



(** ** Object identities are never reused *)

Section Identities.

Variable env : Env.

Lemma update_simulation_next_id (a a' : App) :
  wf a → update_simulation env a = Some a' → next_id a' = next_id a.
Proof.
  intros Hwf Hup.
  destruct (update_simulation_spec env a Hwf)
    as (a1 & c & a3 & a4 & syncs & draws & a2 & Hts & Hup2 & _).
  rewrite Hup in Hup2. injection Hup2 as <-.
  destruct Hts as
    [T_step T_wf1 T_frame1 T_events1 T_score1 T_marks1 T_keys T_camera T_steer
     T_steer_cases T_wf3 T_sweep T_wf4 T_frame4 T_marks4 T_entities4 T_events4
     T_syncs T_render T_final T_draws].
  destruct T_frame1 as (F1n & _). destruct T_frame4 as (F4n & _).
  assert (H3 : next_id a3 = next_id a1).
  { by destruct T_steer_cases as [[-> _]|(p & ent & mag & b & _ & _ & _ & _ & _ & _ & ->)]. }
  rewrite T_final. cbn. congruence.
Qed.

Lemma on_mouse_press_next_id (x y : Z) (a a' : App) :
  on_mouse_press env x y a = Some a' → next_id a ≤ next_id a'.
Proof.
  unfold on_mouse_press. destruct (running a); cbn -[decide Qpower];
    [|by intros [= <-]].
  destruct (Camera.screen_to_world (camera a) (vec_of_Z (x, y))) as [pos|]; [|done].
  cbn -[decide Qpower].
  destruct (point_query_nearest env _ _ _ pos 0) as [info|]; [|by intros [= <-]].
  destruct (pq_shape info) as [s|]; [|by intros [= <-]].
  destruct (shape_store a !! s) as [sh|]; [|done]. cbn -[decide Qpower].
  destruct (body_store a !! shape_body sh) as [b|]; [|done]. cbn -[decide Qpower].
  case_decide; [|by intros [= <-]].
  unfold Space.add_constraint. cbn -[decide Qpower].
  case_decide; [done|]. cbn -[decide Qpower]. intros [= <-]. cbn. lia.
Qed.

Lemma on_mouse_release_next_id (a a' : App) :
  on_mouse_release a = Some a' → next_id a' = next_id a.
Proof.
  unfold on_mouse_release. destruct (running a); cbn -[decide]; [|by intros [= <-]].
  destruct (mouse_joint a) as [j|]; [|by intros [= <-]].
  case_decide; [|by intros [= <-]].
  unfold Space.remove_constraint. rewrite decide_True by done. cbn.
  by intros [= <-].
Qed.

Lemma on_mouse_motion_next_id (x y : Z) (a a' : App) :
  on_mouse_motion x y a = Some a' → next_id a' = next_id a.
Proof.
  unfold on_mouse_motion. destruct (running a); cbn; [|by intros [= <-]].
  destruct (Camera.screen_to_world (camera a) (vec_of_Z (x, y))) as [pos|]; [|done].
  cbn. destruct (body_store a !! mouse_body a) as [b|]; [|done]. cbn.
  by intros [= <-].
Qed.

Lemma spawned_entities (a a' : App) (e : nat) (ent : Entity) :
  spawned a a' e ent →
  next_id a ≤ next_id a' ∧
  ∀ e0, e0 ∈ entities a' → e0 ∈ entities a ∨ next_id a ≤ e0.
Proof.
  intros Hsp. split; [apply Hsp|]. intros e0.
  rewrite (sp_entities _ _ _ _ Hsp).
  intros [?|Heq%list_elem_of_singleton]%elem_of_app; [by left|].
  right. subst. apply Hsp.
Qed.

(** No callback puts an old object back on the entity list: what it adds
    is new. *)
Lemma run_op_entities (op : Op) (a a' : App) :
  wf a → run_op env op a = Some a' →
  next_id a ≤ next_id a' ∧
  ∀ e, e ∈ entities a' → e ∈ entities a ∨ next_id a ≤ e.
Proof.
  intros Hwf Hop. destruct op; cbn [run_op] in Hop.
  - rewrite (update_simulation_next_id a a' Hwf Hop). split; [done|].
    destruct (tick_space env a Hwf) as (a1 & a2 & _ & Hup & _ & _ & Hen & _).
    rewrite Hop in Hup. injection Hup as <-. intros e. rewrite Hen.
    intros [_ ?]%list_elem_of_filter. by left.
  - split; [by eapply on_mouse_press_next_id|].
    apply on_mouse_press_quiet in Hop as (-> & _). by left.
  - rewrite (on_mouse_release_next_id a a' Hop). split; [done|].
    apply on_mouse_release_quiet in Hop as (-> & _). by left.
  - unfold on_right_click, add_object_at_click in Hop.
    rewrite (wf_running _ (proj1 Hwf)) in Hop. cbn [negb] in Hop.
    destruct (Camera.screen_to_world (camera a) (vec_of_Z (x, y))) as [pos|]; [|done].
    cbn in Hop.
    destruct (_add_object_at_pos_spawned env pos "ball" EntityBase a Hwf eq_refl)
      as (a2 & ent & b & sh & Hadd & _ & Hsp & _).
    rewrite Hadd in Hop. injection Hop as <-. by eapply spawned_entities.
  - rewrite (on_mouse_motion_next_id x y a a' Hop). split; [done|].
    apply on_mouse_motion_quiet in Hop as (-> & _). by left.
  - injection Hop as <-. unfold on_mouse_wheel.
    destruct (running a); cbn; (split; [done|]); by left.
  - injection Hop as <-. split; [done|]. by left.
  - injection Hop as <-. split; [done|]. by left.
  - destruct (add_player_gui_spawned env a Hwf)
      as (pos & a1 & a2 & ent & b & _ & Hadd & _ & _ & Hcase & Hsp & _).
    rewrite Hadd in Hop. injection Hop as <-.
    assert (H1 : next_id a1 = next_id a ∧ ∀ e, e ∈ entities a1 → e ∈ entities a).
    { destruct Hcase as [[-> _]|(old & oent & _ & _ & _ & [Hfr _ _ _ Hen])]; [done|].
      destruct Hfr as (_&_&?&_). split; [done|]. intros e. rewrite Hen.
      by intros [_ ?]%list_elem_of_filter. }
    destruct H1 as [Hn1 Hsub].
    destruct (spawned_entities a1 _ _ ent Hsp) as [Hle Hnew]. rewrite Hn1 in Hle, Hnew.
    split; [done|]. intros e He. destruct (Hnew e He) as [?|?]; [left; auto|by right].
  - unfold add_object_at_mouse_center in Hop.
    destruct (Camera.screen_to_world (camera a) screen_center) as [pos|]; [|done].
    cbn in Hop. destruct (type_class entity_type_str) as [c|] eqn:Hc.
    + destruct (_add_object_at_pos_spawned env pos entity_type_str c a Hwf Hc)
        as (a2 & ent & b & sh & Hadd & _ & Hsp & _).
      rewrite Hadd in Hop. injection Hop as <-. by eapply spawned_entities.
    + rewrite _add_object_at_pos_unknown in Hop by done. injection Hop as <-.
      split; [done|]. by left.
  - unfold reset_simulation in Hop. cbv zeta in Hop.
    destruct (kill_all_spec (entities a) (log_event LogResetting a))
      as (a1 & Hk & Hfr & _).
    { intros e He. by apply (wf_ents_dom _ (proj1 Hwf)). }
    change (entities (log_event LogResetting a)) with (entities a) in Hop.
    rewrite Hk in Hop. cbn in Hop. injection Hop as <-.
    destruct Hfr as (Hn & _). cbn in *. rewrite Hn. split; [done|].
    by intros e ?%elem_of_nil.
  - injection Hop as <-. split; [done|]. by left.
  - injection Hop as <-. split; [done|]. by left.
  - injection Hop as <-. split; [done|]. by left.
Qed.

Lemma run_ops_entities (ops : list Op) (a a' : App) :
  reachable env a → run_ops env ops a = Some a' →
  next_id a ≤ next_id a' ∧
  ∀ e, e ∈ entities a' → e ∈ entities a ∨ next_id a ≤ e.
Proof.
  revert a. induction ops as [|op ops IH]; intros a Hr Hrun.
  - injection Hrun as <-. split; [done|]. by left.
  - cbn [run_ops] in Hrun. destruct (run_op env op a) as [a1|] eqn:Hop; [|done].
    cbn in Hrun.
    destruct (run_op_entities op a a1 (reachable_wf env a Hr) Hop) as [Hle1 Hsub1].
    destruct (IH a1 (reachable_op env op a a1 Hr Hop) Hrun) as [Hle2 Hsub2].
    split; [lia|]. intros e He. destruct (Hsub2 e He) as [H1|H1]; [|right; lia].
    apply Hsub1 in H1. done.
Qed.

End Identities.

(** X22.  A coin collected in a tick is gone for good: whatever happens after
    that tick, it is never on the entity list again, so it is never
    collected (and never scores) a second time, and its body and shape
    never return to the Space. *)
Theorem collected_coin_never_returns (env : Env) (a a1 a2 : App) (e : nat)
    (ops : list Op) :
  reachable env a → e ∈ collected env a →
  update_simulation env a = Some a1 → run_ops env ops a1 = Some a2 →
  ¬ e ∈ entities a1 ∧ ¬ e ∈ entities a2 ∧ ¬ e ∈ collected env a2 ∧
  ∀ ent, ent_store a2 !! e = Some ent →
         ¬ body ent ∈ bodies (space a2) ∧ ¬ shape ent ∈ shapes (space a2).
Proof.
  intros Hr Hcol Hup Hrun. pose proof (reachable_wf env a Hr) as Hwf.
  assert (Hr1 : reachable env a1) by by eapply (reachable_op env OpTick).
  assert (Hr2 : reachable env a2) by by eapply reachable_run_ops.
  pose proof (reachable_wf env a2 Hr2) as [Hwf2 _].
  assert (Hin : e ∈ entities a) by by eapply collected_on_list; [apply Hwf|].
  assert (Hlt : e < next_id a).
  { apply (wf_store_fresh _ (proj1 Hwf)). left. by apply (wf_ents_dom _ (proj1 Hwf)). }
  assert (Hn1 : ¬ e ∈ entities a1).
  { destruct (tick_space env a Hwf) as (b1 & b2 & _ & Hup2 & _ & _ & Hen & _).
    rewrite Hup in Hup2. injection Hup2 as <-. rewrite Hen.
    by intros [? _]%list_elem_of_filter. }
  assert (Hn2 : ¬ e ∈ entities a2).
  { destruct (run_ops_entities env ops a1 a2 Hr1 Hrun) as [_ Hsub].
    intros He. destruct (Hsub e He) as [?|Hge]; [done|].
    rewrite (update_simulation_next_id env a a1 Hwf Hup) in Hge. lia. }
  split; [done|]. split; [done|].
  split; [intros Hc; by apply Hn2, (collected_on_list env a2)|].
  intros ent He. by apply (wf_detached _ Hwf2 e ent).
Qed.

(** ** The further properties at work on the example scene *)

Lemma demo_state_reachable_quiet : reachable quiet_env demo_state.
Proof.
  apply (reachable_run_ops quiet_env demo_ops initial_app).
  - apply reachable_init. vm_compute. reflexivity.
  - vm_compute. reflexivity.
Qed.

Lemma camera_zoom_clamped_witness :
  (min_zoom default_camera <= zoom (Camera.zoom_in default_camera) <=
   max_zoom default_camera)%Q.
Proof.
  apply (camera_zoom_clamped default_camera); vm_compute; congruence.
Defined.

Lemma camera_pan_shifts_screen_witness :
  ∃ c', Camera.pan zoomed_camera 30 0 = Some c' ∧
        (Camera.screen_x c' 50 == Camera.screen_x zoomed_camera 50 - 30)%Q.
Proof.
  destruct (proj2 (camera_pan_shifts_screen zoomed_camera 30 0))
    as (c' & Hpan & _ & _ & _ & Hshift).
  - vm_compute. congruence.
  - exists c'. split; [exact Hpan|]. exact (proj1 (Hshift 50%Q 0%Q)).
Defined.

Lemma key_press_release_roundtrip_witness :
  on_key_release "W" (on_key_press "w" initial_app) = initial_app.
Proof.
  apply (key_press_release_roundtrip "w" "W" initial_app).
  - reflexivity.
  - change (¬ lower "w" ∈ (∅ : gset string)). apply not_elem_of_empty.
Defined.

Lemma keyboard_pan_offset_witness :
  ∃ c, handle_keyboard_input (on_key_press "Left" initial_app) =
         Some (set_camera c (emit EvSampleKeys (on_key_press "Left" initial_app))) ∧
       (offset_x c == -15)%Q.
Proof.
  destruct (keyboard_pan_offset (on_key_press "Left" initial_app))
    as (c & Hk & _ & Hx & _).
  - vm_compute. congruence.
  - exists c. split; [exact Hk|]. rewrite Hx. vm_compute. reflexivity.
Defined.

Lemma add_object_unknown_type_ignored_witness :
  _add_object_at_pos quiet_env (500, 300)%Q "triangle" demo_state = Some demo_state.
Proof.
  refine (proj1 (add_object_unknown_type_ignored quiet_env (500, 300)%Q "triangle"
                   demo_state _)).
  unfold known_types. intros H.
  repeat (apply elem_of_cons in H as [H|H]; [discriminate H|]).
  by apply elem_of_nil in H.
Defined.

Lemma drag_press_release_roundtrip_witness :
  ∃ a1 a2, on_mouse_press contact_env 500 300 demo_state = Some a1 ∧
           on_mouse_release a1 = Some a2 ∧ space a2 = space demo_state.
Proof.
  destruct (drag_press_release_roundtrip contact_env demo_state 500 300)
    as (a1 & a2 & H1 & H2 & H3 & _).
  - exact demo_state_reachable_contact.
  - vm_compute. reflexivity.
  - exists a1, a2. split; [exact H1|]. split; [exact H2|exact H3].
Defined.


Lemma space_holds_live_entities_witness :
  size (bodies (space demo_state)) = length (entities demo_state) ∧
  size (shapes (space demo_state)) = 4 + length (entities demo_state).
Proof.
  exact (proj2 (proj2 (space_holds_live_entities quiet_env demo_state
                         demo_state_reachable_quiet))).
Defined.

Lemma at_most_one_player_witness :
  players demo_state = option_list (controllable_object demo_state).
Proof.
  exact (proj1 (at_most_one_player quiet_env demo_state demo_state_reachable_quiet)).
Defined.

Lemma score_moves_by_coins_only_witness :
  score after_coin_tick = score_after contact_env OpTick demo_state.
Proof.
  apply (proj2 (proj2 (score_moves_by_coins_only contact_env demo_state
                         demo_state_reachable_contact)) OpTick after_coin_tick).
  vm_compute. reflexivity.
Defined.

Lemma gravity_and_keys_frame_witness :
  gravity (space (update_gravity_x 5 demo_state)) =
    gravity_after (OpGravityX 5) demo_state ∧
  pressed_keys (update_gravity_x 5 demo_state) =
    keys_after (OpGravityX 5) demo_state.
Proof.
  apply (gravity_and_keys_frame quiet_env demo_state (update_gravity_x 5 demo_state)
           (OpGravityX 5)).
  - exact demo_state_reachable_quiet.
  - reflexivity.
Defined.





Lemma tick_draws_listed_entities_witness :
  ∃ a', update_simulation quiet_env demo_state = Some a' ∧
        omap draw_of (new_events (events demo_state) (events a')) =
          filter (λ e, drawn a' e = true) (entities a').
Proof.
  destruct (tick_draws_listed_entities quiet_env demo_state demo_state_reachable_quiet)
    as (a' & H1 & H2 & _).
  exists a'. split; [exact H1|exact H2].
Defined.


Lemma grid_covers_screen_witness :
  (20 <= py_int (100 * zoom (camera demo_state)) <= 300)%Z.
Proof.
  exact (proj1 (grid_covers_screen quiet_env demo_state demo_state_reachable_quiet)).
Defined.


Lemma drag_second_press_leaks_joint_witness :
  ∃ a2 a3 j1,
    on_mouse_press contact_env 500 300 dragging_state = Some a2 ∧
    on_mouse_release a2 = Some a3 ∧ mouse_joint a3 = None ∧
    ¬ j1 ∈ constraints (space demo_state) ∧
    constraints (space a3) = {[j1]} ∪ constraints (space demo_state).
Proof.
  destruct (drag_second_press_leaks_joint contact_env demo_state dragging_state
              500 300 500 300 (1000 # 2, 600 # 2)%Q (1000 # 2, 600 # 2)%Q 18 18)
    as (a2 & a3 & j1 & j2 & H1 & H2 & _ & _ & _ & H3 & _ & H4 & H5 & _).
  - exact demo_state_reachable_contact.
  - vm_compute. reflexivity.
  - exists (mkPointQueryInfo (Some 18%nat) (1000 # 2, 600 # 2)%Q 0),
           (mkShape 17 (Circle 15) 1 (Some 16%nat)),
           (mkBody DYNAMIC (Some 5%Q) (2000 # 4, 1200 # 4)%Q 0 [] []).
    repeat split; vm_compute; reflexivity.
  - vm_compute. reflexivity.
  - vm_compute. reflexivity.
  - exists (mkPointQueryInfo (Some 18%nat) (1000 # 2, 600 # 2)%Q 0),
           (mkShape 17 (Circle 15) 1 (Some 16%nat)),
           (mkBody DYNAMIC (Some 5%Q) (2000 # 4, 1200 # 4)%Q 0 [] []).
    repeat split; vm_compute; reflexivity.
  - exists a2, a3, j1. split; [exact H1|]. split; [exact H2|].
    split; [exact H5|]. split; [exact H3|exact H4].
Defined.

Lemma collected_coin_never_returns_witness :
  ¬ 6%nat ∈ entities later_state ∧ ¬ 6%nat ∈ collected contact_env later_state.
Proof.
  destruct (collected_coin_never_returns contact_env demo_state after_coin_tick
              later_state 6 later_ops) as (_ & H1 & H2 & _).
  - exact demo_state_reachable_contact.
  - vm_compute. left.
  - vm_compute. reflexivity.
  - vm_compute. reflexivity.
  - split; [exact H1|exact H2].
Defined.
